(** * Brevitas: FINN activation placeholders and the BNN-PYNQ trainer

    A shallow embedding of
      - [brevitas/onnx/finn/function/act.py]  (modules [Onnx], [Tensor],
        [QuantHardTanhPlaceholderFunction], [QuantReLUPlaceholderFunction]);
      - [brevitas_examples/bnn_pynq/trainer.py] (modules [OsPath], [Float],
        [Accuracy], [Batch], [Trainer]).

    Conventions.  Python [str] is [string]; Python [int] is [Z];
    [None]-able arguments are [option]; a [dict] with string keys is a
    [gmap string _].  The scores of a tensor are rationals [Q]: every finite
    floating point number is one, and the code only compares, clamps and
    copies them.  The percentages that [accuracy] computes from them are
    floating point numbers, with the IEEE 754 operations in the precision
    the code uses; the top-1 percentage of [eval_model] is kept as the exact
    quotient that the code rounds.  Calls into the framework (torch, torchvision,
    ONNX export, the file system) are recorded as events, their outcomes
    being supplied by an environment record. *)

From Stdlib Require Import ZArith QArith Qminmax Lia List Ascii String.
From Stdlib Require SpecFloat.
From stdpp Require Import base option list strings gmap sorting.

Close Scope Q_scope.
Open Scope Z_scope.

(* ===================================================================== *)
(** * The traced ONNX graph ([g] in [symbolic(g, ...)])                   *)
(* ===================================================================== *)

Module Onnx.

(** A value of the traced graph: either a value coming from outside the
    nodes emitted so far (an input, an initializer), or the output of the
    node at a given position of the graph. *)
Inductive value : Type :=
| Ext (name : string)
| Out (node : nat).

(** Attribute values given as keyword arguments of [g.op]; the keyword
    carries the torch type suffix ([_s] string, [_f] float). *)
Inductive attr : Type :=
| AttrS (s : string)
| AttrF (q : Q).

Record node : Type := mkNode {
  op_type : string;
  inputs : list value;
  kwargs : list (string * attr)
}.

Definition graph : Type := list node.

(** Graph-building computations: [g] is threaded through the calls. *)
Definition G (A : Type) : Type := graph → A * graph.

#[global] Instance G_ret : MRet G := λ A a g, (a, g).
#[global] Instance G_bind : MBind G :=
  λ A B k m g, let '(a, g') := m g in k a g'.

(** [g.op(kind, *args, **kw)]: appends one node, returns its output. *)
Definition op (kind : string) (args : list value)
    (kw : list (string * attr)) : G value :=
  λ g, (Out (length g), g ++ [mkNode kind args kw]).

(** The nodes a computation appended to [g]. *)
Definition emitted {A} (m : G A) (g : graph) : list node :=
  drop (length g) (m g).2.

End Onnx.

(* ===================================================================== *)
(** * Tensors, as far as [forward] needs them                            *)
(* ===================================================================== *)

Module Tensor.

(** The elements of a tensor in row-major order. *)
Definition tensor : Type := list Q.

(** [x.clamp(lo)], i.e. [clamp(min=lo)], on one element. *)
Definition clamp_min_elt (lo x : Q) : Q :=
  if Qle_bool lo x then x else lo.

(** [t.clamp(lo)]: element-wise. *)
Definition clamp (lo : Q) (t : tensor) : tensor :=
  clamp_min_elt lo <$> t.

End Tensor.

(* ===================================================================== *)
(** * act.py                                                              *)
(* ===================================================================== *)

Module QuantHardTanhPlaceholderFunction.
Import Onnx.

Definition symbolic (input : value) (qnt_type : string) (thres : value)
    (bias scale : option value) : G value :=
  if decide (qnt_type = "BIPOLAR") then
    op "MultiThreshold" [input; thres]
       [("domain_s", AttrS "finn");
        ("out_dtype_s", AttrS qnt_type);
        ("out_scale_f", AttrF 2);
        ("out_bias_f", AttrF (-1))]
  else
    (ret0 ← op "MultiThreshold" [input; thres]
             [("domain_s", AttrS "finn"); ("out_dtype_s", AttrS qnt_type)] ;
     ret1 ← match bias with
            | Some b => op "Add" [ret0; b] []
            | None => mret ret0
            end ;
     ret2 ← match scale with
            | Some s => op "Mul" [ret1; s] []
            | None => mret ret1
            end ;
     mret ret2).

Definition forward {Ctx : Type} (ctx : Ctx) (input : Tensor.tensor)
    (qnt_type : string) (thres : Tensor.tensor)
    (bias scale : option Tensor.tensor) : Tensor.tensor :=
  Tensor.clamp 0 input.

End QuantHardTanhPlaceholderFunction.

Module QuantReLUPlaceholderFunction.
Import Onnx.

Definition symbolic (input : value) (qnt_type : string) (thres : value)
    (bias scale : option value) : G value :=
  (ret0 ← op "MultiThreshold" [input; thres]
           [("domain_s", AttrS "finn"); ("out_dtype_s", AttrS qnt_type)] ;
   ret1 ← match scale with
          | Some s => op "Mul" [ret0; s] []
          | None => mret ret0
          end ;
   mret ret1).

Definition forward {Ctx : Type} (ctx : Ctx) (input : Tensor.tensor)
    (qnt_type : string) (thres : Tensor.tensor)
    (bias scale : option Tensor.tensor) : Tensor.tensor :=
  Tensor.clamp 0 input.

End QuantReLUPlaceholderFunction.

Module HT := QuantHardTanhPlaceholderFunction.
Module RL := QuantReLUPlaceholderFunction.

(** ** Node shapes used to state what [symbolic] emits *)

Module ActSpec.
Import Onnx.

Definition multi_threshold (input thres : value) (qnt_type : string) : node :=
  mkNode "MultiThreshold" [input; thres]
         [("domain_s", AttrS "finn"); ("out_dtype_s", AttrS qnt_type)].

Definition multi_threshold_bipolar (input thres : value)
    (qnt_type : string) : node :=
  mkNode "MultiThreshold" [input; thres]
         [("domain_s", AttrS "finn"); ("out_dtype_s", AttrS qnt_type);
          ("out_scale_f", AttrF 2); ("out_bias_f", AttrF (-1))].

Definition binary (kind : string) (lhs rhs : value) : node :=
  mkNode kind [lhs; rhs] [].

(** After a threshold node at position [n]: an Add of [bias] exactly when
    there is one, then a Mul by [scale] exactly when there is one, each
    consuming the output of the node emitted just before it. *)
Definition add_then_mul (n : nat) (bias scale : option value) : list node :=
  match bias, scale with
  | None, None => []
  | Some b, None => [binary "Add" (Out n) b]
  | None, Some s => [binary "Mul" (Out n) s]
  | Some b, Some s => [binary "Add" (Out n) b; binary "Mul" (Out (S n)) s]
  end.

Definition mul_only (n : nat) (scale : option value) : list node :=
  match scale with
  | None => []
  | Some s => [binary "Mul" (Out n) s]
  end.

End ActSpec.

(* ===================================================================== *)
(** * Exceptions                                                          *)
(* ===================================================================== *)

(** The Python exceptions that the modelled code can raise. *)
Inductive exn : Type :=
| Exception (msg : string)
| ValueError (what : string)
| ZeroDivisionError
| RuntimeError (what : string)
| NameError (name : string)
| KeyError (key : string)
| TypeError (what : string)
| IndexError (what : string)
| AttributeError (attribute : string)
| OSError (path : string)
| AssertionError.

Inductive result (A : Type) : Type :=
| Ok (a : A)
| Raise (e : exn).
Arguments Ok {A} a.
Arguments Raise {A} e.

(* ===================================================================== *)
(** * Floating point numbers                                              *)
(* ===================================================================== *)

(** IEEE 754 binary64 (Python [float]) and binary32 ([torch.float32]), with
    round to nearest, ties to even. *)
Module Float.

Definition float : Type := SpecFloat.spec_float.

(** [float(z)] for a Python int (binary64). *)
Definition f64_of_Z (z : Z) : float :=
  SpecFloat.binary_normalize 53 1024 z 0 false.

(** [x / y] on Python floats. *)
Definition div64 (x y : float) : float := SpecFloat.SFdiv 53 1024 x y.

(** A count held in a [float32] tensor. *)
Definition f32_of_Z (z : Z) : float :=
  SpecFloat.binary_normalize 24 128 z 0 false.

(** A Python float used as the scalar of a [float32] operation: it is
    rounded to binary32 first. *)
Definition to32 (x : float) : float :=
  match x with
  | SpecFloat.S754_finite s m e => SpecFloat.binary_round 24 128 s m e
  | _ => x
  end.

(** [x * y] on [float32]. *)
Definition mul32 (x y : float) : float := SpecFloat.SFmul 24 128 x y.

(** [count.mul_(100.0 / batch_size)] for a [float32] count: the quotient is
    a Python float. *)
Definition scaled (batch_size count : Z) : float :=
  mul32 (f32_of_Z count) (to32 (div64 (f64_of_Z 100) (f64_of_Z batch_size))).

(** The rational a finite float stands for (0 for the others). *)
Definition to_Q (x : float) : Q :=
  match x with
  | SpecFloat.S754_finite s m e =>
      let v := if 0 <=? e then inject_Z (Z.pos m * 2 ^ e)
               else (inject_Z (Z.pos m) / inject_Z (2 ^ (- e)))%Q in
      if s then (- v)%Q else v
  | _ => 0%Q
  end.

(** +0.0 *)
Definition zero : float := SpecFloat.S754_zero false.

End Float.

(* ===================================================================== *)
(** * os.path (POSIX flavour), as used by trainer.py                       *)
(* ===================================================================== *)

Module OsPath.

Definition sep : ascii := "/"%char.

Definition is_sep (c : ascii) : bool := bool_decide (c = sep).

(** [s.startswith('/')] and [s.endswith('/')] *)
Definition startswith_sep (s : list ascii) : bool :=
  match s with
  | c :: _ => is_sep c
  | [] => false
  end.

Fixpoint endswith_sep (s : list ascii) : bool :=
  match s with
  | [] => false
  | [c] => is_sep c
  | _ :: r => endswith_sep r
  end.

(** ['/' in s] *)
Definition has_sep (s : list ascii) : bool := existsb is_sep s.

(** [posixpath.join(a, b)] with a single component [b] *)
Definition join_chars (a b : list ascii) : list ascii :=
  if startswith_sep b then b
  else if bool_decide (a = []) || endswith_sep a then a ++ b
  else a ++ sep :: b.

(** [p.rfind('/') + 1]: the index right after the last separator, [0] when
    there is none *)
Fixpoint rfind_sep_succ (p : list ascii) : nat :=
  match p with
  | [] => 0
  | c :: r =>
      match rfind_sep_succ r with
      | O => if is_sep c then 1 else 0
      | S i => S (S i)
      end
  end.

(** [s.rstrip('/')] *)
Fixpoint rstrip_sep (s : list ascii) : list ascii :=
  match s with
  | [] => []
  | c :: r =>
      match rstrip_sep r with
      | [] => if is_sep c then [] else [c]
      | r' => c :: r'
      end
  end.

(** [posixpath.split(p)] *)
Definition split_chars (p : list ascii) : list ascii * list ascii :=
  let i := rfind_sep_succ p in
  let head := take i p in
  let tail := drop i p in
  let head :=
    if negb (bool_decide (head = [])) && negb (forallb is_sep head)
    then rstrip_sep head else head in
  (head, tail).

Definition join (a b : string) : string :=
  string_of_list_ascii
    (join_chars (list_ascii_of_string a) (list_ascii_of_string b)).

Definition split (p : string) : string * string :=
  let '(head, tail) := split_chars (list_ascii_of_string p) in
  (string_of_list_ascii head, string_of_list_ascii tail).

End OsPath.

(* ===================================================================== *)
(** * trainer.py: [accuracy]                                               *)
(* ===================================================================== *)

Module Accuracy.

(** A batch of scores [output] is the list of its rows (one row per sample,
    one score per class); [target] holds one label per sample. *)

(** [row.topk(k, largest=True, sorted=True)[1]] for a [k] within the row:
    the indices of [k] largest scores, by decreasing score.  Which of
    several classes with the same score comes first, or is left out, is
    torch's choice; it is a parameter here. *)
Class TopK : Type := topk_select : nat → list Q → list nat.

(** What every implementation guarantees of its result [l]. *)
Definition is_topk (k : nat) (row : list Q) (l : list nat) : Prop :=
  length l = k
  ∧ NoDup l
  ∧ (∀ i, i ∈ l → is_Some (row !! i))
  ∧ (∀ (a b i j : nat) (qi qj : Q),
       (a < b)%nat → l !! a = Some i → l !! b = Some j →
       row !! i = Some qi → row !! j = Some qj → (qj <= qi)%Q)
  ∧ (∀ (i j : nat) (qi qj : Q),
       i ∈ l → j ∉ l →
       row !! i = Some qi → row !! j = Some qj → (qj <= qi)%Q).

Definition topk_law `{TopK} : Prop :=
  ∀ (k : nat) (row : list Q),
    (k ≤ length row)%nat → is_topk k row (topk_select k row).

(** ** Two implementations *)

(** Insertion into a list of (index, score) pairs that is sorted by
    decreasing score; among equal scores the element inserted last comes
    first. *)
Fixpoint insert_desc (x : nat * Q) (l : list (nat * Q)) : list (nat * Q) :=
  match l with
  | [] => [x]
  | y :: l' =>
      if Qle_bool y.2 x.2 then x :: y :: l' else y :: insert_desc x l'
  end.

Definition sort_desc (l : list (nat * Q)) : list (nat * Q) :=
  foldr insert_desc [] l.

(** The class indices of a row by decreasing score, the lower index first
    among equal scores. *)
Definition argsort_desc (row : list Q) : list nat :=
  (sort_desc (zip (seq 0 (length row)) row)).*1.

(** Among equal scores the lower index first. *)
#[global] Instance lowest_first : TopK :=
  λ k row, take k (argsort_desc row).

(** Among equal scores the higher index first. *)
Definition highest_first : TopK :=
  λ k row,
    take k ((λ i, (length row - S i)%nat) <$> argsort_desc (reverse row)).

(** ** The function *)

Section WithTopK.
Context {sel : TopK}.

(** [row.topk(k, largest=True, sorted=True)[1]]; torch rejects a [k] that is
    negative or larger than the row. *)
Definition topk_row (k : Z) (row : list Q) : result (list nat) :=
  if (0 <=? k) && (k <=? Z.of_nat (length row))
  then Ok (topk_select (Z.to_nat k) row)
  else Raise (RuntimeError "selected index k out of range").

(** [output.topk(maxk, 1, True, True)[1]]: row by row. *)
Fixpoint topk_indices (maxk : Z) (output : list (list Q))
    : result (list (list nat)) :=
  match output with
  | [] => Ok []
  | row :: rest =>
      match topk_row maxk row with
      | Raise e => Raise e
      | Ok p =>
          match topk_indices maxk rest with
          | Raise e => Raise e
          | Ok ps => Ok (p :: ps)
          end
      end
  end.

End WithTopK.

(** [pred.t()] for a tensor with [cols] columns given by its rows. *)
Definition transpose (cols : nat) (rows : list (list nat)) : list (list nat) :=
  (λ j, (λ r, nth j r O) <$> rows) <$> seq 0 cols.

(** [target.view(1, -1).expand_as(pred)] for predictions of [n] samples:
    the row of labels must have [n] entries, or a single one, which is then
    repeated. *)
Definition expand_as (n : nat) (target : list Z) : result (list Z) :=
  if bool_decide (length target = n) then Ok target
  else
    match target with
    | [t] => Ok (replicate n t)
    | _ => Raise (RuntimeError "expand_as: sizes do not match")
    end.

(** [pred.eq(...)]: every row of the transposed predictions is compared
    with the expanded labels, position by position. *)
Definition eq_expand (pred_t : list (list nat)) (target : list Z)
    : list (list bool) :=
  (λ prow, zip_with (λ p t, bool_decide (Z.of_nat p = t)) prow target)
    <$> pred_t.

(** [l[:k]] for a Python int [k] *)
Definition slice_to {A} (k : Z) (l : list A) : list A :=
  if 0 <=? k then take (Z.to_nat k) l
  else take (length l - Z.to_nat (- k)) l.

(** The number of [True] entries of [c.flatten()].  The code adds them up
    in [float32] ([.float().sum(0)]), which is exact as long as there are
    at most 2^24 of them. *)
Definition count_true (c : list (list bool)) : Z :=
  Z.of_nat (length (filter (λ b, b = true) (concat c))).

(** [max(topk)] *)
Definition py_max (l : list Z) : result Z :=
  match l with
  | [] => Raise (ValueError "max() arg is an empty sequence")
  | k :: ks => Ok (foldl Z.max k ks)
  end.

(** The body of the [for k in topk] loop, appending to [res]:
    [correct_k.mul_(100.0 / batch_size)] divides two Python numbers and
    multiplies in [float32]. *)
Fixpoint accuracy_loop (correct : list (list bool)) (batch_size : Z)
    (topk : list Z) : result (list Float.float) :=
  match topk with
  | [] => Ok []
  | k :: ks =>
      let correct_k := count_true (slice_to k correct) in
      if batch_size =? 0 then Raise ZeroDivisionError
      else
        match accuracy_loop correct batch_size ks with
        | Raise e => Raise e
        | Ok res => Ok (Float.scaled batch_size correct_k :: res)
        end
  end.

(** [accuracy(output, target, topk)]; a caller that omits [topk] passes
    [(1,)]. *)
Definition accuracy `{TopK} (output : list (list Q)) (target : list Z)
    (topk : list Z) : result (list Float.float) :=
  match py_max topk with
  | Raise e => Raise e
  | Ok maxk =>
      let batch_size := Z.of_nat (length target) in
      match topk_indices maxk output with
      | Raise e => Raise e
      | Ok pred =>
          let pred := transpose (Z.to_nat maxk) pred in
          match expand_as (length output) target with
          | Raise e => Raise e
          | Ok expanded =>
              let correct := eq_expand pred expanded in
              accuracy_loop correct batch_size topk
          end
      end
  end.

(** ** The quantity [accuracy] is meant to compute *)

(** Decreasing score, on (index, score) pairs. *)
Definition by_score (a b : nat * Q) : Prop := (b.2 <= a.2)%Q.

(** [1] for [True], [0] for [False] *)
Definition b2n (b : bool) : nat := if b then 1 else 0.

(** The comparison of a predicted class with a label. *)
Definition hit (p : nat) (t : Z) : bool := bool_decide (Z.of_nat p = t).

(** The label is among the first [k] of the [maxk] classes that [topk]
    returns for the row. *)
Definition in_top `{TopK} (maxk k : nat) (row : list Q) (label : Z) : bool :=
  bool_decide (Exists (λ j, Z.of_nat j = label)
                 (take k (topk_select maxk row))).

(** The number of samples whose label is among these [k] predictions. *)
Definition hits `{TopK} (maxk k : nat) (output : list (list Q))
    (target : list Z) : nat :=
  length (filter (λ rt, in_top maxk k rt.1 rt.2 = true) (zip output target)).

(** That number, times 100 / n for a batch of [n] samples, as the code
    computes it. *)
Definition precision_at `{TopK} (maxk k : Z) (output : list (list Q))
    (target : list Z) : Float.float :=
  Float.scaled (Z.of_nat (length output))
    (Z.of_nat (hits (Z.to_nat maxk) (Z.to_nat k) output target)).

End Accuracy.

(* ===================================================================== *)
(** * trainer.py: what the loops do with one batch                         *)
(* ===================================================================== *)

Module Batch.

(** ** The labels of the squared hinge loss (lines 282-288 and 359-365) *)

(** [t.unsqueeze(dim)], [t.squeeze()] and [t.size(dim)] on the shape of a
    tensor. *)
Definition unsqueeze (dim : nat) (shape : list nat) : result (list nat) :=
  if bool_decide (dim ≤ length shape)%nat
  then Ok (take dim shape ++ 1%nat :: drop dim shape)
  else Raise (IndexError "Dimension out of range").

Definition squeeze (shape : list nat) : list nat :=
  filter (λ d, d ≠ 1%nat) shape.

Definition size (dim : nat) (shape : list nat) : result nat :=
  match shape !! dim with
  | Some d => Ok d
  | None => Raise (IndexError "Dimension specified but tensor has no such dimension")
  end.

(** The shape of [target] after [target = target.unsqueeze(1)] ...
    [target = target.squeeze()]. *)
Definition hinge_target_shape (shape : list nat) : result (list nat) :=
  match unsqueeze 1 shape with
  | Ok unsqueezed => Ok (squeeze unsqueezed)
  | Raise e => Raise e
  end.

(** [row.scatter_(0, index, value)] for one index: an index outside the row
    is an error. *)
Definition scatter_row (row : list Q) (index : Z) (value : Q)
    : result (list Q) :=
  if (0 <=? index) && (index <? Z.of_nat (length row))
  then Ok (<[Z.to_nat index := value]> row)
  else Raise (RuntimeError "index out of bounds").

(** [target_onehot]: a tensor of [target.size(0)] rows of [num_classes]
    entries, filled with -1, then [scatter_(1, target, 1)]. *)
Fixpoint target_onehot (num_classes : nat) (target : list Z)
    : result (list (list Q)) :=
  match target with
  | [] => Ok []
  | t :: rest =>
      match scatter_row (replicate num_classes (-1)%Q) t 1%Q with
      | Raise e => Raise e
      | Ok row =>
          match target_onehot num_classes rest with
          | Raise e => Raise e
          | Ok rows => Ok (row :: rows)
          end
      end
  end.

(** ** The [accuracy] call of the two loops (lines 311 and 384) *)

(** The shape of [target] when a loop passes it to [accuracy]: the labels
    of a batch of [n] samples, after [unsqueeze] and [squeeze] when the
    criterion is a [SqrHingeLoss]. *)
Definition target_shape (hinge : bool) (n : nat) : result (list nat) :=
  if hinge then hinge_target_shape [n] else Ok [n].

(** [accuracy(output, target, topk=(1, 5))] as far as its outcome goes, for
    an [output] of [n] rows of [classes] scores and the [n] labels of
    [target] in a tensor of the given shape, in the order of lines 45-55:
    [target.size(0)], [output.topk(5, ...)], and [100.0 / batch_size]. *)
Definition accuracy_call (classes : Z) (shape : list nat) : result unit :=
  match size 0 shape with
  | Raise e => Raise e
  | Ok batch_size =>
      if 5 <=? classes then
        if bool_decide (batch_size = 0%nat) then Raise ZeroDivisionError
        else Ok tt
      else Raise (RuntimeError "selected index k out of range")
  end.

(** One batch of [n] samples whose precision is computed. *)
Definition measured_batch (hinge : bool) (classes : Z) (n : nat)
    : result unit :=
  match target_shape hinge n with
  | Raise e => Raise e
  | Ok shape => accuracy_call classes shape
  end.

(** [i % int(log_freq) == 0 or i == len(loader) - 1], for a [log_freq] that
    is not 0 *)
Definition logged (log_freq : Z) (len i : nat) : bool :=
  (Z.of_nat i `mod` log_freq =? 0) || bool_decide (i = (len - 1)%nat).

(** The batches of [train_loader] from the [i]-th on, given by their sizes:
    the precision is computed for the logged ones. *)
Fixpoint train_loop (hinge : bool) (classes log_freq : Z) (len i : nat)
    (sizes : list nat) : result unit :=
  match sizes with
  | [] => Ok tt
  | n :: rest =>
      match (if logged log_freq len i then measured_batch hinge classes n
             else Ok tt) with
      | Raise e => Raise e
      | Ok _ => train_loop hinge classes log_freq len (S i) rest
      end
  end.

(** The batches of [test_loader]: the precision is computed for each. *)
Fixpoint eval_loop (hinge : bool) (classes : Z) (sizes : list nat)
    : result unit :=
  match sizes with
  | [] => Ok tt
  | n :: rest =>
      match measured_batch hinge classes n with
      | Raise e => Raise e
      | Ok _ => eval_loop hinge classes rest
      end
  end.

(** A batch size with which [measured_batch] returns. *)
Definition fits (hinge : bool) (n : nat) : Prop :=
  n ≠ 0%nat ∧ (hinge = true → n ≠ 1%nat).

(** The sizes of the logged batches among those from the [i]-th on. *)
Fixpoint logged_sizes (log_freq : Z) (len i : nat) (sizes : list nat)
    : list nat :=
  match sizes with
  | [] => []
  | n :: rest =>
      if logged log_freq len i
      then n :: logged_sizes log_freq len (S i) rest
      else logged_sizes log_freq len (S i) rest
  end.

(** ** The top-1 precision of [eval_model] (lines 380-382) *)

(** The result of a float division of tensors: a number, or nan for
    0 / 0. *)
Inductive tfloat : Type :=
| Num (q : Q)
| NaN.

(** [row.argmax()]: the position of the first largest score; [best] is the
    largest score seen so far, at position [best_i]. *)
Fixpoint argmax_from (best_i : nat) (best : Q) (i : nat) (row : list Q)
    : nat :=
  match row with
  | [] => best_i
  | x :: rest =>
      if Qle_bool x best then argmax_from best_i best (S i) rest
      else argmax_from i x (S i) rest
  end.

Definition argmax (row : list Q) : result nat :=
  match row with
  | [] => Raise (RuntimeError "argmax of an empty dimension")
  | x :: rest => Ok (argmax_from 0 x 1 rest)
  end.

(** [output.data.argmax(1, keepdim=True)] *)
Fixpoint argmax_rows (output : list (list Q)) : result (list nat) :=
  match output with
  | [] => Ok []
  | row :: rest =>
      match argmax row with
      | Raise e => Raise e
      | Ok p =>
          match argmax_rows rest with
          | Raise e => Raise e
          | Ok ps => Ok (p :: ps)
          end
      end
  end.

(** [prec1 = 100. * pred.eq(target.data.view_as(pred)).sum().float()
             / input.size(0)], the batch of [input] being the one of
    [output].  The value is the exact quotient, of which the [float32] that
    the code holds is the rounding. *)
Definition prec1 (output : list (list Q)) (target : list Z) : result tfloat :=
  match argmax_rows output with
  | Raise e => Raise e
  | Ok pred =>
      if bool_decide (length target = length pred) then
        let correct :=
          Z.of_nat (length (filter (λ b, b = true)
                      (zip_with (λ p t, bool_decide (Z.of_nat p = t))
                                pred target))) in
        let n := Z.of_nat (length output) in
        if n =? 0 then Ok NaN
        else Ok (Num ((100 * inject_Z correct) / inject_Z n)%Q)
      else Raise (RuntimeError "view_as: shape is invalid for input size")
  end.

(** The score [q] at position [m] is larger than every other score of the
    row. *)
Definition strict_max (row : list Q) (m : nat) : Prop :=
  ∃ q, row !! m = Some q
       ∧ ∀ j q', j ≠ m → row !! j = Some q' → (q' < q)%Q.

End Batch.

(* ===================================================================== *)
(** * trainer.py: the [Trainer] class                                      *)
(* ===================================================================== *)

(** The parsed command line, [args]. *)
Module Args.

Record t : Type := mk {
  dataset : string;
  network : string;
  experiments : string;
  resume : option string;
  dry_run : bool;
  evaluate : bool;
  pretrained : bool;
  datadir : string;
  batch_size : Z;
  num_workers : Z;
  gpus : option string;
  strict : bool;
  loss : string;
  optim : string;
  lr : Q;
  momentum : Q;
  weight_decay : Q;
  scheduler : string;
  milestones : string;
  epochs : Z;
  random_seed : Z;
  weight_bit_width : Z;
  act_bit_width : Z;
  detect_nan : bool;
  log_freq : Z
}.

End Args.

Module Trainer.

(** Values found in a checkpoint dictionary.  A [state_dict] is opaque: it is
    identified by the token of the framework object state it was taken
    from. *)
Inductive pyval : Type :=
| PInt (z : Z)
| PFloat (q : Q)
| PStr (s : string)
| PNone
| PState (token : N).

Inductive device : Type :=
| Cpu
| Cuda (index : Z).

Inductive criterion : Type :=
| SqrHingeLoss
| CrossEntropyLoss.

(** [self.optimizer]: which optimizer, the learning rate of its first
    parameter group, and the token of its internal state. *)
Record optimizer : Type := mkOptimizer {
  okind : string;
  olr : Q;
  ostate : N
}.

(** [self.scheduler], a [MultiStepLR] *)
Record scheduler : Type := mkScheduler {
  sched_milestones : list Z;
  last_epoch : pyval
}.

(** Calls into the framework and the file system, in program order. *)
Inductive event : Type :=
| Mkdir (path : string)
| LoggerInit (path : string) (dry_run : bool)
| Log (level : string) (template : string)
| Stdout (template : string)
| ModelWithCfg (network : string) (pretrained : bool)
| ManualSeed (seed : Z)
| BuildDataset (builder : string) (train : bool)
| BuildLoader (shuffle : bool)
| TorchLoad (path : string)
| ModelLoadStateDict (sd : pyval) (strict : bool)
| ModelTo (d : device)
| DataParallel (gpus : list Z)
| OptimizerLoadStateDict (sd : pyval)
| TorchSave (obj : gmap string pyval) (path : string)
| ExportOnnx (model : N) (export_path : string) (input_shape : list Z)
| SetDetectAnomaly
| TrainEpoch (epoch : Z)
| SchedulerStep (epoch : Z)
| HalveLr
| EvalModel (epoch : Z).

(** What [model_with_cfg(network, pretrained)] and the two reads of its
    configuration produce.  The function lives in [.models], outside the
    modelled files, and is taken as a parameter. *)
Inductive cfg_outcome : Type :=
| CfgLoaded (model : N) (cfg_dataset : string) (cfg_num_classes : Z)
| CfgRaises (e : exn).

(** The environment: outcomes of the calls whose code is not in trainer.py.
    The calls that can raise here are [os.mkdir], [Logger(...)],
    [model_with_cfg], [torch.load], [int(...)] and the two
    [load_state_dict]; every other framework call (seeding, datasets and
    loaders, moving the model, the forward and backward passes and the
    optimizer steps of a batch, [torch.save], the ONNX export) is taken to
    return.  The data is taken to fit the model: a batch has one label per
    sample, each a class index, and the model gives one score per class of
    the dataset. *)
Record Env : Type := mkEnv {
  (** [datetime.now().strftime('%Y%m%d_%H%M%S')] *)
  now : string;
  (** whether [os.mkdir(path)] succeeds *)
  mkdir_ok : string → bool;
  (** whether [Logger(path, dry_run)] succeeds *)
  logger_ok : string → bool → bool;
  model_with_cfg : string → bool → cfg_outcome;
  (** [torch.load(path, map_location='cpu')], [None] when it raises *)
  torch_load : string → option (gmap string pyval);
  (** [[int(i) for i in s.split(',')]], [None] when [int] raises *)
  parse_int_list : string → option (list Z);
  (** [model.load_state_dict(sd, strict)] on a model in a given state *)
  model_load_state_dict : N → pyval → bool → result N;
  (** [optimizer.load_state_dict(sd)] *)
  optimizer_load_state_dict : N → pyval → result N;
  (** the learning rate of the first parameter group in an optimizer
      [state_dict] *)
  state_dict_lr : pyval → Q;
  (** the numbers of samples of the batches [train_loader] delivers in an
      epoch: a first one (the dataset is not empty), then the others *)
  train_first : nat;
  train_rest : list nat;
  (** the same for [test_loader] *)
  test_sizes : list nat;
  (** the batches of one epoch: new model and optimizer states *)
  train_batches : N → N → Z → N * N;
  (** the learning rate of the first parameter group once
      [MultiStepLR(optimizer, milestones, 0.1)] is constructed (the
      constructor takes a first step of its own) *)
  init_lr : list Z → optimizer → Q;
  (** the learning rate of the first parameter group after
      [scheduler.step(epoch)] *)
  step_lr : scheduler → Z → optimizer → Q;
  (** [eval_meters.top1.avg] after evaluating a model *)
  eval_top1 : N → Q
}.

Definition train_sizes (env : Env) : list nat :=
  train_first env :: train_rest env.

(** ** Computations: emitted events and a result or an exception *)

Definition M (A : Type) : Type := result A * list event.

#[global] Instance M_ret : MRet M := λ A a, (Ok a, []).
#[global] Instance M_bind : MBind M := λ A B k m,
  match m with
  | (Ok a, ev) => let '(r, ev') := k a in (r, ev ++ ev')
  | (Raise e, ev) => (Raise e, ev)
  end.

Definition emit (e : event) : M unit := (Ok tt, [e]).
Definition raise {A} (e : exn) : M A := (Raise e, []).
Definition lift {A} (r : result A) : M A := (r, []).

(** Reading an attribute of [self] that may not have been set. *)
Definition attr {A} (name : string) (o : option A) : M A :=
  match o with
  | Some a => mret a
  | None => raise (AttributeError name)
  end.

(** ** The object *)

Record t : Type := mk {
  args : Args.t;
  output_dir_path : string;
  (** set only when [args.dry_run] is false *)
  checkpoints_dir_path : option string;
  num_classes : Z;
  in_channels : Z;
  starting_epoch : pyval;
  best_val_acc : pyval;
  device_ : device;
  model : N;
  criterion_ : criterion;
  (** set only when [args.optim] is 'ADAM' or 'SGD' *)
  optimizer_ : option optimizer;
  scheduler_ : option scheduler
}.

Definition set_best_val_acc (v : pyval) (s : t) : t :=
  mk (args s) (output_dir_path s) (checkpoints_dir_path s) (num_classes s)
     (in_channels s) (starting_epoch s) v (device_ s) (model s)
     (criterion_ s) (optimizer_ s) (scheduler_ s).

Definition set_model (m : N) (s : t) : t :=
  mk (args s) (output_dir_path s) (checkpoints_dir_path s) (num_classes s)
     (in_channels s) (starting_epoch s) (best_val_acc s) (device_ s) m
     (criterion_ s) (optimizer_ s) (scheduler_ s).

Definition set_optimizer (o : option optimizer) (s : t) : t :=
  mk (args s) (output_dir_path s) (checkpoints_dir_path s) (num_classes s)
     (in_channels s) (starting_epoch s) (best_val_acc s) (device_ s)
     (model s) (criterion_ s) o (scheduler_ s).

Definition set_scheduler (sc : option scheduler) (s : t) : t :=
  mk (args s) (output_dir_path s) (checkpoints_dir_path s) (num_classes s)
     (in_channels s) (starting_epoch s) (best_val_acc s) (device_ s)
     (model s) (criterion_ s) (optimizer_ s) sc.

(** Python truthiness of [args.resume]: [None] and [''] are false. *)
Definition truthy (s : option string) : bool :=
  match s with
  | Some (String _ _) => true
  | _ => false
  end.

(** ** [Trainer.__init__] *)

(** Lines 62-76: the experiment directories and the logger. *)
Definition init_paths (env : Env) (a : Args.t)
    : M (string * option string) :=
  let experiment_name :=
    Args.dataset a +:+ "_" +:+ Args.network a +:+ "_" +:+ now env in
  let output_dir_path := OsPath.join (Args.experiments a) experiment_name in
  let output_dir_path :=
    if truthy (Args.resume a)
    then (OsPath.split (OsPath.split (default "" (Args.resume a))).1).1
    else output_dir_path in
  let mkdir (path : string) : M unit :=
    if mkdir_ok env path then emit (Mkdir path) else raise (OSError path) in
  checkpoints_dir_path ←
    (if negb (Args.dry_run a) then
       let checkpoints_dir_path := OsPath.join output_dir_path "checkpoints" in
       (if negb (truthy (Args.resume a)) then
          mkdir output_dir_path ;; mkdir checkpoints_dir_path
        else mret tt) ;;
       mret (Some checkpoints_dir_path)
     else mret None) ;
  (if logger_ok env output_dir_path (Args.dry_run a)
   then emit (LoggerInit output_dir_path (Args.dry_run a))
   else raise (Exception "Logger")) ;;
  mret (output_dir_path, checkpoints_dir_path).

(** Lines 78-104: the requested dataset; the result is the builder, then
    [num_classes], then [in_channels]. *)
Definition select_dataset (dataset : string) : M (string * Z * Z) :=
  if decide (dataset = "CIFAR10") then mret ("CIFAR10", 10, 3)
  else if decide (dataset = "CIFAR100") then mret ("CIFAR100", 100, 3)
  else if decide (dataset = "MNIST") then mret ("MNIST", 10, 1)
  else raise (Exception ("Dataset not supported: " +:+ dataset)).

(** Lines 106-139: the model.  The [except AssertionError] branch reads
    [model_impl_no_wrapper], a name that trainer.py neither defines nor
    imports, so that branch ends in a [NameError]. *)
Definition load_model (env : Env) (a : Args.t) (dataset : string)
    (num_classes : Z) : M N :=
  let on_assertion_error : M N :=
    emit (Log "warning" "Could not load default model, creating new one as requested. The following assertion failed: {}") ;;
    raise (NameError "model_impl_no_wrapper") in
  emit (ModelWithCfg (Args.network a) (Args.pretrained a)) ;;
  match model_with_cfg env (Args.network a) (Args.pretrained a) with
  | CfgRaises AssertionError => on_assertion_error
  | CfgRaises e => raise e
  | CfgLoaded model cfg_dataset cfg_num_classes =>
      if decide (dataset = cfg_dataset) then
        if decide (num_classes = cfg_num_classes) then
          emit (Log "info" "Loaded {} from original examples") ;;
          mret model
        else on_assertion_error
      else on_assertion_error
  end.

(** Lines 141-163: seeds, datasets and loaders. *)
Definition build_data (a : Args.t) (builder : string) : M unit :=
  emit (ManualSeed (Args.random_seed a)) ;;
  emit (ManualSeed (Args.random_seed a)) ;;
  emit (ManualSeed (Args.random_seed a)) ;;
  emit (BuildDataset builder true) ;;
  emit (BuildDataset builder false) ;;
  emit (BuildLoader true) ;;
  emit (BuildLoader false).

(** Lines 169-176: the device; also the parsed [args.gpus]. *)
Definition setup_device (env : Env) (a : Args.t)
    : M (device * option (list Z)) :=
  match Args.gpus a with
  | Some s =>
      match parse_int_list env s with
      | None => raise (ValueError "invalid literal for int()")
      | Some [] => raise (IndexError "list index out of range")
      | Some (g :: gs) => mret (Cuda g, Some (g :: gs))
      end
  | None => mret (Cpu, None)
  end.

(** Lines 178-183: the checkpoint to resume from, loaded into the model. *)
Definition resume_model (env : Env) (a : Args.t) (model : N)
    : M (N * option (gmap string pyval)) :=
  match Args.resume a with
  | Some (String c r) =>
      let path := String c r in
      emit (Stdout "Loading model checkpoint at: {}") ;;
      match torch_load env path with
      | None => raise (OSError path)
      | Some package =>
          emit (TorchLoad path) ;;
          match package !! "state_dict" with
          | None => raise (KeyError "state_dict")
          | Some model_state_dict =>
              model ← lift (model_load_state_dict env model model_state_dict
                              (Args.strict a)) ;
              emit (ModelLoadStateDict model_state_dict (Args.strict a)) ;;
              mret (model, Some package)
          end
      end
  | _ => mret (model, None)
  end.

(** Lines 185-189: the model is moved to the device. *)
Definition place_model (gpus : option (list Z)) (d : device) : M unit :=
  match gpus with
  | Some [_] => emit (ModelTo d)
  | Some (g1 :: g2 :: gs) => emit (DataParallel (g1 :: g2 :: gs))
  | _ => mret tt
  end.

(** Lines 191-196 *)
Definition make_criterion (a : Args.t) : criterion :=
  if decide (Args.loss a = "SqrHinge") then SqrHingeLoss
  else CrossEntropyLoss.

(** Lines 198-207: no attribute is set for an unknown [args.optim]. *)
Definition make_optimizer (a : Args.t) : option optimizer :=
  if decide (Args.optim a = "ADAM") then
    Some (mkOptimizer "ADAM" (Args.lr a) 0)
  else if decide (Args.optim a = "SGD") then
    Some (mkOptimizer "SGD" (Args.lr a) 0)
  else None.

(** Lines 209-217: optimizer state, starting epoch and best accuracy are
    taken from the checkpoint, key by key; [load_state_dict] replaces the
    parameter groups of the optimizer, hence its learning rate, by the
    saved ones. *)
Definition resume_optimizer (env : Env) (a : Args.t)
    (package : option (gmap string pyval)) (opt : option optimizer)
    (starting_epoch best_val_acc : pyval)
    : M (option optimizer * pyval * pyval) :=
  if truthy (Args.resume a) && negb (Args.evaluate a) then
    emit (Log "info" "Loading optimizer checkpoint") ;;
    package ← match package with
              | Some p => mret p
              | None => raise (NameError "package")
              end ;
    opt ← match package !! "optim_dict" with
          | Some optim_dict =>
              o ← attr "optimizer" opt ;
              st ← lift (optimizer_load_state_dict env (ostate o) optim_dict) ;
              emit (OptimizerLoadStateDict optim_dict) ;;
              mret (Some (mkOptimizer (okind o)
                            (state_dict_lr env optim_dict) st))
          | None => mret opt
          end ;
    let starting_epoch :=
      match package !! "epoch" with
      | Some v => v
      | None => starting_epoch
      end in
    let best_val_acc :=
      match package !! "best_val_acc" with
      | Some v => v
      | None => best_val_acc
      end in
    mret (opt, starting_epoch, best_val_acc)
  else mret (opt, starting_epoch, best_val_acc).

(** Lines 219-228 *)
Definition make_scheduler (env : Env) (a : Args.t) (opt : option optimizer)
    : M (option scheduler) :=
  if decide (Args.scheduler a = "STEP") then
    match parse_int_list env (Args.milestones a) with
    | None => raise (ValueError "invalid literal for int()")
    | Some milestones =>
        _ ← attr "optimizer" opt ;
        mret (Some (mkScheduler milestones (PInt 0)))
    end
  else if decide (Args.scheduler a = "FIXED") then mret None
  else raise (Exception ("Unrecognized scheduler " +:+ Args.scheduler a)).

(** The optimizer once the scheduler, if any, is constructed around it:
    the scheduler sets the learning rate of the optimizer it is given. *)
Definition scheduled (env : Env) (sc : option scheduler)
    (opt : option optimizer) : option optimizer :=
  match sc, opt with
  | Some sc, Some o =>
      Some (mkOptimizer (okind o) (init_lr env (sched_milestones sc) o)
              (ostate o))
  | _, _ => opt
  end.

(** Lines 230-232 *)
Definition resume_scheduler (a : Args.t)
    (package : option (gmap string pyval)) (sc : option scheduler)
    : M (option scheduler) :=
  match sc with
  | Some s =>
      if truthy (Args.resume a) && negb (Args.evaluate a) then
        package ← match package with
                  | Some p => mret p
                  | None => raise (NameError "package")
                  end ;
        match package !! "epoch" with
        | None => raise (KeyError "epoch")
        | Some (PInt z) =>
            mret (Some (mkScheduler (sched_milestones s) (PInt (z - 1))))
        | Some (PFloat q) =>
            mret (Some (mkScheduler (sched_milestones s) (PFloat (q - 1))))
        | Some _ => raise (TypeError "unsupported operand type(s) for -")
        end
      else mret sc
  | None => mret sc
  end.

Definition __init__ (env : Env) (a : Args.t) : M t :=
  '(output_dir_path, checkpoints_dir_path) ← init_paths env a ;
  let dataset := Args.dataset a in
  '(builder, num_classes, in_channels) ← select_dataset dataset ;
  model ← load_model env a dataset num_classes ;
  build_data a builder ;;
  let starting_epoch := PInt 1 in
  let best_val_acc := PInt 0 in
  '(device, gpus) ← setup_device env a ;
  '(model, package) ← resume_model env a model ;
  place_model gpus device ;;
  let criterion := make_criterion a in
  let opt := make_optimizer a in
  '(opt, starting_epoch, best_val_acc) ←
    resume_optimizer env a package opt starting_epoch best_val_acc ;
  sc ← make_scheduler env a opt ;
  let opt := scheduled env sc opt in
  sc ← resume_scheduler a package sc ;
  mret (mk a output_dir_path checkpoints_dir_path num_classes in_channels
           starting_epoch best_val_acc device model criterion opt sc).

(** ** [Trainer.quant_export] and [Trainer.checkpoint_best] *)

Definition quant_export (self : t) (model : N)
    (output_dir_path model_name : string) (input_shape : list Z) : M unit :=
  emit (ModelTo Cpu) ;;
  emit (ExportOnnx model
          (output_dir_path +:+ "/" +:+ model_name +:+ ".onnx") input_shape) ;;
  emit (ModelTo (device_ self)).

(** The dictionary handed to [torch.save]. *)
Definition checkpoint_dict (self : t) (o : optimizer) (epoch : Z)
    : gmap string pyval :=
  {[ "state_dict" := PState (model self);
     "optim_dict" := PState (ostate o);
     "epoch" := PInt (epoch + 1);
     "best_val_acc" := best_val_acc self ]}.

Definition checkpoint_best (self : t) (epoch : Z) (name : string) : M unit :=
  dir ← attr "checkpoints_dir_path" (checkpoints_dir_path self) ;
  let best_path := OsPath.join dir name in
  emit (Log "info" "Saving checkpoint model to {}") ;;
  o ← attr "optimizer" (optimizer_ self) ;
  emit (TorchSave (checkpoint_dict self o epoch) best_path) ;;
  quant_export self (model self) dir name [1; in_channels self; 32; 32].

(** ** [Trainer.eval_model] and [Trainer.train_model] *)

(** [isinstance(self.criterion, SqrHingeLoss)] *)
Definition is_hinge (c : criterion) : bool :=
  match c with
  | SqrHingeLoss => true
  | CrossEntropyLoss => false
  end.

(** The evaluation pass: the batches of [test_loader], each with its call
    of [accuracy]; its result is [eval_meters.top1.avg]. *)
Definition eval_model (env : Env) (self : t) (epoch : Z) : M Q :=
  emit (EvalModel epoch) ;;
  lift (Batch.eval_loop (is_hinge (criterion_ self)) (num_classes self)
          (test_sizes env)) ;;
  mret (eval_top1 env (model self)).

(** [top1avg >= self.best_val_acc] *)
Definition ge_best (top1avg : Q) (best : pyval) : result bool :=
  match best with
  | PInt z => Ok (Qle_bool (inject_Z z) top1avg)
  | PFloat q => Ok (Qle_bool q top1avg)
  | _ => Raise (TypeError "'>=' not supported")
  end.

(** Lines 267-326: the batches of one epoch, then the learning rate.  In
    the first batch the optimizer is used (line 301) before
    [i % int(self.args.log_freq)] is computed (line 310); the precision of
    the logged batches is computed by [accuracy] (line 311). *)
Definition train_epoch (env : Env) (self : t) (epoch : Z) : M t :=
  o ← attr "optimizer" (optimizer_ self) ;
  (if Args.log_freq (args self) =? 0 then raise ZeroDivisionError
   else mret tt) ;;
  lift (Batch.train_loop (is_hinge (criterion_ self)) (num_classes self)
          (Args.log_freq (args self)) (length (train_sizes env)) 0
          (train_sizes env)) ;;
  let '(m, st) := train_batches env (model self) (ostate o) epoch in
  emit (TrainEpoch epoch) ;;
  let self := set_model m self in
  let o := mkOptimizer (okind o) (olr o) st in
  match scheduler_ self with
  | Some sc =>
      emit (SchedulerStep epoch) ;;
      mret (set_scheduler
              (Some (mkScheduler (sched_milestones sc) (PInt epoch)))
              (set_optimizer
                 (Some (mkOptimizer (okind o) (step_lr env sc epoch o)
                          (ostate o)))
                 self))
  | None =>
      if epoch `mod` 40 =? 0 then
        emit HalveLr ;;
        mret (set_optimizer
                (Some (mkOptimizer (okind o) (olr o * (1 # 2))%Q (ostate o)))
                self)
      else mret (set_optimizer (Some o) self)
  end.

(** Lines 328-337: evaluation and checkpoint of one epoch. *)
Definition eval_and_checkpoint (env : Env) (self : t) (epoch : Z) : M t :=
  top1avg ← eval_model env self epoch ;
  ge ← lift (ge_best top1avg (best_val_acc self)) ;
  if ge && negb (Args.dry_run (args self)) then
    let self := set_best_val_acc (PFloat top1avg) self in
    checkpoint_best self epoch "best.tar" ;;
    mret self
  else if negb (Args.dry_run (args self)) then
    checkpoint_best self epoch "checkpoint.tar" ;;
    mret self
  else mret self.

(** The body of [for epoch in range(...)]. *)
Definition epoch_body (env : Env) (self : t) (epoch : Z) : M t :=
  self ← train_epoch env self epoch ;
  eval_and_checkpoint env self epoch.

Fixpoint for_epochs (env : Env) (epochs : list Z) (self : t) : M t :=
  match epochs with
  | [] => mret self
  | epoch :: rest =>
      self ← epoch_body env self epoch ;
      for_epochs env rest self
  end.

(** [range(start, stop)] for Python ints *)
Definition py_range (start stop : Z) : list Z := seqZ start (stop - start).

(** Returns the object after the run and the returned value ([None] in a
    dry run). *)
Definition train_model (env : Env) (self : t) : M (t * option string) :=
  (if Args.detect_nan (args self) then emit SetDetectAnomaly else mret tt) ;;
  start ← match starting_epoch self with
          | PInt z => mret z
          | _ => raise (TypeError "cannot be interpreted as an integer")
          end ;
  self ← for_epochs env (py_range start (Args.epochs (args self))) self ;
  if negb (Args.dry_run (args self)) then
    dir ← attr "checkpoints_dir_path" (checkpoints_dir_path self) ;
    mret (self, Some (OsPath.join dir "best.tar"))
  else mret (self, None).

(** ** Reading a run *)

(** The checkpoint files written, in order. *)
Fixpoint saves (evs : list event) : list string :=
  match evs with
  | [] => []
  | TorchSave _ path :: evs => path :: saves evs
  | _ :: evs => saves evs
  end.

(** The epochs trained, in order. *)
Fixpoint trained (evs : list event) : list Z :=
  match evs with
  | [] => []
  | TrainEpoch epoch :: evs => epoch :: trained evs
  | _ :: evs => trained evs
  end.

Definition is_mkdir (e : event) : bool :=
  match e with Mkdir _ => true | _ => false end.

Definition is_build_dataset (e : event) : bool :=
  match e with BuildDataset _ _ => true | _ => false end.

Definition is_optimizer_load (e : event) : bool :=
  match e with OptimizerLoadStateDict _ => true | _ => false end.

(** The number a [best_val_acc] stands for. *)
Definition as_number (v : pyval) : option Q :=
  match v with
  | PInt z => Some (inject_Z z)
  | PFloat q => Some q
  | _ => None
  end.

(** The batches fit the two calls of [accuracy]: there are at least 5
    classes, no batch whose precision is computed is empty and, with a
    [SqrHingeLoss], none of them has exactly one sample. *)
Definition batches_fit (env : Env) (self : t) : Prop :=
  5 ≤ num_classes self
  ∧ Forall (Batch.fits (is_hinge (criterion_ self)))
      (Batch.logged_sizes (Args.log_freq (args self))
         (length (train_sizes env)) 0 (train_sizes env))
  ∧ Forall (Batch.fits (is_hinge (criterion_ self))) (test_sizes env).

(** An object on which an epoch of [train_model] runs through: it has the
    attributes the loop reads (what [__init__] leaves behind for 'ADAM' or
    'SGD'), a numeric best accuracy, a log frequency that is not zero, and
    the batches fit. *)
Definition trainable (env : Env) (self : t) : Prop :=
  is_Some (optimizer_ self)
  ∧ is_Some (as_number (best_val_acc self))
  ∧ Args.log_freq (args self) ≠ 0
  ∧ (Args.dry_run (args self) = false → is_Some (checkpoints_dir_path self))
  ∧ batches_fit env self.

(** A property of every event a computation emits, whatever its outcome. *)
Definition emits_only {A} (P : event → Prop) (m : M A) : Prop :=
  Forall P m.2.

(** The five framework calls of one [checkpoint_best]. *)
Definition checkpoint_events (self : t) (o : optimizer) (epoch : Z)
    (dir name : string) : list event :=
  [ Log "info" "Saving checkpoint model to {}";
    TorchSave (checkpoint_dict self o epoch) (OsPath.join dir name);
    ModelTo Cpu;
    ExportOnnx (model self) (dir +:+ "/" +:+ name +:+ ".onnx")
               [1; in_channels self; 32; 32];
    ModelTo (device_ self) ].

(** The order of two best accuracies, as numbers. *)
Definition best_le (v w : pyval) : Prop :=
  match as_number v, as_number w with
  | Some a, Some b => (a <= b)%Q
  | _, _ => False
  end.

(** What a training epoch leaves untouched. *)
Definition same_frame (self self' : t) : Prop :=
  args self' = args self
  ∧ checkpoints_dir_path self' = checkpoints_dir_path self
  ∧ best_val_acc self' = best_val_acc self
  ∧ starting_epoch self' = starting_epoch self
  ∧ in_channels self' = in_channels self
  ∧ device_ self' = device_ self
  ∧ num_classes self' = num_classes self
  ∧ criterion_ self' = criterion_ self.

(** What one turn of the loop does to the checkpoint files and to
    [best_val_acc]. *)
Definition epoch_outcome (env : Env) (self self1 self2 : t) (evs2 : list event) : Prop :=
  (Args.dry_run (args self) = false →
   ∃ dir b,
     checkpoints_dir_path self = Some dir
     ∧ as_number (best_val_acc self) = Some b
     ∧ ((b <= eval_top1 env (model self1))%Q →
        saves evs2 = [OsPath.join dir "best.tar"]
        ∧ best_val_acc self2 = PFloat (eval_top1 env (model self1)))
     ∧ (¬ (b <= eval_top1 env (model self1))%Q →
        saves evs2 = [OsPath.join dir "checkpoint.tar"]
        ∧ best_val_acc self2 = best_val_acc self))
  ∧ (Args.dry_run (args self) = true →
     saves evs2 = [] ∧ best_val_acc self2 = best_val_acc self).

(** What the checkpoint says the optimizer should be: the optimizer that
    args.optim names, with the state and the learning rate of the
    checkpoint's 'optim_dict' when there is one. *)
Definition optimizer_restored (env : Env) (a : Args.t) (package : gmap string pyval)
    (opt : option optimizer) (ev : list event) : Prop :=
  match package !! "optim_dict" with
  | Some od =>
      ∃ o st,
        make_optimizer a = Some o
        ∧ optimizer_load_state_dict env (ostate o) od = Ok st
        ∧ opt = Some (mkOptimizer (okind o) (state_dict_lr env od) st)
        ∧ OptimizerLoadStateDict od ∈ ev
  | None => opt = make_optimizer a
  end.

End Trainer.

(* ===================================================================== *)
(** * A concrete run, used to exercise the statements below               *)
(* ===================================================================== *)

Module Demo.
Import Trainer.

Definition args : Args.t :=
  {| Args.dataset := "MNIST";
     Args.network := "LFC_1W1A";
     Args.experiments := "experiments";
     Args.resume := None;
     Args.dry_run := false;
     Args.evaluate := false;
     Args.pretrained := true;
     Args.datadir := "./data";
     Args.batch_size := 100;
     Args.num_workers := 4;
     Args.gpus := None;
     Args.strict := true;
     Args.loss := "SqrHinge";
     Args.optim := "ADAM";
     Args.lr := (2 # 100)%Q;
     Args.momentum := (9 # 10)%Q;
     Args.weight_decay := 0%Q;
     Args.scheduler := "FIXED";
     Args.milestones := "100,150,200,250";
     Args.epochs := 4;
     Args.random_seed := 1;
     Args.weight_bit_width := 1;
     Args.act_bit_width := 1;
     Args.detect_nan := false;
     Args.log_freq := 10 |}.

Definition with_resume (path : string) (a : Args.t) : Args.t :=
  Args.mk (Args.dataset a) (Args.network a) (Args.experiments a) (Some path)
    (Args.dry_run a) (Args.evaluate a) (Args.pretrained a) (Args.datadir a)
    (Args.batch_size a) (Args.num_workers a) (Args.gpus a) (Args.strict a)
    (Args.loss a) (Args.optim a) (Args.lr a) (Args.momentum a)
    (Args.weight_decay a) (Args.scheduler a) (Args.milestones a)
    (Args.epochs a) (Args.random_seed a) (Args.weight_bit_width a)
    (Args.act_bit_width a) (Args.detect_nan a) (Args.log_freq a).

Definition with_dataset (d : string) (a : Args.t) : Args.t :=
  Args.mk d (Args.network a) (Args.experiments a) (Args.resume a)
    (Args.dry_run a) (Args.evaluate a) (Args.pretrained a) (Args.datadir a)
    (Args.batch_size a) (Args.num_workers a) (Args.gpus a) (Args.strict a)
    (Args.loss a) (Args.optim a) (Args.lr a) (Args.momentum a)
    (Args.weight_decay a) (Args.scheduler a) (Args.milestones a)
    (Args.epochs a) (Args.random_seed a) (Args.weight_bit_width a)
    (Args.act_bit_width a) (Args.detect_nan a) (Args.log_freq a).

Definition resume_path : string := "experiments/run/checkpoints/best.tar".

Definition package : gmap string pyval :=
  {[ "state_dict" := PState 11;
     "optim_dict" := PState 12;
     "epoch" := PInt 3;
     "best_val_acc" := PFloat (90 # 1) ]}.

(** Accuracies 60, 50, 70, ... for the model states 1, 2, 3, ... *)
Definition env : Env :=
  {| now := "20200101_120000";
     mkdir_ok := λ _, true;
     logger_ok := λ _ _, true;
     model_with_cfg := λ _ _, CfgLoaded 0 "MNIST" 10;
     torch_load := λ path,
       if decide (path = resume_path) then Some package else None;
     parse_int_list := λ _, Some [100; 150; 200; 250];
     model_load_state_dict := λ _ sd _,
       match sd with
       | PState n => Ok n
       | _ => Raise (TypeError "state_dict")
       end;
     optimizer_load_state_dict := λ _ sd,
       match sd with
       | PState n => Ok n
       | _ => Raise (TypeError "state_dict")
       end;
     state_dict_lr := λ _, (1 # 100)%Q;
     train_first := 100;
     train_rest := replicate 599 100%nat;
     test_sizes := replicate 100 100%nat;
     train_batches := λ m o _, ((m + 1)%N, (o + 1)%N);
     init_lr := λ _ o, olr o;
     step_lr := λ sc epoch o,
       if bool_decide (epoch ∈ sched_milestones sc)
       then (olr o * (1 # 10))%Q else olr o;
     eval_top1 := λ m,
       if (m =? 2)%N then (50 # 1)%Q else inject_Z (50 + 10 * Z.of_N m) |}.

(** The object a fresh, successful [__init__ env args] builds. *)
Definition trainer : t :=
  {| Trainer.args := args;
     output_dir_path := "experiments/MNIST_LFC_1W1A_20200101_120000";
     checkpoints_dir_path :=
       Some "experiments/MNIST_LFC_1W1A_20200101_120000/checkpoints";
     num_classes := 10;
     in_channels := 1;
     starting_epoch := PInt 1;
     best_val_acc := PInt 0;
     device_ := Cpu;
     model := 0;
     criterion_ := SqrHingeLoss;
     optimizer_ := Some (mkOptimizer "ADAM" (2 # 100)%Q 0);
     scheduler_ := None |}.

End Demo.

(* ===================================================================== *)
(** * Reading more of a run                                               *)
(* ===================================================================== *)

Module Run.
Import Trainer.

(** The directories created, in order. *)
Fixpoint mkdirs (evs : list event) : list string :=
  match evs with
  | [] => []
  | Mkdir path :: evs => path :: mkdirs evs
  | _ :: evs => mkdirs evs
  end.

(** The calls that write to the file system. *)
Definition is_write (e : event) : bool :=
  match e with
  | Mkdir _ | TorchSave _ _ | ExportOnnx _ _ _ => true
  | _ => false
  end.

(** The dictionaries saved, in order. *)
Fixpoint saved (evs : list event) : list (gmap string pyval) :=
  match evs with
  | [] => []
  | TorchSave obj _ :: evs => obj :: saved evs
  | _ :: evs => saved evs
  end.

(** The calls that move or wrap the model at construction. *)
Definition is_placement (e : event) : bool :=
  match e with
  | ModelTo _ | DataParallel _ => true
  | _ => false
  end.

(** [lr *= 0.5], [n] times *)
Definition halved (n : nat) (lr : Q) : Q :=
  Nat.iter n (λ q, (q * (1 # 2))%Q) lr.

(** The epochs of a list at which [epoch % 40 == 0]. *)
Definition halvings (epochs : list Z) : nat :=
  length (filter (λ epoch, epoch `mod` 40 = 0) epochs).

(** The events of [train_model] before its loop. *)
Definition prelude (self : t) : list event :=
  if Args.detect_nan (args self) then [SetDetectAnomaly] else [].

(** The larger of two best accuracies, as [train_model] keeps it. *)
Definition new_best (top1avg : Q) (best : pyval) : pyval :=
  match as_number best with
  | Some b => if Qle_bool b top1avg then PFloat top1avg else best
  | None => best
  end.

End Run.

(* ===================================================================== *)
(** * Variants of the concrete run                                         *)
(* ===================================================================== *)

Module Variants.
Import Trainer.

Definition with_dry_run (b : bool) (a : Args.t) : Args.t :=
  Args.mk (Args.dataset a) (Args.network a) (Args.experiments a)
    (Args.resume a) b (Args.evaluate a) (Args.pretrained a) (Args.datadir a)
    (Args.batch_size a) (Args.num_workers a) (Args.gpus a) (Args.strict a)
    (Args.loss a) (Args.optim a) (Args.lr a) (Args.momentum a)
    (Args.weight_decay a) (Args.scheduler a) (Args.milestones a)
    (Args.epochs a) (Args.random_seed a) (Args.weight_bit_width a)
    (Args.act_bit_width a) (Args.detect_nan a) (Args.log_freq a).

Definition with_optim (o : string) (a : Args.t) : Args.t :=
  Args.mk (Args.dataset a) (Args.network a) (Args.experiments a)
    (Args.resume a) (Args.dry_run a) (Args.evaluate a) (Args.pretrained a)
    (Args.datadir a) (Args.batch_size a) (Args.num_workers a) (Args.gpus a)
    (Args.strict a) (Args.loss a) o (Args.lr a) (Args.momentum a)
    (Args.weight_decay a) (Args.scheduler a) (Args.milestones a)
    (Args.epochs a) (Args.random_seed a) (Args.weight_bit_width a)
    (Args.act_bit_width a) (Args.detect_nan a) (Args.log_freq a).

Definition with_scheduler (sc : string) (a : Args.t) : Args.t :=
  Args.mk (Args.dataset a) (Args.network a) (Args.experiments a)
    (Args.resume a) (Args.dry_run a) (Args.evaluate a) (Args.pretrained a)
    (Args.datadir a) (Args.batch_size a) (Args.num_workers a) (Args.gpus a)
    (Args.strict a) (Args.loss a) (Args.optim a) (Args.lr a)
    (Args.momentum a) (Args.weight_decay a) sc (Args.milestones a)
    (Args.epochs a) (Args.random_seed a) (Args.weight_bit_width a)
    (Args.act_bit_width a) (Args.detect_nan a) (Args.log_freq a).

Definition with_gpus (g : option string) (a : Args.t) : Args.t :=
  Args.mk (Args.dataset a) (Args.network a) (Args.experiments a)
    (Args.resume a) (Args.dry_run a) (Args.evaluate a) (Args.pretrained a)
    (Args.datadir a) (Args.batch_size a) (Args.num_workers a) g
    (Args.strict a) (Args.loss a) (Args.optim a) (Args.lr a)
    (Args.momentum a) (Args.weight_decay a) (Args.scheduler a)
    (Args.milestones a) (Args.epochs a) (Args.random_seed a)
    (Args.weight_bit_width a) (Args.act_bit_width a) (Args.detect_nan a)
    (Args.log_freq a).

Definition with_epochs (n : Z) (a : Args.t) : Args.t :=
  Args.mk (Args.dataset a) (Args.network a) (Args.experiments a)
    (Args.resume a) (Args.dry_run a) (Args.evaluate a) (Args.pretrained a)
    (Args.datadir a) (Args.batch_size a) (Args.num_workers a) (Args.gpus a)
    (Args.strict a) (Args.loss a) (Args.optim a) (Args.lr a)
    (Args.momentum a) (Args.weight_decay a) (Args.scheduler a)
    (Args.milestones a) n (Args.random_seed a) (Args.weight_bit_width a)
    (Args.act_bit_width a) (Args.detect_nan a) (Args.log_freq a).

(** The concrete object about to train the epochs 39 and 40. *)
Definition late_trainer : t :=
  mk (with_epochs 41 Demo.args) (output_dir_path Demo.trainer)
     (checkpoints_dir_path Demo.trainer) (num_classes Demo.trainer)
     (in_channels Demo.trainer) (PInt 39) (best_val_acc Demo.trainer)
     (device_ Demo.trainer) (model Demo.trainer) (criterion_ Demo.trainer)
     (optimizer_ Demo.trainer) (scheduler_ Demo.trainer).

(** An object of the run whose checkpoint [Demo.package] is: model state
    11 and optimizer state 12 at the end of epoch 2, best accuracy 90. *)
Definition saved_trainer : t :=
  mk Demo.args "experiments/run" (Some "experiments/run/checkpoints")
     (num_classes Demo.trainer) (in_channels Demo.trainer) (PInt 1)
     (PFloat (90 # 1)) (device_ Demo.trainer) 11 (criterion_ Demo.trainer)
     (Some (mkOptimizer "ADAM" (2 # 100)%Q 12)) (scheduler_ Demo.trainer).

(** The object [__init__] builds for a dry run of the concrete one. *)
Definition dry_trainer : t :=
  mk (with_dry_run true Demo.args) (output_dir_path Demo.trainer) None
     (num_classes Demo.trainer) (in_channels Demo.trainer)
     (starting_epoch Demo.trainer) (best_val_acc Demo.trainer)
     (device_ Demo.trainer) (model Demo.trainer) (criterion_ Demo.trainer)
     (optimizer_ Demo.trainer) (scheduler_ Demo.trainer).

(** The concrete environment with other batches: [first] and [rest] from
    [train_loader], [test] from [test_loader]. *)
Definition with_batches (first : nat) (rest test : list nat) (env : Env)
    : Env :=
  mkEnv (now env) (mkdir_ok env) (logger_ok env) (model_with_cfg env)
    (torch_load env) (parse_int_list env) (model_load_state_dict env)
    (optimizer_load_state_dict env) (state_dict_lr env) first rest test
    (train_batches env) (init_lr env) (step_lr env) (eval_top1 env).

(** MNIST with --batch_size 1: 60000 and 10000 batches of one sample. *)
Definition env_batch_size_1 : Env :=
  with_batches 1 (replicate (Z.to_nat 59999) 1%nat)
    (replicate (Z.to_nat 10000) 1%nat) Demo.env.

(** MNIST with --batch_size 11: 60000 = 5454 * 11 + 6 and
    10000 = 909 * 11 + 1, so the last test batch has one sample. *)
Definition env_batch_size_11 : Env :=
  with_batches 11 (replicate (Z.to_nat 5453) 11%nat ++ [6%nat])
    (replicate 909 11%nat ++ [1%nat]) Demo.env.

End Variants.

(* ===================================================================== *)
(** * Scoping of the nodes a [symbolic] function emits                    *)
(* ===================================================================== *)

Module Scope.
Import Onnx.

(** Every input of every node of [new], a list of nodes placed at position
    [base] of the graph, is one of the values [args] handed to the function
    or the output of a node of [new] placed before it. *)
Definition well_scoped (args : list value) (base : nat) (new : list node)
    : Prop :=
  ∀ (p : nat) (n : node) (v : value),
    new !! p = Some n → v ∈ inputs n →
    v ∈ args ∨ ∃ k : nat, v = Out k ∧ (base ≤ k < base + p)%nat.

(** The values among the optional arguments. *)
Definition given (o : option value) : list value :=
  match o with
  | Some v => [v]
  | None => []
  end.

End Scope.

(** * Part II: properties *)

(* ===================================================================== *)
(** * Properties of act.py                                                *)
(* ===================================================================== *)

Section ActFacts.
Import Onnx ActSpec.

Lemma emitted_app {A} (m : G A) g a new :
  m g = (a, g ++ new) → emitted m g = new.
Proof.
  intros E. unfold emitted. rewrite E. simpl. by rewrite drop_app_length.
Qed.

Lemma op_run kind args kw g :
  op kind args kw g = (Out (length g), g ++ [mkNode kind args kw]).
Proof. reflexivity. Qed.

Lemma bind_run {A B} (m : G A) (k : A → G B) g a g' :
  m g = (a, g') → (m ≫= k) g = k a g'.
Proof. intros E. unfold mbind, G_bind. by rewrite E. Qed.

Lemma HT_symbolic_bipolar input thres bias scale g :
  HT.symbolic input "BIPOLAR" thres bias scale g
  = (Out (length g), g ++ [multi_threshold_bipolar input thres "BIPOLAR"]).
Proof. reflexivity. Qed.

Lemma HT_symbolic_other input q thres bias scale g :
  q ≠ "BIPOLAR" →
  HT.symbolic input q thres bias scale g
  = (Out (length g + length (add_then_mul (length g) bias scale)),
     g ++ multi_threshold input thres q
          :: add_then_mul (length g) bias scale).
Proof.
  intros Hq. unfold HT.symbolic. destruct (decide (q = "BIPOLAR")); [done|].
  rewrite (bind_run _ _ _ _ _ (op_run _ _ _ g)).
  destruct bias as [b|], scale as [s|];
    unfold mbind, G_bind, mret, G_ret, op; cbn;
    rewrite ?length_app, <- ?app_assoc; cbn;
    rewrite ?Nat.add_0_r, ?Nat.add_1_r;
    try replace (length g + 2)%nat with (S (S (length g))) by lia;
    reflexivity.
Qed.

(** C1: for qnt_type "BIPOLAR", [QuantHardTanhPlaceholderFunction.symbolic]
    appends exactly one MultiThreshold node over input and thres (domain
    "finn", out_dtype qnt_type, out_scale 2.0, out_bias -1.0) and returns its
    output, whatever bias and scale are; for any other qnt_type it appends a
    MultiThreshold node (domain "finn", out_dtype qnt_type), then an Add of
    bias exactly when bias is not None, then a Mul by scale exactly when
    scale is not None, and returns the output of the last node appended. *)
Theorem C1_hardtanh_symbolic input q thres bias scale g :
  (q = "BIPOLAR" →
     HT.symbolic input q thres bias scale g
     = (Out (length g), g ++ [multi_threshold_bipolar input thres q])
     ∧ HT.symbolic input q thres bias scale
       = HT.symbolic input q thres None None)
  ∧ (q ≠ "BIPOLAR" →
     HT.symbolic input q thres bias scale g
     = (Out (length g + length (add_then_mul (length g) bias scale)),
        g ++ multi_threshold input thres q
             :: add_then_mul (length g) bias scale)).
Proof.
  split.
  - intros ->. split; [apply HT_symbolic_bipolar | reflexivity].
  - apply HT_symbolic_other.
Qed.

Lemma C1_hardtanh_symbolic_witness :
  HT.symbolic (Ext "x") "BIPOLAR" (Ext "t") (Some (Ext "b")) (Some (Ext "s")) []
  = (Out 0, [multi_threshold_bipolar (Ext "x") (Ext "t") "BIPOLAR"])
  ∧ HT.symbolic (Ext "x") "INT2" (Ext "t") (Some (Ext "b")) (Some (Ext "s")) []
    = (Out 2, [multi_threshold (Ext "x") (Ext "t") "INT2";
               binary "Add" (Out 0) (Ext "b");
               binary "Mul" (Out 1) (Ext "s")]).
Proof.
  split.
  - apply (proj1 (C1_hardtanh_symbolic (Ext "x") "BIPOLAR" (Ext "t")
                    (Some (Ext "b")) (Some (Ext "s")) [])).
    reflexivity.
  - apply (proj2 (C1_hardtanh_symbolic (Ext "x") "INT2" (Ext "t")
                    (Some (Ext "b")) (Some (Ext "s")) [])).
    discriminate.
Defined.

Lemma RL_symbolic_run input q thres bias scale g :
  RL.symbolic input q thres bias scale g
  = (Out (length g + length (mul_only (length g) scale)),
     g ++ multi_threshold input thres q :: mul_only (length g) scale).
Proof.
  unfold RL.symbolic.
  rewrite (bind_run _ _ _ _ _ (op_run _ _ _ g)).
  destruct scale as [s|]; unfold mbind, G_bind, mret, G_ret, op; cbn;
    rewrite ?length_app, <- ?app_assoc; cbn;
    rewrite ?Nat.add_0_r, ?Nat.add_1_r; reflexivity.
Qed.

Lemma RL_emitted input q thres bias scale g :
  emitted (RL.symbolic input q thres bias scale) g
  = multi_threshold input thres q :: mul_only (length g) scale.
Proof. eapply emitted_app, RL_symbolic_run. Qed.

(** C2: [QuantReLUPlaceholderFunction.symbolic] appends a MultiThreshold node
    over input and thres (domain "finn", out_dtype qnt_type), then a Mul by
    scale exactly when scale is not None, and returns the output of the last
    node appended. *)
Theorem C2_relu_symbolic input q thres bias scale g :
  RL.symbolic input q thres bias scale g
  = (Out (length g + length (mul_only (length g) scale)),
     g ++ multi_threshold input thres q :: mul_only (length g) scale)
  ∧ emitted (RL.symbolic input q thres bias scale) g
    = multi_threshold input thres q
      :: match scale with
         | Some s => [binary "Mul" (Out (length g)) s]
         | None => []
         end.
Proof.
  split; [apply RL_symbolic_run|]. rewrite RL_emitted. by destruct scale.
Qed.

(** C9: [QuantReLUPlaceholderFunction.symbolic] never appends an Add node and
    does not depend on its bias argument, whereas the non-BIPOLAR branch of
    [QuantHardTanhPlaceholderFunction.symbolic] appends an Add of bias right
    after the threshold node whenever bias is not None. *)
Theorem C9_relu_ignores_bias input q thres bias scale g :
  (∀ n, n ∈ emitted (RL.symbolic input q thres bias scale) g →
        op_type n ≠ "Add")
  ∧ RL.symbolic input q thres bias scale = RL.symbolic input q thres None scale
  ∧ (∀ b, q ≠ "BIPOLAR" →
          emitted (HT.symbolic input q thres (Some b) scale) g !! 1%nat
          = Some (binary "Add" (Out (length g)) b)).
Proof.
  split; [|split].
  - intros n. rewrite RL_emitted. destruct scale; cbn.
    + rewrite !elem_of_cons, elem_of_nil. intros [->|[->|[]]]; discriminate.
    + rewrite !elem_of_cons, elem_of_nil. intros [->|[]]; discriminate.
  - reflexivity.
  - intros b Hq.
    rewrite (emitted_app _ _ _ _ (HT_symbolic_other _ _ _ (Some b) scale g Hq)).
    by destruct scale.
Qed.

Lemma C9_relu_ignores_bias_witness :
  emitted (HT.symbolic (Ext "x") "INT2" (Ext "t") (Some (Ext "b")) None) []
    !! 1%nat
  = Some (binary "Add" (Out 0) (Ext "b")).
Proof.
  apply (proj2 (proj2 (C9_relu_ignores_bias (Ext "x") "INT2" (Ext "t")
                         None None []))).
  discriminate.
Defined.

End ActFacts.

(* ===================================================================== *)
(** * Properties of trainer.py                                            *)
(* ===================================================================== *)

Section ForwardFacts.
Import Tensor.

Lemma clamp_min_elt_id (x : Q) : (0 <= x)%Q → clamp_min_elt 0 x = x.
Proof.
  intros H. unfold clamp_min_elt.
  by rewrite (proj2 (Qle_bool_iff 0 x) H).
Qed.

Lemma clamp_min_elt_neg (x : Q) : (x < 0)%Q → clamp_min_elt 0 x = 0%Q.
Proof.
  intros H. unfold clamp_min_elt.
  destruct (Qle_bool 0 x) eqn:E; [|done].
  apply Qle_bool_iff in E. by apply Qlt_not_le in H.
Qed.

Lemma clamp_lookup (input : tensor) (i : nat) (x : Q) :
  input !! i = Some x → clamp 0 input !! i = Some (clamp_min_elt 0 x).
Proof.
  intros Hi. unfold clamp, tensor in *. by rewrite list_lookup_fmap, Hi.
Qed.

(** C8: both [forward] methods return [input.clamp(0)] whatever qnt_type,
    thres, bias and scale (and ctx) are: a tensor of the same length in
    which every negative element has become 0 and every other element is
    left as it is, however large; in particular the HardTanh placeholder
    applies no upper clamp. *)
Theorem C8_forward_is_clamp {Ctx : Type} (ctx ctx' : Ctx) (input : tensor)
    (q q' : string) (th th' : tensor) (b b' s s' : option tensor) :
  HT.forward ctx input q th b s = clamp 0 input
  ∧ RL.forward ctx input q th b s = clamp 0 input
  ∧ HT.forward ctx input q th b s = HT.forward ctx' input q' th' b' s'
  ∧ RL.forward ctx input q th b s = RL.forward ctx' input q' th' b' s'
  ∧ (∀ (i : nat) (x : Q),
       input !! i = Some x → (0 <= x)%Q →
       HT.forward ctx input q th b s !! i = Some x)
  ∧ length (HT.forward ctx input q th b s) = length input
  ∧ length (RL.forward ctx input q th b s) = length input
  ∧ (∀ (i : nat) (x : Q),
       input !! i = Some x → (0 <= x)%Q →
       RL.forward ctx input q th b s !! i = Some x)
  ∧ (∀ (i : nat) (x : Q),
       input !! i = Some x → (x < 0)%Q →
       HT.forward ctx input q th b s !! i = Some 0%Q
       ∧ RL.forward ctx input q th b s !! i = Some 0%Q).
Proof.
  do 4 (split; [reflexivity|]).
  assert (Hpos : ∀ (i : nat) (x : Q),
            input !! i = Some x → (0 <= x)%Q →
            clamp 0 input !! i = Some x).
  { intros i x Hi Hx. by rewrite (clamp_lookup _ _ _ Hi), clamp_min_elt_id. }
  assert (Hlen : length (clamp 0 input) = length input).
  { unfold clamp. apply length_fmap. }
  split; [exact Hpos|]. split; [exact Hlen|]. split; [exact Hlen|].
  split; [exact Hpos|].
  intros i x Hi Hx. unfold HT.forward, RL.forward.
  by rewrite (clamp_lookup _ _ _ Hi), clamp_min_elt_neg.
Qed.

Lemma C8_forward_is_clamp_witness :
  HT.forward tt [(-3)%Q; (7 # 2)%Q; 1000%Q] "INT2" [] None None !! 2%nat
  = Some 1000%Q
  ∧ HT.forward tt [(-3)%Q; (7 # 2)%Q; 1000%Q] "INT2" [] None None !! 0%nat
    = Some 0%Q.
Proof.
  pose proof (C8_forward_is_clamp tt tt [(-3)%Q; (7 # 2)%Q; 1000%Q]
                "INT2" "INT2" [] [] None None None None)
    as (_ & _ & _ & _ & Hpos & _ & _ & _ & Hneg).
  split.
  - apply (Hpos 2%nat 1000%Q); [reflexivity|discriminate].
  - apply (Hneg 0%nat (-3)%Q); reflexivity.
Defined.

End ForwardFacts.

Section MonadFacts.
Import Trainer.

Lemma bind_Ok {A B} (m : M A) (k : A → M B) a ev :
  m = (Ok a, ev) → m ≫= k = ((k a).1, ev ++ (k a).2).
Proof. intros ->. unfold mbind, M_bind. by destruct (k a). Qed.

Lemma ret_bind {A B} (a : A) (k : A → M B) : mret a ≫= k = k a.
Proof. unfold mbind, M_bind, mret, M_ret. by destruct (k a). Qed.

Lemma bind_Raise {A B} (m : M A) (k : A → M B) e ev :
  m = (Raise e, ev) → m ≫= k = (Raise e, ev).
Proof. by intros ->. Qed.

Lemma bind_inv_Ok {A B} (m : M A) (k : A → M B) b evs :
  m ≫= k = (Ok b, evs) →
  ∃ a ev1 ev2, m = (Ok a, ev1) ∧ k a = (Ok b, ev2) ∧ evs = ev1 ++ ev2.
Proof.
  destruct m as [[a|e] ev1]; unfold mbind, M_bind; [|done].
  destruct (k a) as [r ev2] eqn:E. intros [= -> <-].
  by exists a, ev1, ev2.
Qed.

Lemma emits_only_bind {A B} P (m : M A) (k : A → M B) :
  emits_only P m → (∀ a, emits_only P (k a)) → emits_only P (m ≫= k).
Proof.
  unfold emits_only. destruct m as [[a|e] ev1]; unfold mbind, M_bind; cbn.
  - intros H1 H2. specialize (H2 a). destruct (k a) as [r ev2]; cbn in *.
    by apply Forall_app.
  - done.
Qed.

Lemma emits_only_ret {A} P (a : A) : emits_only P (mret a : M A).
Proof. constructor. Qed.

Lemma emits_only_raise {A} P e : emits_only P (raise e : M A).
Proof. constructor. Qed.

Lemma emits_only_lift {A} P (r : result A) : emits_only P (lift r).
Proof. constructor. Qed.

Lemma emits_only_attr {A} P name (o : option A) : emits_only P (attr name o).
Proof. destruct o; constructor. Qed.

Lemma emits_only_emit P e : P e → emits_only P (emit e).
Proof. intros H. by repeat constructor. Qed.

End MonadFacts.

Section PathFacts.
Import OsPath.

Lemma append_cons (c : ascii) (s1 s2 : string) :
  String c s1 +:+ s2 = String c (s1 +:+ s2).
Proof. reflexivity. Qed.

Lemma append_nil (s : string) : "" +:+ s = s.
Proof. reflexivity. Qed.

Lemma string_of_list_ascii_app (l1 l2 : list ascii) :
  string_of_list_ascii (l1 ++ l2)
  = string_of_list_ascii l1 +:+ string_of_list_ascii l2.
Proof.
  induction l1 as [|c l1 IH]; cbn; [done|]. by rewrite IH, append_cons.
Qed.

Lemma list_ascii_of_string_app (s1 s2 : string) :
  list_ascii_of_string (s1 +:+ s2)
  = list_ascii_of_string s1 ++ list_ascii_of_string s2.
Proof.
  induction s1 as [|c s1 IH]; [done|].
  rewrite append_cons. cbn. by rewrite IH.
Qed.

Lemma list_ascii_of_string_nil (s : string) :
  list_ascii_of_string s = [] → s = "".
Proof. by destruct s. Qed.

(** Joining a directory that does not end in a separator with a relative
    name puts exactly one separator between them. *)
Lemma join_plain (dir name : string) :
  dir ≠ "" →
  endswith_sep (list_ascii_of_string dir) = false →
  startswith_sep (list_ascii_of_string name) = false →
  join dir name = dir +:+ "/" +:+ name.
Proof.
  intros Hne He Hs. unfold join, join_chars. rewrite Hs, He.
  rewrite bool_decide_eq_false_2.
  - cbn. rewrite string_of_list_ascii_app. cbn.
    by rewrite !string_of_list_ascii_of_string.
  - intros H. by apply Hne, list_ascii_of_string_nil.
Qed.

Lemma append_assoc (s1 s2 s3 : string) :
  (s1 +:+ s2) +:+ s3 = s1 +:+ s2 +:+ s3.
Proof.
  induction s1 as [|c s1 IH]; [done|]. by rewrite !append_cons, IH.
Qed.

End PathFacts.

Section BatchLoopFacts.
Import Batch.

Lemma hinge_target_shape_single (n : nat) :
  hinge_target_shape [n] = Ok (if bool_decide (n = 1%nat) then [] else [n]).
Proof.
  unfold hinge_target_shape, unsqueeze, squeeze. cbn.
  rewrite (bool_decide_eq_true_2 (1 ≤ 1)%nat) by done.
  destruct (decide (n = 1%nat)) as [->|Hn].
  - rewrite bool_decide_eq_true_2 by done.
    by rewrite !filter_cons_False by naive_solver.
  - rewrite bool_decide_eq_false_2 by done.
    rewrite filter_cons_True by done.
    by rewrite filter_cons_False by naive_solver.
Qed.

(** The outcome of the [accuracy] call of a batch, case by case. *)
Lemma measured_batch_cases (hinge : bool) (classes : Z) (n : nat) :
  measured_batch hinge classes n
  = if hinge && bool_decide (n = 1%nat)
    then Raise (IndexError "Dimension specified but tensor has no such dimension")
    else if 5 <=? classes then
           if bool_decide (n = 0%nat) then Raise ZeroDivisionError else Ok tt
         else Raise (RuntimeError "selected index k out of range").
Proof.
  unfold measured_batch, target_shape, accuracy_call.
  destruct hinge; [|done]. rewrite hinge_target_shape_single. cbn.
  by destruct (bool_decide (n = 1%nat)).
Qed.

Lemma measured_batch_Ok_iff (hinge : bool) (classes : Z) (n : nat) :
  measured_batch hinge classes n = Ok tt ↔ 5 ≤ classes ∧ fits hinge n.
Proof.
  rewrite measured_batch_cases. unfold fits.
  destruct hinge; cbn; repeat case_bool_decide;
    destruct (5 <=? classes) eqn:E;
    try apply Z.leb_le in E; try apply Z.leb_gt in E;
    split; try done; try (intros [? [? ?]]; (done || lia || naive_solver));
    intros _; repeat split; (done || lia).
Qed.

Lemma result_unit_cases (r : result unit) : r = Ok tt ∨ ∃ e, r = Raise e.
Proof. destruct r as [[]|e]; [by left|right; by eexists]. Qed.

Lemma train_loop_Ok_iff (hinge : bool) (classes log_freq : Z) (len : nat)
    (sizes : list nat) : ∀ i,
  train_loop hinge classes log_freq len i sizes = Ok tt
  ↔ Forall (λ n, 5 ≤ classes ∧ fits hinge n)
      (logged_sizes log_freq len i sizes).
Proof.
  induction sizes as [|n rest IH]; intros i; cbn.
  - split; [constructor|done].
  - destruct (logged log_freq len i).
    + rewrite Forall_cons, <- IH, <- measured_batch_Ok_iff.
      destruct (result_unit_cases (measured_batch hinge classes n))
        as [->|[e ->]]; [tauto|]. split; [done|]. by intros [? _].
    + apply IH.
Qed.

Lemma eval_loop_Ok_iff (hinge : bool) (classes : Z) (sizes : list nat) :
  eval_loop hinge classes sizes = Ok tt
  ↔ Forall (λ n, 5 ≤ classes ∧ fits hinge n) sizes.
Proof.
  induction sizes as [|n rest IH]; cbn.
  - split; [constructor|done].
  - rewrite Forall_cons, <- IH, <- measured_batch_Ok_iff.
    destruct (result_unit_cases (measured_batch hinge classes n))
      as [->|[e ->]]; [tauto|]. split; [done|]. by intros [? _].
Qed.

(** The first batch of an epoch is always a logged one. *)
Lemma logged_first (log_freq : Z) (len : nat) : logged log_freq len 0 = true.
Proof. unfold logged. by rewrite Zmod_0_l. Qed.

Lemma Forall_and_const {A} (P : Prop) (Q : A → Prop) (l : list A) :
  P → Forall Q l → Forall (λ x, P ∧ Q x) l.
Proof. intros HP H. eapply Forall_impl; [exact H|]. by split. Qed.

Lemma Forall_and_r {A} (P : Prop) (Q : A → Prop) (l : list A) :
  Forall (λ x, P ∧ Q x) l → Forall Q l.
Proof. intros H. eapply Forall_impl; [exact H|]. by intros x [_ ?]. Qed.

End BatchLoopFacts.

Section CheckpointFacts.
Import Trainer.

Lemma checkpoint_best_run self epoch name dir o :
  checkpoints_dir_path self = Some dir →
  optimizer_ self = Some o →
  checkpoint_best self epoch name
  = (Ok tt, checkpoint_events self o epoch dir name).
Proof. intros Hd Ho. unfold checkpoint_best. by rewrite Hd, Ho. Qed.

Lemma checkpoint_dict_dom self o epoch :
  dom (checkpoint_dict self o epoch)
  = ({[ "state_dict"; "optim_dict"; "epoch"; "best_val_acc" ]} : gset string).
Proof.
  unfold checkpoint_dict.
  rewrite !dom_insert_L, dom_singleton_L. set_solver.
Qed.

(** C4: on an object that has its checkpoint directory and its optimizer,
    [checkpoint_best(epoch, name)] saves to [join(checkpoints_dir_path, name)]
    a dictionary whose keys are exactly state_dict, optim_dict, epoch and
    best_val_acc, with epoch + 1 under 'epoch', and after that exports the
    model to [checkpoints_dir_path + "/" + name + ".onnx"], which is the
    checkpoint path followed by ".onnx" for a relative name and a directory
    without trailing separator. *)
Theorem C4_checkpoint_best self (epoch : Z) (name dir : string) o :
  checkpoints_dir_path self = Some dir →
  optimizer_ self = Some o →
  ∃ obj : gmap string pyval,
    checkpoint_best self epoch name
    = (Ok tt,
       [ Log "info" "Saving checkpoint model to {}";
         TorchSave obj (OsPath.join dir name);
         ModelTo Cpu;
         ExportOnnx (model self) (dir +:+ "/" +:+ name +:+ ".onnx")
                    [1; in_channels self; 32; 32];
         ModelTo (device_ self) ])
    ∧ dom obj = {[ "state_dict"; "optim_dict"; "epoch"; "best_val_acc" ]}
    ∧ size obj = 4%nat
    ∧ obj !! "epoch" = Some (PInt (epoch + 1))
    ∧ obj !! "state_dict" = Some (PState (model self))
    ∧ obj !! "optim_dict" = Some (PState (ostate o))
    ∧ obj !! "best_val_acc" = Some (best_val_acc self)
    ∧ (dir ≠ "" →
       OsPath.endswith_sep (list_ascii_of_string dir) = false →
       OsPath.startswith_sep (list_ascii_of_string name) = false →
       dir +:+ "/" +:+ name +:+ ".onnx" = OsPath.join dir name +:+ ".onnx").
Proof.
  intros Hd Ho. exists (checkpoint_dict self o epoch).
  split; [by apply checkpoint_best_run|].
  split; [apply checkpoint_dict_dom|].
  split; [|split; [|split; [|split; [|split]]]]; try done.
  intros H1 H2 H3. rewrite (join_plain _ _ H1 H2 H3).
  by rewrite !append_assoc.
Qed.

End CheckpointFacts.

Section TrainFacts.
Import Trainer.
Variable env : Env.

Lemma saves_app (l1 l2 : list event) : saves (l1 ++ l2) = saves l1 ++ saves l2.
Proof.
  induction l1 as [|e l1 IH]; [done|]. destruct e; cbn; by rewrite ?IH.
Qed.

Lemma trained_app (l1 l2 : list event) :
  trained (l1 ++ l2) = trained l1 ++ trained l2.
Proof.
  induction l1 as [|e l1 IH]; [done|]. destruct e; cbn; by rewrite ?IH.
Qed.

Lemma best_le_refl v : is_Some (as_number v) → best_le v v.
Proof. intros [q Hq]. unfold best_le. rewrite Hq. apply Qle_refl. Qed.

Lemma best_le_trans u v w : best_le u v → best_le v w → best_le u w.
Proof.
  unfold best_le.
  destruct (as_number u), (as_number v), (as_number w); try done.
  apply Qle_trans.
Qed.

Lemma ge_best_number top best b :
  as_number best = Some b → ge_best top best = Ok (Qle_bool b top).
Proof. destruct best; cbn; intros [= <-]; reflexivity. Qed.

Lemma train_loop_fit self :
  batches_fit env self →
  Batch.train_loop (is_hinge (criterion_ self)) (num_classes self)
    (Args.log_freq (args self)) (length (train_sizes env)) 0
    (train_sizes env)
  = Ok tt.
Proof.
  intros (H5 & Ht & _). apply train_loop_Ok_iff. by apply Forall_and_const.
Qed.

Lemma eval_loop_fit self :
  batches_fit env self →
  Batch.eval_loop (is_hinge (criterion_ self)) (num_classes self)
    (test_sizes env)
  = Ok tt.
Proof.
  intros (H5 & _ & Ht). apply eval_loop_Ok_iff. by apply Forall_and_const.
Qed.

(** One epoch of batches: it succeeds on a trainable object, trains exactly
    this epoch, writes nothing, and leaves the bookkeeping alone. *)
Lemma train_epoch_run self epoch :
  trainable env self →
  ∃ self' evs,
    train_epoch env self epoch = (Ok self', evs)
    ∧ same_frame self self'
    ∧ is_Some (optimizer_ self')
    ∧ saves evs = []
    ∧ trained evs = [epoch].
Proof.
  intros ([o Ho] & _ & Hlog & _ & Hfit). unfold train_epoch.
  rewrite (train_loop_fit self Hfit), Ho.
  apply Z.eqb_neq in Hlog. rewrite Hlog. cbn.
  destruct (train_batches env (model self) (ostate o) epoch) as [m st].
  cbn. destruct (scheduler_ self) as [sc|]; cbn.
  - eexists _, _. split; [reflexivity|]. by repeat split.
  - destruct (epoch `mod` 40 =? 0); cbn;
      (eexists _, _; split; [reflexivity|]; by repeat split).
Qed.

Local Opaque checkpoint_best.

Lemma eval_and_checkpoint_dry self epoch b :
  as_number (best_val_acc self) = Some b →
  Args.dry_run (args self) = true →
  batches_fit env self →
  eval_and_checkpoint env self epoch = (Ok self, [EvalModel epoch]).
Proof.
  intros Hb Hdry Hfit. unfold eval_and_checkpoint, eval_model.
  rewrite (eval_loop_fit self Hfit). cbn.
  rewrite (ge_best_number _ _ _ Hb), Hdry. cbn.
  by rewrite andb_false_r.
Qed.

Lemma eval_and_checkpoint_best self epoch b o dir :
  as_number (best_val_acc self) = Some b →
  Args.dry_run (args self) = false →
  optimizer_ self = Some o →
  checkpoints_dir_path self = Some dir →
  batches_fit env self →
  (b <= eval_top1 env (model self))%Q →
  let self' := set_best_val_acc (PFloat (eval_top1 env (model self))) self in
  eval_and_checkpoint env self epoch
  = (Ok self', EvalModel epoch :: checkpoint_events self' o epoch dir "best.tar").
Proof.
  intros Hb Hdry Ho Hd Hfit Hle self'.
  unfold eval_and_checkpoint, eval_model.
  rewrite (eval_loop_fit self Hfit). cbn.
  rewrite (ge_best_number _ _ _ Hb), Hdry.
  rewrite (proj2 (Qle_bool_iff _ _) Hle). cbn.
  subst self'. by rewrite (checkpoint_best_run _ epoch "best.tar" dir o).
Qed.

Lemma eval_and_checkpoint_other self epoch b o dir :
  as_number (best_val_acc self) = Some b →
  Args.dry_run (args self) = false →
  optimizer_ self = Some o →
  checkpoints_dir_path self = Some dir →
  batches_fit env self →
  ¬ (b <= eval_top1 env (model self))%Q →
  eval_and_checkpoint env self epoch
  = (Ok self,
     EvalModel epoch :: checkpoint_events self o epoch dir "checkpoint.tar").
Proof.
  intros Hb Hdry Ho Hd Hfit Hle. unfold eval_and_checkpoint, eval_model.
  rewrite (eval_loop_fit self Hfit). cbn.
  rewrite (ge_best_number _ _ _ Hb), Hdry.
  destruct (Qle_bool b (eval_top1 env (model self))) eqn:E.
  { by apply Qle_bool_iff in E. }
  cbn. by rewrite (checkpoint_best_run self epoch "checkpoint.tar" dir o).
Qed.

Local Transparent checkpoint_best.

End TrainFacts.

Section TrainRun.
Import Trainer.
Variable env : Env.

Lemma batches_fit_frame self self' :
  args self' = args self → num_classes self' = num_classes self →
  criterion_ self' = criterion_ self →
  batches_fit env self → batches_fit env self'.
Proof. unfold batches_fit. by intros -> -> ->. Qed.

Lemma trainable_frame self self' :
  trainable env self → same_frame self self' → is_Some (optimizer_ self') →
  trainable env self'.
Proof.
  intros (_ & Hb & Hl & Hd & Hfit) (Ea & Ec & Eb & _ & _ & _ & En & Ecr) Ho.
  unfold trainable. rewrite Ea, Ec, Eb.
  do 4 (split; [done|]). by apply (batches_fit_frame self).
Qed.

Lemma eval_and_checkpoint_run self1 epoch :
  trainable env self1 →
  ∃ self2 evs2,
    eval_and_checkpoint env self1 epoch = (Ok self2, evs2)
    ∧ trained evs2 = []
    ∧ length (saves evs2) = (if Args.dry_run (args self1) then 0 else 1)%nat
    ∧ trainable env self2
    ∧ args self2 = args self1
    ∧ checkpoints_dir_path self2 = checkpoints_dir_path self1
    ∧ best_le (best_val_acc self1) (best_val_acc self2)
    ∧ epoch_outcome env self1 self1 self2 evs2.
Proof.
  intros Ht. pose proof Ht as ([o Ho] & [b Hb] & Hlog & Hdir & Hfit).
  assert (Hrefl : best_le (best_val_acc self1) (best_val_acc self1)).
  { apply best_le_refl. by eexists. }
  destruct (Args.dry_run (args self1)) eqn:Hdry.
  - (* dry run *)
    exists self1, [EvalModel epoch].
    split; [by apply (eval_and_checkpoint_dry env self1 epoch b)|].
    do 6 (split; [done|]).
    split; [by rewrite Hdry|done].
  - (* a checkpoint is written *)
    destruct (Hdir eq_refl) as [dir Hd].
    destruct (Qlt_le_dec (eval_top1 env (model self1)) b) as [Hlt|Hle].
    + (* not a new best *)
      apply Qlt_not_le in Hlt.
      exists self1, (EvalModel epoch
                     :: checkpoint_events self1 o epoch dir "checkpoint.tar").
      split; [by apply (eval_and_checkpoint_other env self1 epoch b)|].
      do 6 (split; [done|]).
      split; [|by rewrite Hdry].
      intros _. exists dir, b. by repeat split.
    + (* a new best *)
      pose (self2 := set_best_val_acc (PFloat (eval_top1 env (model self1)))
                       self1).
      exists self2, (EvalModel epoch
                     :: checkpoint_events self2 o epoch dir "best.tar").
      split; [by apply (eval_and_checkpoint_best env self1 epoch b)|].
      do 2 (split; [done|]).
      split.
      { split; [by eexists|]. split; [by eexists|].
        split; [done|]. split; [done|]. exact Hfit. }
      do 2 (split; [done|]).
      split; [unfold best_le; by rewrite Hb|].
      split; [|by rewrite Hdry].
      intros _. exists dir, b. by repeat split.
Qed.

Lemma epoch_body_run self epoch :
  trainable env self →
  ∃ self1 evs1 self2 evs2,
    train_epoch env self epoch = (Ok self1, evs1)
    ∧ eval_and_checkpoint env self1 epoch = (Ok self2, evs2)
    ∧ epoch_body env self epoch = (Ok self2, evs1 ++ evs2)
    ∧ saves evs1 = []
    ∧ trained (evs1 ++ evs2) = [epoch]
    ∧ length (saves evs2) = (if Args.dry_run (args self) then 0 else 1)%nat
    ∧ trainable env self2
    ∧ args self2 = args self
    ∧ checkpoints_dir_path self2 = checkpoints_dir_path self
    ∧ best_le (best_val_acc self) (best_val_acc self2)
    ∧ epoch_outcome env self self1 self2 evs2.
Proof.
  intros Ht.
  destruct (train_epoch_run env self epoch Ht)
    as (self1 & evs1 & E1 & Hfr & Ho1 & Hs1 & Ht1).
  pose proof (trainable_frame _ _ Ht Hfr Ho1) as Ht'.
  destruct Hfr as (Ea & Ec & Eb & _).
  destruct (eval_and_checkpoint_run self1 epoch Ht')
    as (self2 & evs2 & E2 & Ht2 & Hlen & Htr2 & Ea2 & Ec2 & Hle & Hout).
  exists self1, evs1, self2, evs2.
  split; [done|]. split; [done|].
  split. { unfold epoch_body. rewrite (bind_Ok _ _ _ _ E1). by rewrite E2. }
  split; [done|].
  split; [by rewrite trained_app, Ht1, Ht2|].
  split; [by rewrite <- Ea|].
  split; [done|].
  split; [congruence|]. split; [congruence|].
  split; [by rewrite <- Eb|].
  unfold epoch_outcome in *. by rewrite <- Ea, <- Ec, <- Eb.
Qed.

(** The loop over any list of epochs. *)
Lemma for_epochs_run epochs : ∀ self,
  trainable env self →
  ∃ self' evs,
    for_epochs env epochs self = (Ok self', evs)
    ∧ trainable env self'
    ∧ args self' = args self
    ∧ checkpoints_dir_path self' = checkpoints_dir_path self
    ∧ best_le (best_val_acc self) (best_val_acc self')
    ∧ trained evs = epochs
    ∧ length (saves evs)
      = (if Args.dry_run (args self) then 0 else length epochs)%nat.
Proof.
  induction epochs as [|epoch rest IH]; intros self Ht.
  - exists self, []. cbn. repeat split; try done; try apply Ht.
    + apply best_le_refl, Ht.
    + by destruct (Args.dry_run (args self)).
  - destruct (epoch_body_run self epoch Ht)
      as (self1 & evs1 & self2 & evs2 & _ & _ & E & Hs1 & Htr & Hlen
          & Ht2 & Ea & Ec & Hle & _).
    destruct (IH self2 Ht2)
      as (self' & evs & E' & Ht' & Ea' & Ec' & Hle' & Htr' & Hlen').
    exists self', ((evs1 ++ evs2) ++ evs). cbn.
    rewrite (bind_Ok _ _ _ _ E), E'. cbn.
    repeat split; try done; try apply Ht'.
    + congruence.
    + congruence.
    + by eapply best_le_trans.
    + by rewrite trained_app, Htr, Htr'.
    + rewrite !saves_app, Hs1, !length_app, Hlen, Hlen', Ea. cbn.
      by destruct (Args.dry_run (args self)).
Qed.

Lemma for_epochs_app l1 l2 self :
  for_epochs env (l1 ++ l2) self
  = for_epochs env l1 self ≫= for_epochs env l2.
Proof.
  revert self. induction l1 as [|e l1 IH]; intros self; cbn.
  - unfold mbind, M_bind, mret, M_ret.
    by destruct (for_epochs env l2 self).
  - destruct (epoch_body env self e) as [[s1|x] ev1]; [|done].
    unfold mbind, M_bind. rewrite IH.
    destruct (for_epochs env l1 s1) as [[s2|x] ev2]; [|done].
    unfold mbind, M_bind.
    destruct (for_epochs env l2 s2) as [r ev3]. by rewrite app_assoc.
Qed.

Lemma train_model_run self start self' evs :
  starting_epoch self = PInt start →
  for_epochs env (py_range start (Args.epochs (args self))) self
  = (Ok self', evs) →
  args self' = args self →
  (Args.dry_run (args self) = false → is_Some (checkpoints_dir_path self')) →
  train_model env self
  = (Ok (self',
         if Args.dry_run (args self) then None
         else (λ dir, OsPath.join dir "best.tar")
                <$> checkpoints_dir_path self'),
     (if Args.detect_nan (args self) then [SetDetectAnomaly] else []) ++ evs).
Proof.
  intros Hs E Ea Hd. unfold train_model. rewrite Hs.
  assert (Hpre : (if Args.detect_nan (args self)
                  then emit SetDetectAnomaly else mret tt)
                 = (Ok tt, if Args.detect_nan (args self)
                           then [SetDetectAnomaly] else [])).
  { by destruct (Args.detect_nan (args self)). }
  rewrite (bind_Ok _ _ _ _ Hpre). cbv beta.
  rewrite ret_bind, (bind_Ok _ _ _ _ E), Ea.
  destruct (Args.dry_run (args self)); cbn; [by rewrite ?app_nil_r|].
  destruct (Hd eq_refl) as [dir ->]; cbn; by rewrite ?app_nil_r.
Qed.

(** C3: on a trainable object (it has what the loop reads, and its batches
    fit the two calls of [accuracy]: on others the loop raises before a
    checkpoint is due) every turn of the loop succeeds; after its
    evaluation, when args.dry_run is false, exactly one checkpoint is
    written, 'best.tar' if the epoch's top-1 average is at least
    best_val_acc (which then becomes that average) and 'checkpoint.tar'
    otherwise (best_val_acc unchanged); in a dry run nothing is written and
    best_val_acc stays; hence over any run of epochs best_val_acc never
    decreases, also between any two points of the run, and the number of
    checkpoints written is the number of epochs; so it is for the whole of
    [train_model]. *)
Theorem C3_one_checkpoint_per_epoch self :
  trainable env self →
  (∀ epoch, ∃ self1 evs1 self2 evs2,
      train_epoch env self epoch = (Ok self1, evs1)
      ∧ eval_and_checkpoint env self1 epoch = (Ok self2, evs2)
      ∧ epoch_body env self epoch = (Ok self2, evs1 ++ evs2)
      ∧ saves evs1 = []
      ∧ trainable env self2
      ∧ best_le (best_val_acc self) (best_val_acc self2)
      ∧ epoch_outcome env self self1 self2 evs2)
  ∧ (∀ epochs1 epochs2, ∃ self1 evs1 self2 evs2,
      for_epochs env epochs1 self = (Ok self1, evs1)
      ∧ for_epochs env epochs2 self1 = (Ok self2, evs2)
      ∧ for_epochs env (epochs1 ++ epochs2) self = (Ok self2, evs1 ++ evs2)
      ∧ best_le (best_val_acc self) (best_val_acc self1)
      ∧ best_le (best_val_acc self1) (best_val_acc self2)
      ∧ length (saves (evs1 ++ evs2))
        = (if Args.dry_run (args self) then 0
           else length (epochs1 ++ epochs2))%nat)
  ∧ (∀ start, starting_epoch self = PInt start →
      ∃ self' ret evs,
        train_model env self = (Ok (self', ret), evs)
        ∧ best_le (best_val_acc self) (best_val_acc self')
        ∧ length (saves evs)
          = (if Args.dry_run (args self) then 0
             else length (py_range start (Args.epochs (args self))))%nat).
Proof.
  intros Ht. split; [|split].
  - intros epoch.
    destruct (epoch_body_run self epoch Ht)
      as (self1 & evs1 & self2 & evs2 & E1 & E2 & E & Hs1 & _ & _
          & Ht2 & _ & _ & Hle & Hout).
    by exists self1, evs1, self2, evs2.
  - intros l1 l2.
    destruct (for_epochs_run l1 self Ht)
      as (self1 & evs1 & E1 & Ht1 & Ea1 & _ & Hle1 & _ & Hlen1).
    destruct (for_epochs_run l2 self1 Ht1)
      as (self2 & evs2 & E2 & _ & _ & _ & Hle2 & _ & Hlen2).
    exists self1, evs1, self2, evs2.
    repeat split; try done.
    + rewrite for_epochs_app, (bind_Ok _ _ _ _ E1). by rewrite E2.
    + rewrite saves_app, !length_app, Hlen1, Hlen2, Ea1.
      by destruct (Args.dry_run (args self)).
  - intros start Hs.
    destruct (for_epochs_run (py_range start (Args.epochs (args self)))
                self Ht)
      as (self' & evs & E & _ & Ea & Ec & Hle & _ & Hlen).
    pose proof Ht as (_ & _ & _ & Hd & _).
    eexists self', _, _.
    split; [apply (train_model_run self start self' evs Hs E Ea);
            by rewrite Ec|].
    split; [done|].
    rewrite saves_app, length_app, Hlen.
    by destruct (Args.detect_nan (args self)).
Qed.

End TrainRun.

(** Splits a goal on the events of a computation along its binds, matches
    and conditionals. *)
Ltac emits :=
  repeat first
    [ apply emits_only_ret
    | apply emits_only_raise
    | apply emits_only_lift
    | apply emits_only_attr
    | apply emits_only_emit; reflexivity
    | apply emits_only_bind; [|intros ?]
    | match goal with
      | |- Trainer.emits_only _ (match ?x with _ => _ end) => destruct x
      end ].

Section InitFacts.
Import Trainer.
Variable env : Env.

(** The stages of a successful [__init__], in program order. *)
Lemma init_stages a self evs :
  __init__ env a = (Ok self, evs) →
  ∃ opt0 builder model0 gpus package sc0
    ev1 ev2 ev3 ev4 ev5 ev6 ev7 ev8 ev9 ev10,
    init_paths env a
      = (Ok (output_dir_path self, checkpoints_dir_path self), ev1)
    ∧ select_dataset (Args.dataset a)
      = (Ok (builder, num_classes self, in_channels self), ev2)
    ∧ load_model env a (Args.dataset a) (num_classes self) = (Ok model0, ev3)
    ∧ build_data a builder = (Ok tt, ev4)
    ∧ setup_device env a = (Ok (device_ self, gpus), ev5)
    ∧ resume_model env a model0 = (Ok (model self, package), ev6)
    ∧ place_model gpus (device_ self) = (Ok tt, ev7)
    ∧ resume_optimizer env a package (make_optimizer a) (PInt 1) (PInt 0)
      = (Ok (opt0, starting_epoch self, best_val_acc self), ev8)
    ∧ make_scheduler env a opt0 = (Ok sc0, ev9)
    ∧ resume_scheduler a package sc0 = (Ok (scheduler_ self), ev10)
    ∧ args self = a
    ∧ evs = ev1 ++ ev2 ++ ev3 ++ ev4 ++ ev5 ++ ev6 ++ ev7 ++ ev8 ++ ev9
            ++ ev10
    ∧ optimizer_ self = scheduled env sc0 opt0.
Proof.
  unfold __init__. intros H.
  apply bind_inv_Ok in H as ([odp cdp] & ev1 & r1 & E1 & H & ->).
  apply bind_inv_Ok in H as ([[builder nc] ic] & ev2 & r2 & E2 & H & ->).
  apply bind_inv_Ok in H as (model0 & ev3 & r3 & E3 & H & ->).
  apply bind_inv_Ok in H as ([] & ev4 & r4 & E4 & H & ->).
  apply bind_inv_Ok in H as ([dev gpus] & ev5 & r5 & E5 & H & ->).
  apply bind_inv_Ok in H as ([m package] & ev6 & r6 & E6 & H & ->).
  apply bind_inv_Ok in H as ([] & ev7 & r7 & E7 & H & ->).
  apply bind_inv_Ok in H as ([[opt se] bva] & ev8 & r8 & E8 & H & ->).
  apply bind_inv_Ok in H as (sc0 & ev9 & r9 & E9 & H & ->).
  apply bind_inv_Ok in H as (sc & ev10 & r10 & E10 & H & ->).
  injection H as <- <-.
  exists opt, builder, model0, gpus, package, sc0,
         ev1, ev2, ev3, ev4, ev5, ev6, ev7, ev8, ev9, ev10.
  cbn. rewrite app_nil_r. by repeat split.
Qed.

Lemma load_model_Ok a dataset nc m ev :
  load_model env a dataset nc = (Ok m, ev) →
  model_with_cfg env (Args.network a) (Args.pretrained a)
  = CfgLoaded m dataset nc
  ∧ ev = [ModelWithCfg (Args.network a) (Args.pretrained a);
          Log "info" "Loaded {} from original examples"].
Proof.
  unfold load_model.
  destruct (model_with_cfg env _ _) as [m' d n|e]; cbn.
  - repeat case_decide; try done. subst. by intros [= <- <-].
  - by destruct e.
Qed.

Lemma init_criterion a self evs :
  __init__ env a = (Ok self, evs) → criterion_ self = make_criterion a.
Proof.
  unfold __init__. intros H.
  apply bind_inv_Ok in H as ([odp cdp] & ev1 & r1 & _ & H & _).
  apply bind_inv_Ok in H as ([[builder nc] ic] & ev2 & r2 & _ & H & _).
  apply bind_inv_Ok in H as (model0 & ev3 & r3 & _ & H & _).
  apply bind_inv_Ok in H as ([] & ev4 & r4 & _ & H & _).
  apply bind_inv_Ok in H as ([dev gpus] & ev5 & r5 & _ & H & _).
  apply bind_inv_Ok in H as ([m package] & ev6 & r6 & _ & H & _).
  apply bind_inv_Ok in H as ([] & ev7 & r7 & _ & H & _).
  apply bind_inv_Ok in H as ([[opt se] bva] & ev8 & r8 & _ & H & _).
  apply bind_inv_Ok in H as (sc0 & ev9 & r9 & _ & H & _).
  apply bind_inv_Ok in H as (sc & ev10 & r10 & _ & H & _).
  by injection H as <- _.
Qed.

Lemma select_dataset_inv d builder nc ic ev :
  select_dataset d = (Ok (builder, nc, ic), ev) →
  (d = "CIFAR10" ∧ nc = 10 ∧ ic = 3)
  ∨ (d = "CIFAR100" ∧ nc = 100 ∧ ic = 3)
  ∨ (d = "MNIST" ∧ nc = 10 ∧ ic = 1).
Proof.
  unfold select_dataset. repeat case_decide; intros [= <- <- <- <-]; auto.
Qed.

Lemma select_dataset_other d :
  d ∉ ["CIFAR10"; "CIFAR100"; "MNIST"] →
  select_dataset d = raise (Exception ("Dataset not supported: " +:+ d)).
Proof.
  intros H. unfold select_dataset.
  repeat case_decide; try done; subst; exfalso; apply H; set_solver.
Qed.

Lemma init_paths_no_dataset a :
  emits_only (λ e, is_build_dataset e = false) (init_paths env a).
Proof.
  unfold init_paths.
  destruct (negb (Args.dry_run a)), (negb (truthy (Args.resume a)));
    cbv zeta; emits.
Qed.

(** C6: [Trainer.__init__] knows exactly three datasets: an object is only
    built for CIFAR10 (10 classes, 3 channels), CIFAR100 (100 classes, 3
    channels) or MNIST (10 classes, 1 channel); for any other value the
    constructor raises, the exception being "Dataset not supported: ..." as
    soon as the directories and the logger were set up, and no dataset has
    been built at that point. *)
Theorem C6_dataset_selection a :
  select_dataset "CIFAR10" = (Ok ("CIFAR10", 10, 3), [])
  ∧ select_dataset "CIFAR100" = (Ok ("CIFAR100", 100, 3), [])
  ∧ select_dataset "MNIST" = (Ok ("MNIST", 10, 1), [])
  ∧ (∀ self evs, __init__ env a = (Ok self, evs) →
     Args.dataset a ∈ ["CIFAR10"; "CIFAR100"; "MNIST"]
     ∧ (Args.dataset a = "CIFAR10" →
        num_classes self = 10 ∧ in_channels self = 3)
     ∧ (Args.dataset a = "CIFAR100" →
        num_classes self = 100 ∧ in_channels self = 3)
     ∧ (Args.dataset a = "MNIST" →
        num_classes self = 10 ∧ in_channels self = 1))
  ∧ (Args.dataset a ∉ ["CIFAR10"; "CIFAR100"; "MNIST"] →
     (∃ e, (__init__ env a).1 = Raise e)
     ∧ emits_only (λ e, is_build_dataset e = false) (__init__ env a)
     ∧ (∀ paths ev, init_paths env a = (Ok paths, ev) →
          __init__ env a
          = (Raise (Exception ("Dataset not supported: " +:+ Args.dataset a)),
             ev))).
Proof.
  do 3 (split; [reflexivity|]). split.
  - intros self evs H.
    destruct (init_stages _ _ _ H)
      as (? & builder & ? & ? & ? & ? & ? & ev2 & ? & ? & ? & ? & ? & ? & ?
          & ? & _ & E2 & _).
    apply select_dataset_inv in E2 as [(-> & -> & ->)|[(-> & -> & ->)|(-> & -> & ->)]];
      (split; [set_solver|]); repeat split; done.
  - intros Hd.
    assert (Hraise : ∀ paths ev, init_paths env a = (Ok paths, ev) →
              __init__ env a
              = (Raise (Exception ("Dataset not supported: "
                                   +:+ Args.dataset a)), ev)).
    { intros [odp cdp] ev E. unfold __init__.
      rewrite (bind_Ok _ _ _ _ E). cbv beta iota.
      rewrite (select_dataset_other _ Hd). cbn. by rewrite app_nil_r. }
    pose proof (init_paths_no_dataset a) as Hev.
    destruct (init_paths env a) as [[paths|e] ev] eqn:E.
    + rewrite (Hraise _ _ eq_refl). repeat split; eauto.
      by intros ?? [= <- <-].
    + unfold __init__. rewrite (bind_Raise _ _ _ _ E). repeat split; eauto.
      intros ?? [=].
Qed.

End InitFacts.

Section SplitFacts.
Import OsPath.

Lemma rfind_no_sep (f : list ascii) : has_sep f = false → rfind_sep_succ f = 0%nat.
Proof.
  induction f as [|c f IH]; [done|]. cbn.
  intros [Hc Hf]%orb_false_elim. by rewrite (IH Hf), Hc.
Qed.

Lemma rfind_app_sep (d f : list ascii) :
  has_sep f = false → rfind_sep_succ (d ++ sep :: f) = S (length d).
Proof.
  intros Hf. induction d as [|c d IH]; cbn.
  - by rewrite (rfind_no_sep _ Hf).
  - by rewrite IH.
Qed.

Lemma endswith_sep_app (x y : list ascii) :
  y ≠ [] → endswith_sep (x ++ y) = endswith_sep y.
Proof.
  intros Hy. induction x as [|c x IH]; [done|].
  cbn. destruct (x ++ y) eqn:E; [|done].
  by apply app_eq_nil in E as [_ ?].
Qed.

Lemma endswith_no_sep (c : list ascii) : has_sep c = false → endswith_sep c = false.
Proof.
  induction c as [|x c IH]; [done|]. cbn.
  intros [Hx Hc]%orb_false_elim. destruct c; [done|]. by apply IH.
Qed.

Lemma rstrip_app_sep (d : list ascii) : rstrip_sep (d ++ [sep]) = rstrip_sep d.
Proof. induction d as [|c d IH]; [done|]. cbn. by rewrite IH. Qed.

Lemma rstrip_id (d : list ascii) : endswith_sep d = false → rstrip_sep d = d.
Proof.
  induction d as [|c d IH]; [done|]. cbn. destruct d as [|c' d].
  - cbn. by intros ->.
  - intros H. rewrite (IH H). done.
Qed.

Lemma not_all_sep (d : list ascii) :
  d ≠ [] → endswith_sep d = false → forallb is_sep d = false.
Proof.
  induction d as [|c d IH]; [done|]. intros _. cbn. destruct d as [|c' d].
  - cbn. by intros ->.
  - intros H. rewrite (IH ltac:(done) H). apply andb_false_r.
Qed.

Lemma split_chars_plain (d f : list ascii) :
  d ≠ [] → endswith_sep d = false → has_sep f = false →
  split_chars (d ++ sep :: f) = (d, f).
Proof.
  intros Hd He Hf. unfold split_chars. rewrite (rfind_app_sep _ _ Hf).
  replace (d ++ sep :: f) with ((d ++ [sep]) ++ f) by by rewrite <- app_assoc.
  replace (S (length d)) with (length (d ++ [sep]))
    by (rewrite length_app; cbn; lia).
  rewrite take_app_length, drop_app_length.
  rewrite bool_decide_eq_false_2 by by destruct d.
  rewrite forallb_app, (not_all_sep _ Hd He). cbn.
  by rewrite rstrip_app_sep, rstrip_id.
Qed.

Lemma split_plain (d f : string) :
  d ≠ "" →
  endswith_sep (list_ascii_of_string d) = false →
  has_sep (list_ascii_of_string f) = false →
  split (d +:+ "/" +:+ f) = (d, f).
Proof.
  intros Hd He Hf. unfold split.
  rewrite list_ascii_of_string_app, append_cons, append_nil.
  change (list_ascii_of_string (String "/" f))
    with (sep :: list_ascii_of_string f).
  rewrite split_chars_plain; try done.
  - by rewrite !string_of_list_ascii_of_string.
  - by intros ?%list_ascii_of_string_nil.
Qed.

(** The head of the head of [d/c/f] is [d]: two levels up. *)
Lemma split_split_grandparent (d c f : string) :
  d ≠ "" →
  endswith_sep (list_ascii_of_string d) = false →
  c ≠ "" →
  has_sep (list_ascii_of_string c) = false →
  has_sep (list_ascii_of_string f) = false →
  (split (split (d +:+ "/" +:+ c +:+ "/" +:+ f)).1).1 = d.
Proof.
  intros Hd He Hc Hsc Hsf.
  replace (d +:+ "/" +:+ c +:+ "/" +:+ f)
    with ((d +:+ "/" +:+ c) +:+ "/" +:+ f) by (by rewrite !append_assoc).
  rewrite split_plain; try done.
  - cbn [fst]. by rewrite split_plain.
  - by destruct d.
  - rewrite list_ascii_of_string_app, append_cons, append_nil.
    change (list_ascii_of_string (String "/" c))
      with ([sep] ++ list_ascii_of_string c).
    rewrite app_assoc, endswith_sep_app.
    + by apply endswith_no_sep.
    + by intros ?%list_ascii_of_string_nil.
Qed.

End SplitFacts.

Section ResumeFacts.
Import Trainer.
Variable env : Env.

Lemma truthy_Some r : r ≠ "" → truthy (Some r) = true.
Proof. by destruct r. Qed.

Lemma init_paths_resume a r :
  Args.resume a = Some r → r ≠ "" →
  emits_only (λ e, is_mkdir e = false) (init_paths env a)
  ∧ ∀ odp cdp ev, init_paths env a = (Ok (odp, cdp), ev) →
      odp = (OsPath.split (OsPath.split r).1).1.
Proof.
  intros Hr Hne. unfold init_paths. rewrite Hr, (truthy_Some _ Hne). cbn.
  destruct (Args.dry_run a); cbn;
    destruct (logger_ok env _ _); cbn; split; try (by repeat constructor);
    by intros ??? [= <- _ _].
Qed.

Lemma init_paths_fresh a :
  truthy (Args.resume a) = false →
  ∀ odp cdp ev, init_paths env a = (Ok (odp, cdp), ev) →
    odp = OsPath.join (Args.experiments a)
            (Args.dataset a +:+ "_" +:+ Args.network a +:+ "_" +:+ now env).
Proof.
  intros Hr odp cdp ev. unfold init_paths. rewrite Hr. cbn.
  destruct (Args.dry_run a); cbn.
  - destruct (logger_ok env _ _); cbn; by intros [= <- _ _].
  - unfold mbind, M_bind, emit, raise, mret, M_ret.
    repeat match goal with
           | |- context [if ?b then _ else _] => destruct b
           end; cbn; by intros [= <- _ _].
Qed.

Lemma rest_no_mkdir a odp cdp :
  emits_only (λ e, is_mkdir e = false)
    ('(builder, num_classes, in_channels) ← select_dataset (Args.dataset a) ;
     model ← load_model env a (Args.dataset a) num_classes ;
     build_data a builder ;;
     '(device, gpus) ← setup_device env a ;
     '(model, package) ← resume_model env a model ;
     place_model gpus device ;;
     '(opt, starting_epoch, best_val_acc) ←
       resume_optimizer env a package (make_optimizer a) (PInt 1) (PInt 0) ;
     sc ← make_scheduler env a opt ;
     let opt := scheduled env sc opt in
     sc ← resume_scheduler a package sc ;
     mret (mk a odp cdp num_classes in_channels starting_epoch best_val_acc
              device model (make_criterion a) opt sc)).
Proof.
  unfold select_dataset, load_model, build_data, setup_device, resume_model,
    place_model, resume_optimizer, make_scheduler, resume_scheduler.
  emits.
Qed.

Lemma init_no_mkdir a r :
  Args.resume a = Some r → r ≠ "" →
  emits_only (λ e, is_mkdir e = false) (__init__ env a).
Proof.
  intros Hr Hne. unfold __init__. apply emits_only_bind.
  - by apply (init_paths_resume a r).
  - intros [odp cdp]. apply rest_no_mkdir.
Qed.

Lemma resume_model_inv a r m0 m pkg ev :
  Args.resume a = Some r → r ≠ "" →
  resume_model env a m0 = (Ok (m, pkg), ev) →
  ∃ package sd,
    pkg = Some package
    ∧ torch_load env r = Some package
    ∧ package !! "state_dict" = Some sd
    ∧ model_load_state_dict env m0 sd (Args.strict a) = Ok m
    ∧ ev = [Stdout "Loading model checkpoint at: {}"; TorchLoad r;
            ModelLoadStateDict sd (Args.strict a)].
Proof.
  intros Hr Hne. unfold resume_model. rewrite Hr.
  destruct r as [|c r]; [done|].
  destruct (torch_load env (String c r)) as [package|]; [|done].
  destruct (package !! "state_dict") as [sd|] eqn:Hsd; cbn; [|done].
  destruct (model_load_state_dict env m0 sd (Args.strict a)) as [m'|] eqn:El;
    cbn; [|done].
  intros [= <- <- <-]. by exists package, sd.
Qed.

Lemma resume_model_fresh a m0 m pkg ev :
  truthy (Args.resume a) = false →
  resume_model env a m0 = (Ok (m, pkg), ev) →
  m = m0 ∧ pkg = None ∧ ev = [].
Proof.
  unfold resume_model. destruct (Args.resume a) as [[|c r]|]; try done;
    by intros _ [= <- <- <-].
Qed.

Lemma resume_optimizer_inv a r package opt se bva ev :
  Args.resume a = Some r → r ≠ "" → Args.evaluate a = false →
  resume_optimizer env a (Some package) (make_optimizer a) (PInt 1) (PInt 0)
  = (Ok (opt, se, bva), ev) →
  se = default (PInt 1) (package !! "epoch")
  ∧ bva = default (PInt 0) (package !! "best_val_acc")
  ∧ optimizer_restored env a package opt ev.
Proof.
  intros Hr Hne He. unfold resume_optimizer, optimizer_restored.
  rewrite Hr, (truthy_Some _ Hne), He. cbn.
  destruct (package !! "optim_dict") as [od|]; cbn.
  - destruct (make_optimizer a) as [o|]; cbn; [|done].
    destruct (optimizer_load_state_dict env (ostate o) od) as [st|] eqn:El;
      cbn; [|done].
    intros [= <- <- <- <-].
    repeat split; try (by destruct (package !! _)).
    exists o, st. repeat split; try done. set_solver.
  - intros [= <- <- <- <-].
    repeat split; by destruct (package !! _).
Qed.

Lemma resume_optimizer_skip a package opt0 se0 bva0 opt se bva ev :
  truthy (Args.resume a) && negb (Args.evaluate a) = false →
  resume_optimizer env a package opt0 se0 bva0 = (Ok (opt, se, bva), ev) →
  opt = opt0 ∧ se = se0 ∧ bva = bva0 ∧ ev = [].
Proof.
  intros Hc. unfold resume_optimizer. rewrite Hc. by intros [= <- <- <- <-].
Qed.

Lemma scheduled_is_Some sc opt :
  is_Some (scheduled env sc opt) ↔ is_Some opt.
Proof.
  destruct sc, opt; cbn; split; intros [? ?]; (done || by eexists).
Qed.

Lemma scheduled_None sc : scheduled env sc None = None.
Proof. by destruct sc. Qed.

(** Resuming the scheduler only sets its last_epoch: the optimizer it was
    constructed around is the same. *)
Lemma scheduled_resume a package sc0 sc ev opt :
  resume_scheduler a package sc0 = (Ok sc, ev) →
  scheduled env sc0 opt = scheduled env sc opt.
Proof.
  unfold resume_scheduler. destruct sc0 as [s0|]; [|by intros [= <- _]].
  destruct (truthy (Args.resume a) && negb (Args.evaluate a));
    [|by intros [= <- _]].
  destruct package as [p|]; [|done]. cbn.
  destruct (p !! "epoch") as [[]|]; try done; by intros [= <- _].
Qed.

End ResumeFacts.

Section ResumeAndRun.
Import Trainer.
Variable env : Env.

(** C7: with a non-empty args.resume, [__init__] never creates a directory;
    when it succeeds, output_dir_path is the head of the head of the resume
    path (two levels up: [d] for a path [d/c/f]), the checkpoint's
    'state_dict' has been loaded into the model that [model_with_cfg] gave
    and, when args.evaluate is false, starting_epoch and best_val_acc are
    the checkpoint's 'epoch' and 'best_val_acc' where present (else 1 and
    0) and the optimizer has loaded 'optim_dict' where present, which gives
    it the saved state and the saved learning rate in place of args.lr
    (else it is the fresh optimizer); when args.evaluate is true none of
    the three is restored.  The optimizer of the object is that one once
    the scheduler, if any, is constructed around it: the same without a
    scheduler ('FIXED'), and with the learning rate the new [MultiStepLR]
    gives it otherwise. *)
Theorem C7_resume (a : Args.t) (r : string) :
  Args.resume a = Some r → r ≠ "" →
  emits_only (λ e, is_mkdir e = false) (__init__ env a)
  ∧ (∀ self evs, __init__ env a = (Ok self, evs) →
       output_dir_path self = (OsPath.split (OsPath.split r).1).1
       ∧ ∃ package sd m0,
           model_with_cfg env (Args.network a) (Args.pretrained a)
           = CfgLoaded m0 (Args.dataset a) (num_classes self)
           ∧ torch_load env r = Some package
           ∧ package !! "state_dict" = Some sd
           ∧ model_load_state_dict env m0 sd (Args.strict a)
             = Ok (model self)
           ∧ ModelLoadStateDict sd (Args.strict a) ∈ evs
           ∧ (Args.evaluate a = false →
                starting_epoch self = default (PInt 1) (package !! "epoch")
                ∧ best_val_acc self
                  = default (PInt 0) (package !! "best_val_acc")
                ∧ ∃ opt0,
                    optimizer_restored env a package opt0 evs
                    ∧ optimizer_ self = scheduled env (scheduler_ self) opt0
                    ∧ ostate <$> optimizer_ self = ostate <$> opt0
                    ∧ (scheduler_ self = None → optimizer_ self = opt0))
           ∧ (Args.evaluate a = true →
                starting_epoch self = PInt 1
                ∧ best_val_acc self = PInt 0
                ∧ optimizer_ self
                  = scheduled env (scheduler_ self) (make_optimizer a)))
  ∧ (∀ d c f : string,
       d ≠ "" →
       OsPath.endswith_sep (list_ascii_of_string d) = false →
       c ≠ "" →
       OsPath.has_sep (list_ascii_of_string c) = false →
       OsPath.has_sep (list_ascii_of_string f) = false →
       r = d +:+ "/" +:+ c +:+ "/" +:+ f →
       (OsPath.split (OsPath.split r).1).1 = d).
Proof.
  intros Hr Hne. split; [by apply (init_no_mkdir env a r)|]. split.
  - intros self evs H.
    destruct (init_stages _ _ _ _ H)
      as (opt0 & builder & model0 & gpus & pkg & sc0 & ev1 & ev2 & ev3 & ev4
          & ev5 & ev6 & ev7 & ev8 & ev9 & ev10 & E1 & _ & E3 & _ & _ & E6 & _ & E8
          & _ & E10 & _ & -> & Hsch).
    rewrite (scheduled_resume env _ _ _ _ _ opt0 E10) in Hsch.
    split.
    { by eapply (proj2 (init_paths_resume env a r Hr Hne)). }
    destruct (resume_model_inv _ _ _ _ _ _ _ Hr Hne E6)
      as (package & sd & -> & Hload & Hsd & Hm & ->).
    apply load_model_Ok in E3 as [Hcfg _].
    exists package, sd, model0.
    do 4 (split; [done|]).
    split; [set_solver|].
    split.
    + intros He.
      destruct (resume_optimizer_inv _ _ _ _ _ _ _ _ Hr Hne He E8)
        as (-> & -> & Hopt).
      do 2 (split; [done|]).
      exists opt0. split.
      { unfold optimizer_restored in *.
        destruct (package !! "optim_dict") as [od|]; [|done].
        destruct Hopt as (o & st & ? & ? & ? & Hin).
        exists o, st. repeat split; try done. set_solver. }
      split; [done|]. rewrite Hsch.
      split; [by destruct (scheduler_ self), opt0|].
      by intros ->.
    + intros He.
      apply resume_optimizer_skip in E8 as (-> & -> & -> & _); [done|].
      rewrite He. apply andb_false_r.
  - intros d c f ????? ->. by apply split_split_grandparent.
Qed.

Lemma init_paths_checkpoints a odp cdp ev :
  init_paths env a = (Ok (odp, cdp), ev) →
  Args.dry_run a = false → cdp = Some (OsPath.join odp "checkpoints").
Proof.
  unfold init_paths. intros H Hdry. rewrite Hdry in H. cbn -[OsPath.join] in H.
  apply bind_inv_Ok in H as (c & ev1 & ev2 & H1 & H2 & _).
  apply bind_inv_Ok in H2 as ([] & ev3 & ev4 & _ & H2 & _).
  injection H2 as <- <- _.
  apply bind_inv_Ok in H1 as ([] & ev5 & ev6 & _ & H1 & _).
  by injection H1 as <- _.
Qed.

(** The batches fit for an object that [__init__] builds from [a] as soon
    as their sizes fit the criterion that args.loss names. *)
Lemma init_batches_fit a self evs :
  __init__ env a = (Ok self, evs) →
  Forall (Batch.fits (is_hinge (make_criterion a)))
    (Batch.logged_sizes (Args.log_freq a) (length (train_sizes env)) 0
       (train_sizes env)) →
  Forall (Batch.fits (is_hinge (make_criterion a))) (test_sizes env) →
  batches_fit env self.
Proof.
  intros H Htrain Htest. pose proof (init_criterion _ _ _ _ H) as Ec.
  destruct (init_stages _ _ _ _ H)
    as (opt0 & builder & model0 & gpus & pkg & sc0 & ev1 & ev2 & ev3 & ev4
        & ev5 & ev6 & ev7 & ev8 & ev9 & ev10 & _ & E2 & _ & _ & _ & _ & _ & _
        & _ & _ & Ea & _).
  unfold batches_fit. rewrite Ec, Ea. split; [|done].
  apply select_dataset_inv in E2
    as [(_ & -> & _)|[(_ & -> & _)|(_ & -> & _)]]; lia.
Qed.

(** A fresh, successful [__init__] with a known optimizer, a log frequency
    that is not zero and batches that fit builds a trainable object. *)
Lemma fresh_init_trainable a self evs :
  __init__ env a = (Ok self, evs) →
  truthy (Args.resume a) = false →
  Args.optim a ∈ ["ADAM"; "SGD"] →
  Args.log_freq a ≠ 0 →
  batches_fit env self →
  trainable env self ∧ starting_epoch self = PInt 1.
Proof.
  intros H Hr Hopt Hlog Hfit.
  destruct (init_stages _ _ _ _ H)
    as (opt0 & builder & model0 & gpus & pkg & sc0 & ev1 & ev2 & ev3 & ev4
        & ev5 & ev6 & ev7 & ev8 & ev9 & ev10 & E1 & _ & _ & _ & _ & _ & _ & E8
        & _ & _ & Ea & _ & Hsch).
  apply resume_optimizer_skip in E8 as (Eo & Es & Eb & _);
    [|by rewrite Hr].
  split; [|done]. unfold trainable. rewrite Hsch, Eo, Eb, Ea.
  split.
  { apply scheduled_is_Some. unfold make_optimizer. repeat case_decide; try by eexists.
    exfalso. apply elem_of_cons in Hopt as [?|Hopt]; [done|].
    apply elem_of_cons in Hopt as [?|Hopt]; [done|].
    by apply elem_of_nil in Hopt. }
  split; [by eexists|]. split; [done|]. split; [|done].
  intros Hdry. rewrite (init_paths_checkpoints _ _ _ _ E1 Hdry). by eexists.
Qed.

(** C10: a fresh [__init__] leaves starting_epoch at 1; on a trainable
    object (it has what the loop reads and its batches fit the calls of
    [accuracy]) [train_model] trains exactly the epochs of
    range(starting_epoch, args.epochs), so a run that starts at 1 trains
    args.epochs - 1 epochs (for args.epochs >= 1); and on any object, when
    args.epochs <= starting_epoch no epoch runs at all, nothing is written,
    and yet the path of 'best.tar' is returned unless args.dry_run is set
    ([None] then). *)
Theorem C10_epochs_of_a_run :
  (∀ a self evs,
     __init__ env a = (Ok self, evs) → truthy (Args.resume a) = false →
     starting_epoch self = PInt 1)
  ∧ (∀ self start,
       trainable env self → starting_epoch self = PInt start →
       ∃ self' ret evs,
         train_model env self = (Ok (self', ret), evs)
         ∧ trained evs = py_range start (Args.epochs (args self))
         ∧ length (trained evs) = Z.to_nat (Args.epochs (args self) - start)
         ∧ (start = 1 → 1 ≤ Args.epochs (args self) →
            Z.of_nat (length (trained evs)) = Args.epochs (args self) - 1)
         ∧ (Args.epochs (args self) ≤ start →
            trained evs = [] ∧ saves evs = [] ∧ self' = self
            ∧ evs = if Args.detect_nan (args self)
                    then [SetDetectAnomaly] else [])
         ∧ (Args.dry_run (args self) = false →
            ∃ dir, checkpoints_dir_path self = Some dir
                   ∧ ret = Some (OsPath.join dir "best.tar"))
         ∧ (Args.dry_run (args self) = true → ret = None))
  ∧ (∀ self start,
       starting_epoch self = PInt start →
       Args.epochs (args self) ≤ start →
       (Args.dry_run (args self) = false →
        is_Some (checkpoints_dir_path self)) →
       train_model env self
       = (Ok (self,
              if Args.dry_run (args self) then None
              else (λ dir, OsPath.join dir "best.tar")
                     <$> checkpoints_dir_path self),
          if Args.detect_nan (args self) then [SetDetectAnomaly] else [])).
Proof.
  split; [|split].
  - intros a self evs H Hr.
    destruct (init_stages _ _ _ _ H)
      as (opt0 & builder & model0 & gpus & pkg & sc0 & ev1 & ev2 & ev3 & ev4
          & ev5 & ev6 & ev7 & ev8 & ev9 & ev10 & _ & _ & _ & _ & _ & _ & _ & E8
          & _).
    apply resume_optimizer_skip in E8 as (_ & -> & _); [done|].
    by rewrite Hr.
  - intros self start Ht Hs.
    destruct (for_epochs_run env (py_range start (Args.epochs (args self)))
                self Ht)
      as (self' & evs & E & Ht' & Ea & Ec & _ & Htr & Hlen).
    pose proof Ht as (_ & _ & _ & Hd & _).
    assert (Hrun := train_model_run env self start self' evs Hs E Ea
                      ltac:(by rewrite Ec)).
    assert (Htr' : trained ((if Args.detect_nan (args self)
                             then [SetDetectAnomaly] else []) ++ evs)
                   = py_range start (Args.epochs (args self))).
    { rewrite trained_app, Htr. by destruct (Args.detect_nan (args self)). }
    eexists self', _, _. split; [exact Hrun|].
    split; [exact Htr'|].
    split; [rewrite Htr'; apply length_seqZ|].
    split; [intros -> ?; rewrite Htr'; unfold py_range;
            rewrite length_seqZ; lia|].
    split.
    + intros Hle.
      assert (Hnil : py_range start (Args.epochs (args self)) = []).
      { unfold py_range. apply seqZ_nil. lia. }
      rewrite Hnil in E. cbn in E. injection E as <- <-.
      rewrite app_nil_r in *. repeat split; try done.
      * by rewrite Htr', Hnil.
      * by destruct (Args.detect_nan (args self)).
    + rewrite Ec. split.
      * intros Hdry. destruct (Hd Hdry) as [dir Hdir].
        exists dir. by rewrite Hdry, Hdir.
      * by intros ->.
  - intros self start Hs Hle Hd.
    assert (E : for_epochs env (py_range start (Args.epochs (args self))) self
                = (Ok self, [])).
    { unfold py_range. by rewrite seqZ_nil by lia. }
    rewrite (train_model_run env self start self [] Hs E eq_refl Hd).
    by rewrite app_nil_r.
Qed.

End ResumeAndRun.

Section AccuracyFacts.
Import Accuracy.

(** *** The sort is a permutation of the class indices *)

Lemma insert_desc_perm x l : insert_desc x l ≡ₚ x :: l.
Proof.
  induction l as [|y l IH]; cbn; [done|].
  destruct (Qle_bool y.2 x.2); [done|]. rewrite IH. apply Permutation_swap.
Qed.

Lemma sort_desc_perm l : sort_desc l ≡ₚ l.
Proof.
  induction l as [|x l IH]; cbn; [done|].
  rewrite insert_desc_perm. by f_equiv.
Qed.

Lemma argsort_desc_perm (row : list Q) : argsort_desc row ≡ₚ seq 0 (length row).
Proof.
  unfold argsort_desc. rewrite sort_desc_perm.
  rewrite fst_zip; [done|]. rewrite length_seq. lia.
Qed.

Lemma argsort_desc_NoDup (row : list Q) : NoDup (argsort_desc row).
Proof. rewrite argsort_desc_perm. apply NoDup_seq. Qed.

Lemma argsort_desc_length (row : list Q) :
  length (argsort_desc row) = length row.
Proof. rewrite argsort_desc_perm. apply length_seq. Qed.

(** *** [max(topk)] *)

Lemma foldl_max_ge (ks : list Z) : ∀ k,
  k ≤ foldl Z.max k ks ∧ Forall (λ x, x ≤ foldl Z.max k ks) ks.
Proof.
  induction ks as [|x ks IH]; intros k; cbn.
  - split; [lia|constructor].
  - destruct (IH (Z.max k x)) as [H1 H2]. split; [lia|].
    constructor; [lia|done].
Qed.

Lemma foldl_max_in (ks : list Z) : ∀ k, foldl Z.max k ks ∈ k :: ks.
Proof.
  induction ks as [|x ks IH]; intros k; cbn.
  - set_solver.
  - specialize (IH (Z.max k x)).
    apply elem_of_cons in IH as [->|IH]; [|set_solver].
    destruct (Z.max_spec k x) as [[_ ->]|[_ ->]]; set_solver.
Qed.

(** *** Sums of counts *)

Lemma length_filter_true (l : list bool) :
  length (filter (λ b, b = true) l) = sum_list_with b2n l.
Proof.
  induction l as [|[] l IH]; [done| |].
  - rewrite filter_cons_True by done. cbn. by rewrite IH.
  - rewrite filter_cons_False by done. by cbn.
Qed.

Lemma sum_list_with_concat {A} (f : A → nat) (ls : list (list A)) :
  sum_list_with f (concat ls) = sum_list_with (sum_list_with f) ls.
Proof.
  induction ls as [|l ls IH]; [done|].
  cbn. by rewrite sum_list_with_app, IH.
Qed.

Lemma sum_list_with_fmap' {A B} (f : B → nat) (g : A → B) (l : list A) :
  sum_list_with f (g <$> l) = sum_list_with (λ x, f (g x)) l.
Proof. induction l as [|x l IH]; [done|]. cbn. by rewrite IH. Qed.

Lemma sum_list_with_ext' {A} (f g : A → nat) (l : list A) :
  (∀ x, x ∈ l → f x = g x) → sum_list_with f l = sum_list_with g l.
Proof.
  induction l as [|x l IH]; [done|]. intros H. cbn.
  rewrite (H x) by set_solver. rewrite IH; [done|]. intros. apply H. set_solver.
Qed.

Lemma sum_list_with_plus {A} (f g : A → nat) (l : list A) :
  sum_list_with (λ x, f x + g x)%nat l
  = (sum_list_with f l + sum_list_with g l)%nat.
Proof. induction l as [|x l IH]; [done|]. cbn. rewrite IH. lia. Qed.

(** Counting by rows or by columns gives the same total. *)
Lemma sum_list_with_exchange {A B} (g : A → B → nat) (js : list A)
    (ps : list B) :
  sum_list_with (λ j, sum_list_with (g j) ps) js
  = sum_list_with (λ p, sum_list_with (λ j, g j p) js) ps.
Proof.
  induction ps as [|p ps IH]; cbn.
  - induction js as [|j js IHj]; [done|]. cbn. by rewrite IHj.
  - by rewrite sum_list_with_plus, IH.
Qed.

End AccuracyFacts.

Section AccuracyMain.
Import Accuracy.
Context {sel : TopK}.

Lemma py_max_inv (topk : list Z) (maxk : Z) :
  py_max topk = Ok maxk →
  topk ≠ [] ∧ maxk ∈ topk ∧ Forall (λ k, k ≤ maxk) topk.
Proof.
  destruct topk as [|k0 ks]; [done|]. cbn. intros [= <-].
  split; [done|]. split; [apply foldl_max_in|].
  destruct (foldl_max_ge ks k0). by constructor.
Qed.

Lemma correct_length (m : nat) (pred : list (list nat)) (target : list Z) :
  length (eq_expand (transpose m pred) target) = m.
Proof. unfold eq_expand, transpose. by rewrite !length_fmap, length_seq. Qed.

Lemma count_true_sum (c : list (list bool)) :
  count_true c = Z.of_nat (sum_list_with (sum_list_with b2n) c).
Proof.
  unfold count_true. by rewrite length_filter_true, sum_list_with_concat.
Qed.

(** One row of [correct]: the samples whose [j]-th prediction is right. *)
Lemma row_count (j : nat) (pred : list (list nat)) : ∀ target : list Z,
  sum_list_with b2n
    (zip_with (λ p t, bool_decide (Z.of_nat p = t))
              ((λ r, nth j r O) <$> pred) target)
  = sum_list_with (λ pt, b2n (hit (nth j pt.1 O) pt.2)) (zip pred target).
Proof.
  induction pred as [|p pred IH]; intros [|t target]; cbn; try done.
  by rewrite IH.
Qed.

Lemma take_as_nth (p : list nat) : ∀ k : nat,
  (k ≤ length p)%nat → take k p = (λ j, nth j p O) <$> seq 0 k.
Proof.
  induction p as [|x p IH]; intros [|k] Hk; cbn in *; try done; [lia|].
  rewrite IH by lia. f_equal. by rewrite <- fmap_S_seq, <- list_fmap_compose.
Qed.

(** One sample: its hits among the first [k] predictions. *)
Lemma column_count (k : nat) (p : list nat) (t : Z) :
  (k ≤ length p)%nat →
  sum_list_with (λ j, b2n (hit (nth j p O) t)) (seq 0 k)
  = sum_list_with (λ x, b2n (hit x t)) (take k p).
Proof.
  intros Hk. by rewrite (take_as_nth p k Hk), sum_list_with_fmap'.
Qed.

(** Without repetition a label is hit at most once. *)
Lemma hits_NoDup (l : list nat) (t : Z) :
  NoDup l →
  sum_list_with (λ x, b2n (hit x t)) l
  = b2n (bool_decide (Exists (λ j, Z.of_nat j = t) l)).
Proof.
  induction 1 as [|x l Hx Hl IH].
  - rewrite bool_decide_eq_false_2; [done|]. by intros ?%Exists_nil.
  - change (sum_list_with (λ x, b2n (hit x t)) (x :: l))
      with (b2n (hit x t) + sum_list_with (λ x, b2n (hit x t)) l)%nat.
    rewrite IH. unfold hit. destruct (decide (Z.of_nat x = t)) as [Heq|Hne].
    + rewrite (bool_decide_eq_true_2 (Z.of_nat x = t)) by done.
      rewrite (bool_decide_eq_true_2 (Exists _ (x :: l)))
        by (by apply Exists_cons_hd).
      rewrite bool_decide_eq_false_2; [done|].
      intros (y & Hy & Hyt)%Exists_exists.
      apply Hx. assert (y = x) as <- by lia. by apply list_elem_of_In.
    + rewrite (bool_decide_eq_false_2 (Z.of_nat x = t)) by done. cbn.
      f_equal. apply bool_decide_ext. rewrite Exists_cons. tauto.
Qed.

Lemma hits_sum (maxk k : nat) (output : list (list Q)) (target : list Z) :
  hits maxk k output target
  = sum_list_with (λ rt, b2n (in_top maxk k rt.1 rt.2)) (zip output target).
Proof.
  unfold hits. induction (zip output target) as [|rt l IH]; [done|].
  destruct (in_top maxk k rt.1 rt.2) eqn:E.
  - rewrite filter_cons_True by done. cbn. by rewrite IH, E.
  - rewrite filter_cons_False by (by rewrite E). cbn. by rewrite IH, E.
Qed.

Lemma zip_fmap_l {A B C} (f : A → B) (l : list A) : ∀ k : list C,
  zip (f <$> l) k = (λ x, (f x.1, x.2)) <$> zip l k.
Proof. induction l as [|x l IH]; intros [|y k]; cbn; by rewrite ?IH. Qed.

Lemma zip_elem_l {A B} (l : list A) : ∀ (k : list B) x,
  x ∈ zip l k → x.1 ∈ l.
Proof.
  induction l as [|a l IH]; intros [|b k] x; cbn; try by intros ?%elem_of_nil.
  intros [->|H']%elem_of_cons; [set_solver|].
  apply elem_of_cons. right. by eapply IH.
Qed.

(** The heart of the matter: the [True] entries in the first [k] rows of
    [correct] are the samples whose label is among the first [k] of the
    classes [topk] returned for them. *)
Lemma count_correct (output : list (list Q)) (target : list Z)
    (maxk k C : nat) :
  topk_law →
  Forall (λ row, length row = C) output →
  (k ≤ maxk)%nat → (maxk ≤ C)%nat →
  count_true
    (take k (eq_expand (transpose maxk (topk_select maxk <$> output)) target))
  = Z.of_nat (hits maxk k output target).
Proof.
  intros Hlaw Hrows Hk Hmax. rewrite count_true_sum, hits_sum. f_equal.
  unfold eq_expand, transpose.
  rewrite <- !fmap_take, take_seq, Nat.min_l by done.
  rewrite !sum_list_with_fmap'.
  rewrite (sum_list_with_ext' _ _ _ (λ j _, row_count j _ target)).
  rewrite sum_list_with_exchange, zip_fmap_l, sum_list_with_fmap'.
  apply sum_list_with_ext'. intros [row t] Hin. cbn [fst snd].
  apply zip_elem_l in Hin. cbn [fst snd] in Hin.
  assert (Hlen : length row = C).
  { rewrite Forall_forall in Hrows. by apply Hrows. }
  destruct (Hlaw maxk row ltac:(lia)) as (Hl & Hnd & _).
  rewrite column_count by lia.
  unfold in_top. apply hits_NoDup.
  eapply sublist_NoDup; [exact Hnd|apply sublist_take].
Qed.

End AccuracyMain.

Section TopK.
Import Accuracy.

Lemma insert_desc_sorted x l :
  StronglySorted by_score l → StronglySorted by_score (insert_desc x l).
Proof.
  induction l as [|y l IH]; intros Hs; cbn.
  - repeat constructor.
  - apply StronglySorted_cons in Hs as [Hy Hs].
    destruct (Qle_bool y.2 x.2) eqn:E.
    + apply Qle_bool_iff in E.
      apply StronglySorted_cons. split; [|by apply StronglySorted_cons].
      constructor; [done|]. eapply Forall_impl; [exact Hy|].
      intros z Hz. unfold by_score in *. by eapply Qle_trans.
    + apply StronglySorted_cons. split; [|by apply IH].
      rewrite insert_desc_perm. constructor; [|done].
      unfold by_score. apply Qlt_le_weak, Qnot_le_lt.
      intros H. apply Qle_bool_iff in H. congruence.
Qed.

Lemma sort_desc_sorted l : StronglySorted by_score (sort_desc l).
Proof.
  induction l as [|x l IH]; cbn; [constructor|]. by apply insert_desc_sorted.
Qed.

Lemma elem_of_indexed (row : list Q) (i : nat) (q : Q) :
  (i, q) ∈ zip (seq 0 (length row)) row ↔ row !! i = Some q.
Proof.
  rewrite list_elem_of_lookup. split.
  - intros (m & Hm). apply lookup_zip_Some in Hm as [Hs Hr].
    apply lookup_seq in Hs as [-> _]. done.
  - intros Hr. exists i. apply lookup_zip_Some. split; [|done].
    apply lookup_seq. split; [done|]. by eapply lookup_lt_Some.
Qed.

(** The first [k] classes of the ranking are [k] different classes of the
    row (all of them when the row is shorter), and none of the classes left
    out has a larger score than one of them. *)
Lemma top_k_spec (row : list Q) (k : nat) :
  NoDup (take k (argsort_desc row))
  ∧ length (take k (argsort_desc row)) = (k `min` length row)%nat
  ∧ (∀ i, i ∈ take k (argsort_desc row) → is_Some (row !! i))
  ∧ (∀ i j qi qj,
       i ∈ take k (argsort_desc row) → j ∉ take k (argsort_desc row) →
       row !! i = Some qi → row !! j = Some qj → (qj <= qi)%Q).
Proof.
  split; [|split; [|split]].
  - eapply sublist_NoDup; [apply argsort_desc_NoDup|apply sublist_take].
  - by rewrite length_take, argsort_desc_length.
  - intros i Hi. apply lookup_lt_is_Some.
    assert (Hin : i ∈ argsort_desc row).
    { apply elem_of_take in Hi as (m & Hm & _).
      by eapply list_elem_of_lookup_2. }
    rewrite argsort_desc_perm in Hin. apply elem_of_seq in Hin. lia.
  - intros i j qi qj Hi Hj Hqi Hqj.
    unfold argsort_desc in *. rewrite <- fmap_take in Hi, Hj.
    set (sp := sort_desc (zip (seq 0 (length row)) row)) in *.
    pose proof (sort_desc_sorted (zip (seq 0 (length row)) row)) as Hs.
    fold sp in Hs. rewrite <- (take_drop k sp) in Hs.
    apply list_elem_of_fmap in Hi as ([i' q] & -> & Hi). cbn in *.
    assert (q = qi) as ->.
    { assert (Hin : (i', q) ∈ sp).
      { rewrite <- (take_drop k sp). apply elem_of_app. by left. }
      unfold sp in Hin. rewrite sort_desc_perm in Hin.
      apply elem_of_indexed in Hin. congruence. }
    assert (Hjin : (j, qj) ∈ drop k sp).
    { assert (Hin : (j, qj) ∈ sp).
      { unfold sp. rewrite sort_desc_perm. by apply elem_of_indexed. }
      rewrite <- (take_drop k sp) in Hin.
      apply elem_of_app in Hin as [Hin|Hin]; [|done].
      exfalso. apply Hj. apply list_elem_of_fmap. by exists (j, qj). }
    exact (StronglySorted_app_1_elem_of _ _ _ _ _ Hs Hi Hjin).
Qed.

Lemma StronglySorted_lookup_lt {A} (R : relation A) (l : list A) :
  StronglySorted R l →
  ∀ (a b : nat) (x y : A),
    (a < b)%nat → l !! a = Some x → l !! b = Some y → R x y.
Proof.
  induction 1 as [|z l Hs IH Hz]; intros a b x y Hab Ha Hb; [done|].
  destruct b as [|b]; [lia|]. destruct a as [|a].
  - injection Ha as ->. cbn in Hb. rewrite Forall_forall in Hz.
    apply Hz. by eapply list_elem_of_lookup_2.
  - cbn in Ha, Hb. eapply (IH a b); [lia|done..].
Qed.

(** The ranking goes by decreasing score. *)
Lemma argsort_desc_sorted (row : list Q) (a b i j : nat) (qi qj : Q) :
  (a < b)%nat →
  argsort_desc row !! a = Some i → argsort_desc row !! b = Some j →
  row !! i = Some qi → row !! j = Some qj → (qj <= qi)%Q.
Proof.
  intros Hab Ha Hb Hi Hj. unfold argsort_desc in *.
  set (sp := sort_desc (zip (seq 0 (length row)) row)) in *.
  rewrite list_lookup_fmap in Ha, Hb.
  destruct (sp !! a) as [[i' qi']|] eqn:Ea; [|done].
  destruct (sp !! b) as [[j' qj']|] eqn:Eb; [|done].
  cbn in Ha, Hb. injection Ha as ->. injection Hb as ->.
  assert (Hq : ∀ c (x : nat * Q), sp !! c = Some x → row !! x.1 = Some x.2).
  { intros c [x q] Hc. apply list_elem_of_lookup_2 in Hc.
    unfold sp in Hc. rewrite sort_desc_perm in Hc.
    by apply elem_of_indexed in Hc. }
  pose proof (Hq _ _ Ea) as Hqi. pose proof (Hq _ _ Eb) as Hqj.
  cbn in Hqi, Hqj. rewrite Hi in Hqi. rewrite Hj in Hqj.
  injection Hqi as ->. injection Hqj as ->.
  exact (StronglySorted_lookup_lt by_score sp (sort_desc_sorted _)
           a b _ _ Hab Ea Eb).
Qed.

(** A prefix of a selection is a selection. *)
Lemma is_topk_take (m k : nat) (row : list Q) (l : list nat) :
  is_topk m row l → (k ≤ m)%nat → is_topk k row (take k l).
Proof.
  intros (Hl & Hnd & Hsome & Hsort & Hdom) Hk.
  split; [rewrite length_take; lia|].
  split; [eapply sublist_NoDup; [exact Hnd|apply sublist_take]|].
  assert (Hsub : ∀ i, i ∈ take k l → i ∈ l).
  { intros i (c & Hc & _)%elem_of_take. by eapply list_elem_of_lookup_2. }
  split; [intros i Hi; by apply Hsome, Hsub|]. split.
  - intros a b i j qi qj Hab [Ha _]%lookup_take_Some [Hb _]%lookup_take_Some.
    by apply (Hsort a b).
  - intros i j qi qj Hi Hj Hqi Hqj.
    destruct (decide (j ∈ l)) as [Hjl|Hjl]; [|by eapply Hdom; eauto].
    apply elem_of_take in Hi as (a & Ha & Hak).
    apply list_elem_of_lookup in Hjl as [b Hb].
    assert (k ≤ b)%nat.
    { destruct (decide (k ≤ b)%nat); [done|]. exfalso. apply Hj.
      apply elem_of_take. exists b. split; [done|lia]. }
    apply (Hsort a b i j); (done || lia).
Qed.

(** The two implementations are implementations. *)
Lemma lowest_first_law : @topk_law lowest_first.
Proof.
  intros k row Hk. unfold topk_select, lowest_first.
  destruct (top_k_spec row k) as (Hnd & Hlen & Hsome & Hdom).
  split; [rewrite Hlen; lia|]. split; [done|]. split; [done|].
  split; [|done].
  intros a b i j qi qj Hab [Ha _]%lookup_take_Some [Hb _]%lookup_take_Some.
  by apply (argsort_desc_sorted row a b).
Qed.

Lemma reverse_lookup_flip (row : list Q) (i : nat) :
  (i < length row)%nat → row !! (length row - S i)%nat = reverse row !! i.
Proof. intros Hi. by rewrite reverse_lookup. Qed.

Lemma highest_first_law : @topk_law highest_first.
Proof.
  intros k row Hk. unfold topk_select, highest_first.
  rewrite <- fmap_take.
  assert (Hkr : (k ≤ length (reverse row))%nat) by by rewrite length_reverse.
  destruct (lowest_first_law k (reverse row) Hkr)
    as (Hl & Hnd & Hsome & Hsort & Hdom).
  unfold topk_select, lowest_first in *.
  set (l := take k (argsort_desc (reverse row))) in *.
  set (flip := λ i : nat, (length row - S i)%nat).
  assert (Hlt : ∀ i, i ∈ l → (i < length row)%nat).
  { intros i Hi. destruct (Hsome i Hi) as [q Hq].
    apply lookup_lt_Some in Hq. by rewrite length_reverse in Hq. }
  assert (Hrow : ∀ i, (i < length row)%nat →
                      row !! flip i = reverse row !! i).
  { intros i Hi. by apply reverse_lookup_flip. }
  split; [by rewrite length_fmap|]. split.
  { apply NoDup_fmap_2_strong; [|done].
    intros x y Hx Hy. apply Hlt in Hx, Hy. unfold flip. lia. }
  split.
  { intros i (i' & -> & Hi')%list_elem_of_fmap.
    rewrite (Hrow _ (Hlt _ Hi')). by apply Hsome. }
  split.
  - intros a b i j qi qj Hab Ha Hb Hi Hj.
    rewrite list_lookup_fmap in Ha, Hb.
    destruct (l !! a) as [i'|] eqn:Ea; [|done].
    destruct (l !! b) as [j'|] eqn:Eb; [|done].
    cbn in Ha, Hb. injection Ha as <-. injection Hb as <-.
    rewrite Hrow in Hi by by eapply Hlt, list_elem_of_lookup_2.
    rewrite Hrow in Hj by by eapply Hlt, list_elem_of_lookup_2.
    by apply (Hsort a b i' j').
  - intros i j qi qj (i' & -> & Hi')%list_elem_of_fmap Hj Hi Hqj.
    rewrite (Hrow _ (Hlt _ Hi')) in Hi.
    pose proof (lookup_lt_Some _ _ _ Hqj) as Hjlt.
    assert (Hjj : flip (flip j) = j) by (unfold flip; lia).
    assert (Hfl : (flip j < length row)%nat) by (unfold flip; lia).
    apply (Hdom i' (flip j)); [done| |done|].
    + intros Hin. apply Hj. apply list_elem_of_fmap. exists (flip j).
      by rewrite Hjj.
    + by rewrite <- (Hrow _ Hfl), Hjj.
Qed.

End TopK.

Section AccuracyTheorem.
Import Accuracy.
Context {sel : TopK}.

Lemma topk_indices_ok (maxk : Z) (C : nat) (output : list (list Q)) :
  0 ≤ maxk ≤ Z.of_nat C →
  Forall (λ row, length row = C) output →
  topk_indices maxk output = Ok (topk_select (Z.to_nat maxk) <$> output).
Proof.
  intros Hm. induction 1 as [|row output Hrow _ IH]; [done|].
  cbn [topk_indices]. unfold topk_row. rewrite Hrow.
  replace ((0 <=? maxk) && (maxk <=? Z.of_nat C)) with true
    by (symmetry; apply andb_true_iff; lia).
  by rewrite IH.
Qed.

Lemma accuracy_loop_ok (correct : list (list bool)) (n : Z) (topk : list Z) :
  n ≠ 0 →
  accuracy_loop correct n topk
  = Ok ((λ k, Float.scaled n (count_true (slice_to k correct))) <$> topk).
Proof.
  intros Hn. induction topk as [|k ks IH]; [done|].
  cbn [accuracy_loop]. apply Z.eqb_neq in Hn. by rewrite Hn, IH.
Qed.

Lemma accuracy_empty_topk (output : list (list Q)) (target : list Z) :
  accuracy output target []
  = Raise (ValueError "max() arg is an empty sequence").
Proof. reflexivity. Qed.

(** What [accuracy] returns for any entry of topk, negative ones
    included. *)
Lemma accuracy_general (output : list (list Q)) (target topk : list Z)
    (C : nat) (maxk : Z) :
  topk_law →
  output ≠ [] →
  length target = length output →
  Forall (λ row, length row = C) output →
  py_max topk = Ok maxk →
  0 ≤ maxk ≤ Z.of_nat C →
  accuracy output target topk
  = Ok ((λ k, precision_at maxk (if 0 <=? k then k else maxk + k)
                output target) <$> topk).
Proof.
  intros Hlaw Hout Hlen Hrows Emax Hmax.
  destruct (py_max_inv _ _ Emax) as (Hne & _ & Hle).
  unfold accuracy. rewrite Emax.
  rewrite (topk_indices_ok maxk C) by (done || lia).
  unfold expand_as. rewrite bool_decide_eq_true_2 by done.
  rewrite accuracy_loop_ok by (destruct output; [done|cbn in *; lia]).
  f_equal. apply Forall_fmap_ext, Forall_forall. intros k Hk.
  rewrite Forall_forall in Hle. specialize (Hle k Hk).
  unfold slice_to, precision_at. rewrite correct_length, Hlen.
  destruct (0 <=? k) eqn:E.
  - apply Z.leb_le in E.
    by rewrite (count_correct output target (Z.to_nat maxk) (Z.to_nat k) C)
      by (done || lia).
  - apply Z.leb_gt in E.
    rewrite (count_correct output target (Z.to_nat maxk)
               (Z.to_nat maxk - Z.to_nat (- k)) C) by (done || lia).
    do 3 f_equal. lia.
Qed.

Lemma accuracy_correct (output : list (list Q)) (target : list Z)
    (topk : list Z) (C : nat) (maxk : Z) :
  topk_law →
  output ≠ [] →
  length target = length output →
  Forall (λ row, length row = C) output →
  py_max topk = Ok maxk →
  Forall (λ k, 0 ≤ k ≤ Z.of_nat C) topk →
  accuracy output target topk
  = Ok ((λ k, precision_at maxk k output target) <$> topk).
Proof.
  intros Hlaw Hout Hlen Hrows Emax Hks.
  destruct (py_max_inv _ _ Emax) as (_ & Hin & _).
  assert (Hmax : 0 ≤ maxk ≤ Z.of_nat C).
  { rewrite Forall_forall in Hks. by apply Hks. }
  rewrite (accuracy_general output target topk C maxk) by done.
  f_equal. apply Forall_fmap_ext, Forall_forall. intros k Hk.
  rewrite Forall_forall in Hks. specialize (Hks k Hk).
  by replace (0 <=? k) with true by (symmetry; apply Z.leb_le; lia).
Qed.

Lemma hits_le_batch (maxk k : nat) (output : list (list Q))
    (target : list Z) :
  (hits maxk k output target ≤ length output)%nat.
Proof.
  unfold hits. etrans; [apply length_filter|].
  rewrite length_zip. lia.
Qed.

(** C5, on the inputs on which [accuracy] returns, and with the value it
    returns: for a batch of n >= 1 samples (at most 2^24) with C scores
    each, n labels, and a non-empty topk whose entries lie between 0 and C,
    [accuracy] returns one value per k in topk, in the order of topk.  The
    value for k is computed from the number of samples whose label is
    among the top k predictions of their row, a number between 0 and n, as
    the [float32] product of that number and of the Python float 100.0 / n:
    it is 100/n times that number up to rounding.  The top k predictions
    are the first k of the max(topk) classes that [topk] returns for the
    row: k different classes, by decreasing score, none of the other
    classes having a larger score than one of them; between classes of
    equal score the choice is [topk]'s. *)
Theorem C5_accuracy (output : list (list Q)) (target : list Z)
    (topk : list Z) (C : nat) (maxk : Z) :
  topk_law →
  output ≠ [] →
  length target = length output →
  Z.of_nat (length output) ≤ 2 ^ 24 →
  Forall (λ row, length row = C) output →
  py_max topk = Ok maxk →
  Forall (λ k, 0 ≤ k ≤ Z.of_nat C) topk →
  accuracy output target topk
  = Ok ((λ k, Float.scaled (Z.of_nat (length output))
                (Z.of_nat (hits (Z.to_nat maxk) (Z.to_nat k) output target)))
          <$> topk)
  ∧ (∀ k, k ∈ topk →
       (hits (Z.to_nat maxk) (Z.to_nat k) output target ≤ length output)%nat)
  ∧ (∀ k row, k ∈ topk → row ∈ output →
       is_topk (Z.to_nat k) row
         (take (Z.to_nat k) (topk_select (Z.to_nat maxk) row))).
Proof.
  intros Hlaw Hout Hlen Hbig Hrows Emax Hks.
  split; [by apply (accuracy_correct output target topk C maxk)|].
  split; [intros k _; apply hits_le_batch|].
  intros k row Hk Hrow.
  destruct (py_max_inv _ _ Emax) as (_ & Hin & Hle).
  rewrite Forall_forall in Hks. rewrite Forall_forall in Hrows.
  rewrite Forall_forall in Hle.
  pose proof (Hks k Hk). pose proof (Hks maxk Hin). pose proof (Hle k Hk).
  pose proof (Hrows row Hrow).
  apply (is_topk_take (Z.to_nat maxk)); [|lia].
  apply Hlaw. lia.
Qed.

End AccuracyTheorem.

Section AccuracyWitness.
Import Accuracy.

Lemma C5_accuracy_witness :
  accuracy [[(1 # 2); 3; 2]; [5; 1; 0]; [0; 0; 1]]%Q [1; 1; 2] [1; 2]
  = Ok [Float.scaled 3 2; Float.scaled 3 3]
  ∧ Float.to_Q (Float.scaled 3 2) = (8738133 # 131072)%Q.
Proof.
  split; [|reflexivity].
  refine (proj1 (C5_accuracy [[(1 # 2); 3; 2]; [5; 1; 0]; [0; 0; 1]]%Q
                   [1; 1; 2] [1; 2] 3 2 lowest_first_law _ _ _ _ _ _)).
  - discriminate.
  - reflexivity.
  - discriminate.
  - repeat constructor.
  - reflexivity.
  - repeat constructor; lia.
Defined.

(** C5 as stated, for every tuple topk, fails on the empty tuple:
    [max(topk)] raises and nothing is returned. *)
Lemma C5_accuracy_counterexample :
  accuracy [[1; 0]]%Q [0] []
  = Raise (ValueError "max() arg is an empty sequence")
  ∧ ¬ ∃ res : list Float.float,
        accuracy [[1; 0]]%Q [0] [] = Ok res
        ∧ length res = length ([] : list Z).
Proof.
  split; [reflexivity|]. intros (res & H & _). discriminate H.
Qed.

End AccuracyWitness.

(* ===================================================================== *)
(** * The statements on the concrete run                                  *)
(* ===================================================================== *)

Section Witnesses.
Import Trainer.

(** The batches fit when the two loops over their sizes return. *)
Lemma batches_fit_check env self :
  5 ≤ num_classes self →
  Batch.train_loop (is_hinge (criterion_ self)) (num_classes self)
    (Args.log_freq (args self)) (length (train_sizes env)) 0
    (train_sizes env) = Ok tt →
  Batch.eval_loop (is_hinge (criterion_ self)) (num_classes self)
    (test_sizes env) = Ok tt →
  batches_fit env self.
Proof.
  intros H5 Ht%train_loop_Ok_iff He%eval_loop_Ok_iff.
  split; [done|]. split; by eapply Forall_and_r.
Qed.

Lemma demo_trainable : trainable Demo.env Demo.trainer.
Proof.
  split; [by eexists|]. split; [by eexists|]. split; [discriminate|].
  split; [intros _; by eexists|].
  apply batches_fit_check; [discriminate|vm_compute; reflexivity..].
Defined.

Lemma C4_checkpoint_best_witness :
  ∃ obj : gmap string pyval,
    checkpoint_best Demo.trainer 1 "best.tar"
    = (Ok tt,
       [ Log "info" "Saving checkpoint model to {}";
         TorchSave obj
           "experiments/MNIST_LFC_1W1A_20200101_120000/checkpoints/best.tar";
         ModelTo Cpu;
         ExportOnnx 0
           "experiments/MNIST_LFC_1W1A_20200101_120000/checkpoints/best.tar.onnx"
           [1; 1; 32; 32];
         ModelTo Cpu ])
    ∧ obj !! "epoch" = Some (PInt 2).
Proof.
  destruct (C4_checkpoint_best Demo.trainer 1 "best.tar"
              "experiments/MNIST_LFC_1W1A_20200101_120000/checkpoints"
              (mkOptimizer "ADAM" (2 # 100)%Q 0) eq_refl eq_refl)
    as (obj & Hrun & _ & _ & Hepoch & _).
  exists obj. split; [exact Hrun|exact Hepoch].
Defined.

Lemma C3_one_checkpoint_per_epoch_witness :
  ∃ self1 evs1 self2 evs2,
    for_epochs Demo.env [1; 2] Demo.trainer = (Ok self1, evs1)
    ∧ for_epochs Demo.env [3] self1 = (Ok self2, evs2)
    ∧ best_le (best_val_acc Demo.trainer) (best_val_acc self1)
    ∧ best_le (best_val_acc self1) (best_val_acc self2)
    ∧ length (saves (evs1 ++ evs2)) = 3%nat.
Proof.
  destruct (proj1 (proj2 (C3_one_checkpoint_per_epoch Demo.env Demo.trainer
                            demo_trainable)) [1; 2] [3])
    as (self1 & evs1 & self2 & evs2 & E1 & E2 & _ & H1 & H2 & Hlen).
  exists self1, evs1, self2, evs2.
  split; [exact E1|]. split; [exact E2|]. split; [exact H1|].
  split; [exact H2|exact Hlen].
Defined.

Lemma svhn_not_supported : "SVHN" ∉ ["CIFAR10"; "CIFAR100"; "MNIST"].
Proof.
  intros H. repeat (apply elem_of_cons in H as [H|H]; [discriminate H|]).
  by apply elem_of_nil in H.
Defined.

Lemma C6_dataset_selection_witness :
  __init__ Demo.env (Demo.with_dataset "SVHN" Demo.args)
  = (Raise (Exception "Dataset not supported: SVHN"),
     [ Mkdir "experiments/SVHN_LFC_1W1A_20200101_120000";
       Mkdir "experiments/SVHN_LFC_1W1A_20200101_120000/checkpoints";
       LoggerInit "experiments/SVHN_LFC_1W1A_20200101_120000" false ])
  ∧ (num_classes Demo.trainer = 10 ∧ in_channels Demo.trainer = 1).
Proof.
  split.
  - apply (proj2 (proj2 (proj2 (proj2 (proj2 (proj2
             (C6_dataset_selection Demo.env
                (Demo.with_dataset "SVHN" Demo.args)))))
             svhn_not_supported))
             ("experiments/SVHN_LFC_1W1A_20200101_120000",
              Some "experiments/SVHN_LFC_1W1A_20200101_120000/checkpoints")).
    reflexivity.
  - refine (proj2 (proj2 (proj2 (proj1 (proj2 (proj2 (proj2
              (C6_dataset_selection Demo.env Demo.args))))
              Demo.trainer _ _))) eq_refl).
    reflexivity.
Defined.

Lemma C10_epochs_of_a_run_witness :
  ∃ self' ret evs,
    train_model Demo.env Demo.trainer = (Ok (self', ret), evs)
    ∧ trained evs = [1; 2; 3]
    ∧ ret = Some
              "experiments/MNIST_LFC_1W1A_20200101_120000/checkpoints/best.tar".
Proof.
  destruct (proj1 (proj2 (C10_epochs_of_a_run Demo.env)) Demo.trainer 1
              demo_trainable eq_refl)
    as (self' & ret & evs & E & Htr & _ & _ & _ & Hret & _).
  exists self', ret, evs. split; [exact E|]. split; [exact Htr|].
  destruct (Hret eq_refl) as (dir & Hdir & ->).
  injection Hdir as <-. reflexivity.
Defined.

End Witnesses.

Section ResumeWitness.
Import Trainer.

Lemma C7_resume_witness :
  ∃ self evs,
    __init__ Demo.env (Demo.with_resume Demo.resume_path Demo.args)
    = (Ok self, evs)
    ∧ Forall (λ e, is_mkdir e = false) evs
    ∧ output_dir_path self = "experiments/run"
    ∧ starting_epoch self = PInt 3
    ∧ best_val_acc self = PFloat (90 # 1)
    ∧ olr <$> optimizer_ self = Some (1 # 100)%Q.
Proof.
  assert (∃ self evs,
            __init__ Demo.env (Demo.with_resume Demo.resume_path Demo.args)
            = (Ok self, evs)
            ∧ scheduler_ self = None) as (self & evs & E & Hnone).
  { eexists _, _. split; vm_compute; reflexivity. }
  destruct (C7_resume Demo.env (Demo.with_resume Demo.resume_path Demo.args)
              Demo.resume_path eq_refl ltac:(discriminate))
    as (Hmk & H & Hgp).
  destruct (H self evs E)
    as (Hout & package & sd & m0 & _ & Hload & _ & _ & _ & Hres & _).
  destruct (Hres eq_refl) as (Hse & Hb & opt0 & Hopt & Hsch & _).
  change (Some Demo.package = Some package) in Hload.
  injection Hload as <-.
  exists self, evs. split; [exact E|].
  split. { unfold emits_only in Hmk. rewrite E in Hmk. exact Hmk. }
  split.
  { rewrite Hout.
    apply (Hgp "experiments/run" "checkpoints" "best.tar");
      (reflexivity || discriminate). }
  split; [exact Hse|]. split; [exact Hb|].
  destruct Hopt as (o & st & _ & _ & -> & _).
  rewrite Hsch, Hnone. reflexivity.
Defined.

End ResumeWitness.

(* ===================================================================== *)
(** * More about [accuracy]                                               *)
(* ===================================================================== *)

Section AccuracyEdges.
Import Accuracy.
Context {sel : TopK}.

Lemma topk_indices_Ok_iff (maxk : Z) (output : list (list Q)) :
  (∃ pred, topk_indices maxk output = Ok pred)
  ↔ Forall (λ row, 0 ≤ maxk ≤ Z.of_nat (length row)) output.
Proof.
  induction output as [|row output IH]; cbn.
  - split; [constructor|by eexists].
  - unfold topk_row.
    destruct ((0 <=? maxk) && (maxk <=? Z.of_nat (length row))) eqn:E.
    + apply andb_true_iff in E as [E1%Z.leb_le E2%Z.leb_le].
      destruct (topk_indices maxk output) as [ps|e].
      * split; [|by eexists]. intros _. constructor; [lia|].
        apply IH. by eexists.
      * split; [by intros [? ?]|].
        intros [_ H']%Forall_cons. apply IH in H' as [? ?]. done.
    + split; [by intros [? ?]|]. intros [H' _]%Forall_cons.
      apply andb_false_iff in E as [E%Z.leb_gt|E%Z.leb_gt]; lia.
Qed.

Lemma accuracy_loop_length correct n topk res :
  accuracy_loop correct n topk = Ok res → length res = length topk.
Proof.
  revert res. induction topk as [|k ks IH]; intros res; cbn.
  - by intros [= <-].
  - destruct (n =? 0); [done|].
    destruct (accuracy_loop correct n ks) as [r|]; [|done].
    intros [= <-]. cbn. f_equal. by apply IH.
Qed.

(** X1: [accuracy] on as many labels as rows returns exactly when topk is
    not empty, the batch is not empty, and max(topk) is between 0 and the
    length of every row; and then with one value per entry of topk. *)
Theorem accuracy_returns_iff (output : list (list Q)) (target topk : list Z) :
  length target = length output →
  ((∃ res, accuracy output target topk = Ok res)
   ↔ output ≠ []
     ∧ ∃ maxk, py_max topk = Ok maxk
               ∧ Forall (λ row, 0 ≤ maxk ≤ Z.of_nat (length row)) output)
  ∧ (∀ res, accuracy output target topk = Ok res →
            length res = length topk).
Proof.
  intros Hlen. unfold accuracy, expand_as.
  rewrite (bool_decide_eq_true_2 _ Hlen).
  destruct (py_max topk) as [maxk|e] eqn:Emax.
  2:{ split; [|done]. split; [by intros [? ?]|]. by intros (_ & ? & ? & _). }
  pose proof (topk_indices_Ok_iff maxk output) as Hiff.
  destruct (topk_indices maxk output) as [pred|e].
  2:{ split; [|done]. split; [by intros [? ?]|].
      intros (_ & m & [= <-] & HF). apply Hiff in HF as [? ?]. done. }
  split; [|by intros res ?%accuracy_loop_length].
  apply py_max_inv in Emax as (Hne & _ & _).
  split.
  - intros [res Hres]. split.
    + intros ->. destruct target; [|done]. destruct topk; [done|].
      cbn in Hres. done.
    + exists maxk. split; [done|]. apply Hiff. by eexists.
  - intros (Hout & _). rewrite accuracy_loop_ok; [by eexists|].
    destruct output; [done|]. cbn in Hlen. lia.
Qed.

End AccuracyEdges.

Section AccuracyEdgesWitness.
Import Accuracy.

Lemma accuracy_returns_iff_witness :
  (∃ res, accuracy [[1; 0]; [0; 1]]%Q [0; 0] [2; 1] = Ok res)
  ∧ ¬ (∃ res, accuracy [[1; 0]; [0; 1]]%Q [0; 0] [3] = Ok res).
Proof.
  destruct (accuracy_returns_iff [[1; 0]; [0; 1]]%Q [0; 0] [2; 1] eq_refl)
    as [H1 _].
  destruct (accuracy_returns_iff [[1; 0]; [0; 1]]%Q [0; 0] [3] eq_refl)
    as [H2 _].
  split.
  - apply H1. split; [discriminate|]. exists 2. split; [reflexivity|].
    repeat constructor; cbn; lia.
  - intros H. apply H2 in H as (_ & m & [= <-] & HF).
    apply Forall_cons in HF as [HF _]. cbn in HF. lia.
Defined.

End AccuracyEdgesWitness.

Section AccuracyAnyK.
Import Accuracy.
Context {sel : TopK}.

(** X2: a topk entry need not be positive.  With max(topk) between 1 and
    the number C of classes, [accuracy] returns for an entry k >= 0 the
    value computed from the hits among the top k predictions, and for a
    negative entry the one computed from the hits among the top
    max(topk) + k (none when that is negative): [correct[:k]] drops the
    last -k rows.  The value is the [float32] product of C5. *)
Theorem accuracy_any_k (output : list (list Q)) (target topk : list Z)
    (C : nat) (maxk : Z) :
  topk_law →
  output ≠ [] →
  length target = length output →
  Z.of_nat (length output) ≤ 2 ^ 24 →
  Forall (λ row, length row = C) output →
  py_max topk = Ok maxk →
  1 ≤ maxk ≤ Z.of_nat C →
  accuracy output target topk
  = Ok ((λ k, Float.scaled (Z.of_nat (length output))
                (Z.of_nat (hits (Z.to_nat maxk)
                             (Z.to_nat (if 0 <=? k then k else maxk + k))
                             output target)))
          <$> topk).
Proof.
  intros Hlaw Hout Hlen Hbig Hrows Emax Hmax.
  by rewrite (accuracy_general output target topk C maxk) by (done || lia).
Qed.

End AccuracyAnyK.

Section AccuracyAnyKWitness.
Import Accuracy.

Lemma accuracy_any_k_witness :
  accuracy [[(1 # 2); 3; 2]; [5; 1; 0]; [0; 0; 1]]%Q [1; 1; 2] [-1; 3]
  = Ok [Float.scaled 3 3; Float.scaled 3 3].
Proof.
  refine (accuracy_any_k [[(1 # 2); 3; 2]; [5; 1; 0]; [0; 0; 1]]%Q
            [1; 1; 2] [-1; 3] 3 3 lowest_first_law _ _ _ _ _ _).
  - discriminate.
  - reflexivity.
  - discriminate.
  - repeat constructor.
  - reflexivity.
  - lia.
Defined.

End AccuracyAnyKWitness.

Section AccuracyBounds.
Import Accuracy.
Context {sel : TopK}.

Lemma in_top_mono (maxk k k' : nat) (row : list Q) (t : Z) :
  (k ≤ k')%nat → in_top maxk k row t = true → in_top maxk k' row t = true.
Proof.
  intros Hk. unfold in_top. rewrite !bool_decide_eq_true.
  rewrite !Exists_exists. intros (j & Hj & Hjt). exists j. split; [|done].
  apply elem_of_take in Hj as (i & Hi & Hlt).
  apply elem_of_take. exists i. split; [done|lia].
Qed.

Lemma hits_mono (maxk k k' : nat) (output : list (list Q))
    (target : list Z) :
  (k ≤ k')%nat →
  (hits maxk k output target ≤ hits maxk k' output target)%nat.
Proof.
  intros Hk. rewrite !hits_sum.
  induction (zip output target) as [|rt l IH]; [done|]. cbn.
  destruct (in_top maxk k rt.1 rt.2) eqn:E.
  - rewrite (in_top_mono maxk k k' _ _ Hk E). cbn. lia.
  - cbn. lia.
Qed.

(** X3: on a batch of n >= 1 samples (at most 2^24) with C scores each, n
    labels and a non-empty topk whose entries lie between 0 and C, every
    value [accuracy] returns is the [float32] scaling of a count of samples
    that lies between 0 and n, and the counts grow with k: the count for a
    larger entry of topk is never smaller (top-5 counts at least top-1).
    The values themselves are 100/n times the counts only up to rounding,
    and can exceed 100: for 45 hits of 45 the value is 100.00000763. *)
Theorem accuracy_bounds_monotone (output : list (list Q))
    (target topk : list Z) (C : nat) (maxk : Z) :
  topk_law →
  output ≠ [] →
  length target = length output →
  Z.of_nat (length output) ≤ 2 ^ 24 →
  Forall (λ row, length row = C) output →
  py_max topk = Ok maxk →
  Forall (λ k, 0 ≤ k ≤ Z.of_nat C) topk →
  (∃ counts : list nat,
     accuracy output target topk
     = Ok ((λ c, Float.scaled (Z.of_nat (length output)) (Z.of_nat c))
             <$> counts)
     ∧ length counts = length topk
     ∧ Forall (λ c, (c ≤ length output)%nat) counts
     ∧ (∀ (i j : nat) (k k' : Z) (c c' : nat),
          topk !! i = Some k → topk !! j = Some k' →
          counts !! i = Some c → counts !! j = Some c' →
          k ≤ k' → (c ≤ c')%nat))
  ∧ (100 < Float.to_Q (Float.scaled 45 45))%Q.
Proof.
  intros Hlaw Hout Hlen Hbig Hrows Emax Hks. split; [|reflexivity].
  exists ((λ k, hits (Z.to_nat maxk) (Z.to_nat k) output target) <$> topk).
  split.
  { rewrite (accuracy_correct output target topk C maxk) by done.
    by rewrite <- list_fmap_compose. }
  split; [by rewrite length_fmap|]. split.
  - apply Forall_fmap, Forall_forall. intros k _. apply hits_le_batch.
  - intros i j k k' c c' Hi Hj Hc Hc' Hkk.
    rewrite list_lookup_fmap, Hi in Hc. rewrite list_lookup_fmap, Hj in Hc'.
    cbn in Hc, Hc'. injection Hc as <-. injection Hc' as <-.
    apply hits_mono. lia.
Qed.

End AccuracyBounds.

Section AccuracyBoundsWitness.
Import Accuracy.

Lemma accuracy_bounds_monotone_witness :
  ∃ counts : list nat,
    accuracy [[(1 # 2); 3; 2]; [5; 1; 0]; [0; 0; 1]]%Q [1; 1; 2] [1; 2]
    = Ok ((λ c, Float.scaled 3 (Z.of_nat c)) <$> counts)
    ∧ Forall (λ c, (c ≤ 3)%nat) counts.
Proof.
  destruct (proj1 (accuracy_bounds_monotone
              [[(1 # 2); 3; 2]; [5; 1; 0]; [0; 0; 1]]%Q [1; 1; 2] [1; 2] 3 2
              lowest_first_law ltac:(discriminate) eq_refl
              ltac:(discriminate) ltac:(repeat constructor) eq_refl
              ltac:(repeat constructor; lia)))
    as (counts & E & _ & Hb & _).
  exists counts. split; [exact E|exact Hb].
Defined.

End AccuracyBoundsWitness.

Section AccuracyExtremes.
Import Accuracy.
Context {sel : TopK}.

(** A selection of all the classes holds every class. *)
Lemma is_topk_all (row : list Q) (l : list nat) (i : nat) :
  is_topk (length row) row l → (i < length row)%nat → i ∈ l.
Proof.
  intros (Hl & Hnd & Hsome & _) Hi.
  assert (Hperm : l ≡ₚ seq 0 (length row)).
  { apply submseteq_length_Permutation.
    - apply NoDup_submseteq; [done|]. intros x Hx.
      apply elem_of_seq. destruct (Hsome x Hx) as [q Hq].
      apply lookup_lt_Some in Hq. lia.
    - rewrite length_seq. lia. }
  rewrite Hperm. apply elem_of_seq. lia.
Qed.

Lemma in_top_all (row : list Q) (t : Z) :
  topk_law →
  0 ≤ t < Z.of_nat (length row) →
  in_top (length row) (length row) row t = true.
Proof.
  intros Hlaw Ht. unfold in_top. apply bool_decide_eq_true.
  pose proof (Hlaw (length row) row ltac:(lia)) as Hsel.
  rewrite firstn_all2 by (destruct Hsel as [-> _]; lia).
  apply Exists_exists. exists (Z.to_nat t). split; [|lia].
  apply (is_topk_all row); [done|lia].
Qed.

Lemma in_top_outside (maxk k : nat) (row : list Q) (t : Z) :
  topk_law → (maxk ≤ length row)%nat →
  ¬ (0 ≤ t < Z.of_nat (length row)) → in_top maxk k row t = false.
Proof.
  intros Hlaw Hmax Ht. unfold in_top. apply bool_decide_eq_false.
  intros (j & Hj & Hjt)%Exists_exists. apply Ht.
  apply elem_of_take in Hj as (i & Hi & _).
  apply list_elem_of_lookup_2 in Hi.
  destruct (Hlaw maxk row Hmax) as (_ & _ & Hsome & _).
  destruct (Hsome j Hi) as [q Hq]. apply lookup_lt_Some in Hq. lia.
Qed.

Lemma hits_all (C : nat) (output : list (list Q)) : ∀ target : list Z,
  topk_law →
  length target = length output →
  Forall (λ row, length row = C) output →
  Forall (λ t, 0 ≤ t < Z.of_nat C) target →
  hits C C output target = length output.
Proof.
  unfold hits.
  induction output as [|row output IH]; intros [|t target] Hlaw Hlen Hr Ht;
    try done.
  apply Forall_cons in Hr as [Hrow Hr]. apply Forall_cons in Ht as [Ht0 Ht].
  cbn [zip zip_with]. rewrite filter_cons_True.
  - cbn. f_equal. apply IH; [done| |done..]. cbn in Hlen. lia.
  - cbn. rewrite <- Hrow. apply in_top_all; [done|]. by rewrite Hrow.
Qed.

Lemma hits_none (C maxk k : nat) (output : list (list Q)) :
  ∀ target : list Z,
  topk_law → (maxk ≤ C)%nat →
  Forall (λ row, length row = C) output →
  Forall (λ t, ¬ (0 ≤ t < Z.of_nat C)) target →
  hits maxk k output target = 0%nat.
Proof.
  unfold hits.
  induction output as [|row output IH]; intros [|t target] Hlaw Hm Hr Ht;
    try done.
  apply Forall_cons in Hr as [Hrow Hr]. apply Forall_cons in Ht as [Ht0 Ht].
  cbn [zip zip_with]. rewrite filter_cons_False.
  - by apply IH.
  - cbn. rewrite in_top_outside; [done|done|lia|]. by rewrite Hrow.
Qed.

(** X4: the two extremes of [accuracy] on a batch of n >= 1 rows (at most
    2^24) of C >= 1 scores.  When every label is a class index
    (0 <= t < C), all n samples are counted at k = C; when no label is a
    class index, none is counted at any k: a label outside the classes is
    never counted and never rejected.  The values returned are the
    [float32] scalings of n and of 0. *)
Theorem accuracy_extremes (output : list (list Q)) (target : list Z)
    (C : nat) :
  topk_law →
  output ≠ [] →
  length target = length output →
  Z.of_nat (length output) ≤ 2 ^ 24 →
  Forall (λ row, length row = C) output →
  (1 ≤ C)%nat →
  (Forall (λ t, 0 ≤ t < Z.of_nat C) target →
   accuracy output target [Z.of_nat C]
   = Ok [Float.scaled (Z.of_nat (length output))
           (Z.of_nat (length output))])
  ∧ (Forall (λ t, ¬ (0 ≤ t < Z.of_nat C)) target →
     ∀ topk maxk,
       py_max topk = Ok maxk → Forall (λ k, 0 ≤ k ≤ Z.of_nat C) topk →
       accuracy output target topk
       = Ok (replicate (length topk)
               (Float.scaled (Z.of_nat (length output)) 0))).
Proof.
  intros Hlaw Hout Hlen Hbig Hrows HC. split.
  - intros Ht.
    rewrite (accuracy_correct output target [Z.of_nat C] C (Z.of_nat C))
      by first [done|repeat constructor; lia].
    cbn. unfold precision_at. by rewrite Nat2Z.id, (hits_all C).
  - intros Ht topk maxk Emax Hks.
    rewrite (accuracy_correct output target topk C maxk) by done.
    f_equal. destruct (py_max_inv _ _ Emax) as (_ & Hin & _).
    assert (Hmax : (Z.to_nat maxk ≤ C)%nat).
    { rewrite Forall_forall in Hks. specialize (Hks _ Hin). lia. }
    clear Emax Hks Hin. induction topk as [|k ks IH]; [done|]. cbn.
    rewrite IH. f_equal. unfold precision_at.
    by rewrite (hits_none C).
Qed.

End AccuracyExtremes.

Section AccuracyExtremesWitness.
Import Accuracy.

Lemma accuracy_extremes_witness :
  accuracy [[1; 0]; [0; 1]]%Q [1; 1] [2] = Ok [Float.scaled 2 2]
  ∧ accuracy [[1; 0]; [0; 1]]%Q [7; -1] [1; 2] = Ok [Float.zero; Float.zero].
Proof.
  pose proof (accuracy_extremes [[1; 0]; [0; 1]]%Q [1; 1] 2
                lowest_first_law ltac:(discriminate) eq_refl
                ltac:(discriminate) ltac:(repeat constructor) ltac:(lia))
    as [H1 _].
  pose proof (accuracy_extremes [[1; 0]; [0; 1]]%Q [7; -1] 2
                lowest_first_law ltac:(discriminate) eq_refl
                ltac:(discriminate) ltac:(repeat constructor) ltac:(lia))
    as [_ H2].
  split.
  - apply H1. repeat constructor; lia.
  - apply (H2 ltac:(repeat constructor; lia) [1; 2] 2 eq_refl).
    repeat constructor; lia.
Defined.

End AccuracyExtremesWitness.

(* ===================================================================== *)
(** * Properties of the batch computations                                *)
(* ===================================================================== *)

Section HingeFacts.
Import Batch.

(** X5: the labels of a batch of n samples keep their shape [n] through
    [unsqueeze(1)] ... [squeeze()] except for n = 1, where [squeeze()] also
    removes the batch dimension; [target.size(0)], which [accuracy] reads,
    then raises an IndexError instead of returning 1. *)
Theorem hinge_target_shape_batch (n : nat) :
  hinge_target_shape [n]
  = Ok (if bool_decide (n = 1%nat) then [] else [n])
  ∧ match hinge_target_shape [n] with
    | Ok shape => size 0 shape
    | Raise e => Raise e
    end
    = if bool_decide (n = 1%nat)
      then Raise (IndexError "Dimension specified but tensor has no such dimension")
      else Ok n.
Proof.
  unfold hinge_target_shape, unsqueeze, squeeze. cbn.
  rewrite (bool_decide_eq_true_2 (1 ≤ 1)%nat) by done.
  destruct (decide (n = 1%nat)) as [->|Hn].
  - rewrite bool_decide_eq_true_2 by done.
    by rewrite !filter_cons_False by naive_solver.
  - rewrite bool_decide_eq_false_2 by done.
    rewrite filter_cons_True by done.
    by rewrite filter_cons_False by naive_solver.
Qed.

Lemma scatter_row_Ok_iff (row : list Q) (t : Z) (v : Q) :
  (∃ r, scatter_row row t v = Ok r) ↔ 0 ≤ t < Z.of_nat (length row).
Proof.
  unfold scatter_row.
  destruct ((0 <=? t) && (t <? Z.of_nat (length row))) eqn:E.
  - apply andb_true_iff in E as [?%Z.leb_le ?%Z.ltb_lt].
    split; [lia|by eexists].
  - split; [by intros [? ?]|].
    apply andb_false_iff in E as [?%Z.leb_gt|?%Z.ltb_ge]; lia.
Qed.

(** X6: [target_onehot] exists exactly when every label is a class index
    (otherwise [scatter_] raises); it then has one row of num_classes
    entries per label, with 1 at the label and -1 everywhere else. *)
Theorem target_onehot_spec (num_classes : nat) (target : list Z) :
  ((∃ rows, target_onehot num_classes target = Ok rows)
   ↔ Forall (λ t, 0 ≤ t < Z.of_nat num_classes) target)
  ∧ (∀ rows, target_onehot num_classes target = Ok rows →
       length rows = length target
       ∧ ∀ (i : nat) (t : Z) (row : list Q),
           target !! i = Some t → rows !! i = Some row →
           length row = num_classes
           ∧ row !! Z.to_nat t = Some 1%Q
           ∧ ∀ j : nat, j ≠ Z.to_nat t → (j < num_classes)%nat →
                        row !! j = Some (-1)%Q).
Proof.
  induction target as [|t target [IH1 IH2]]; cbn [target_onehot].
  - split; [split; [constructor|by eexists]|].
    intros rows [= <-]. split; [done|]. by intros [|?] ??.
  - pose proof (scatter_row_Ok_iff (replicate num_classes (-1)%Q) t 1%Q)
      as Hs. rewrite length_replicate in Hs.
    destruct (scatter_row (replicate num_classes (-1)%Q) t 1%Q)
      as [row|e] eqn:Er.
    2:{ split; [|done]. split; [by intros [? ?]|].
        intros [Ht _]%Forall_cons. apply Hs in Ht as [? ?]. done. }
    assert (Ht : 0 ≤ t < Z.of_nat num_classes) by (apply Hs; by eexists).
    destruct (target_onehot num_classes target) as [rows|e].
    2:{ split; [|done]. split; [by intros [? ?]|].
        intros [_ H]%Forall_cons. apply IH1 in H as [? ?]. done. }
    split.
    { split; [|by eexists]. intros _. constructor; [done|].
      apply IH1. by eexists. }
    intros ? [= <-]. destruct (IH2 rows eq_refl) as [Hl Hrows].
    split; [cbn; by rewrite Hl|].
    intros [|i] t' row' Hi Hrow; cbn in Hi, Hrow.
    + injection Hi as <-. injection Hrow as <-.
      unfold scatter_row in Er. rewrite length_replicate in Er.
      replace ((0 <=? t) && (t <? Z.of_nat num_classes)) with true in Er
        by (symmetry; apply andb_true_iff; lia).
      injection Er as <-.
      split; [by rewrite length_insert, length_replicate|].
      split.
      * apply list_lookup_insert_eq. rewrite length_replicate. lia.
      * intros j Hj Hlt. rewrite list_lookup_insert_ne by done.
        by apply lookup_replicate_2.
    + by eapply Hrows.
Qed.

End HingeFacts.

Section EvalFacts.
Import Accuracy Batch.
Context {sel : TopK}.

Lemma argmax_from_spec (rest : list Q) : ∀ (pre : list Q) (bi : nat) (b : Q),
  (pre ++ rest) !! bi = Some b →
  (∀ j q, pre !! j = Some q → (q <= b)%Q) →
  ∃ q, (pre ++ rest) !! argmax_from bi b (length pre) rest = Some q
       ∧ ∀ j q', (pre ++ rest) !! j = Some q' → (q' <= q)%Q.
Proof.
  induction rest as [|x rest IH]; intros pre bi b Hb Hpre; cbn.
  - rewrite app_nil_r in *. by exists b.
  - assert (Hsplit : pre ++ x :: rest = (pre ++ [x]) ++ rest)
      by by rewrite <- app_assoc.
    assert (Hlen : S (length pre) = length (pre ++ [x]))
      by (rewrite length_app; cbn; lia).
    rewrite Hsplit, Hlen in *.
    destruct (Qle_bool x b) eqn:E.
    + apply Qle_bool_iff in E. apply IH; [done|].
      intros j q [Hj|[_ Hj]]%lookup_app_Some; [by eapply Hpre|].
      apply list_lookup_singleton_Some in Hj as [_ <-]. done.
    + assert (Hlt : (b < x)%Q).
      { apply Qnot_le_lt. intros H%Qle_bool_iff. congruence. }
      apply IH.
      * rewrite lookup_app_l by (rewrite length_app; cbn; lia).
        by rewrite list_lookup_middle.
      * intros j q [Hj|[_ Hj]]%lookup_app_Some.
        -- apply Qlt_le_weak. eapply Qle_lt_trans; [|exact Hlt].
           by eapply Hpre.
        -- apply list_lookup_singleton_Some in Hj as [_ <-]. apply Qle_refl.
Qed.

Lemma argmax_spec (row : list Q) (i : nat) :
  argmax row = Ok i →
  ∃ q, row !! i = Some q ∧ ∀ j q', row !! j = Some q' → (q' <= q)%Q.
Proof.
  destruct row as [|x rest]; [done|]. cbn. intros [= <-].
  apply (argmax_from_spec rest [x] 0%nat x); [done|].
  intros [|j] q; [|done]. intros [= <-]. apply Qle_refl.
Qed.

Lemma argmax_strict (row : list Q) (m : nat) :
  strict_max row m → argmax row = Ok m.
Proof.
  intros (q & Hm & Hmax).
  destruct (argmax row) as [i|e] eqn:E.
  - f_equal. destruct (argmax_spec _ _ E) as (qi & Hi & Hge).
    destruct (decide (i = m)) as [|Hne]; [done|]. exfalso.
    apply (Qlt_not_le _ _ (Hmax i qi Hne Hi)). by eapply Hge.
  - destruct row; [done|]. done.
Qed.

(** With a single best class in every row, [argmax] finds it. *)
Lemma argmax_rows_strict (output : list (list Q)) (ms : list nat) :
  Forall2 strict_max output ms → argmax_rows output = Ok ms.
Proof.
  induction 1 as [|row m output ms Hm _ IH]; [done|].
  cbn. by rewrite (argmax_strict _ _ Hm), IH.
Qed.

Lemma strict_max_choice (output : list (list Q)) :
  Forall (λ row, ∃ m, strict_max row m) output →
  ∃ ms, Forall2 strict_max output ms.
Proof.
  induction 1 as [|row output [m Hm] _ [ms IH]]; [by exists []|].
  exists (m :: ms). by constructor.
Qed.

Lemma top1_strict (maxk : nat) (row : list Q) (m : nat) :
  topk_law → (1 ≤ maxk ≤ length row)%nat →
  strict_max row m → take 1 (topk_select maxk row) = [m].
Proof.
  intros Hlaw Hk (q & Hm & Hmax).
  pose proof (is_topk_take maxk 1 row _ (Hlaw maxk row ltac:(lia))
                ltac:(lia)) as (Hlen & _ & Hsome & _ & Hdom).
  destruct (take 1 (topk_select maxk row)) as [|i [|??]] eqn:E;
    cbn [length] in Hlen; try lia.
  f_equal. destruct (decide (i = m)) as [|Hne]; [done|]. exfalso.
  assert (Hin : i ∈ [i]) by constructor.
  destruct (Hsome i Hin) as [qi Hi].
  apply (Qlt_not_le _ _ (Hmax i qi Hne Hi)).
  apply (Hdom i m qi q); [done| |done..].
  intros [->|[]%elem_of_nil]%elem_of_cons. done.
Qed.

Lemma in_top1_strict (maxk : nat) (row : list Q) (m : nat) (t : Z) :
  topk_law → (1 ≤ maxk ≤ length row)%nat →
  strict_max row m → in_top maxk 1 row t = bool_decide (Z.of_nat m = t).
Proof.
  intros Hlaw Hk Hm. unfold in_top. rewrite (top1_strict _ _ _ Hlaw Hk Hm).
  apply bool_decide_ext. rewrite Exists_cons, Exists_nil. tauto.
Qed.

(** With a single best class in every row, the argmax predictions count the
    same samples as the first row of [accuracy]'s table. *)
Lemma argmax_count_hits (maxk C : nat) (output : list (list Q))
    (ms : list nat) :
  topk_law → (1 ≤ maxk ≤ C)%nat →
  Forall (λ row, length row = C) output →
  Forall2 strict_max output ms →
  ∀ target : list Z,
    length (filter (λ b, b = true)
              (zip_with (λ p t, bool_decide (Z.of_nat p = t)) ms target))
    = hits maxk 1 output target.
Proof.
  intros Hlaw Hk Hrows Hms. revert Hrows.
  induction Hms as [|row m output ms Hm _ IH]; intros Hrows target;
    [done|].
  apply Forall_cons in Hrows as [Hrow Hrows].
  destruct target as [|t target]; [done|].
  unfold hits in *. cbn [zip zip_with]. specialize (IH Hrows target).
  assert (Hin : in_top maxk 1 row t = bool_decide (Z.of_nat m = t)).
  { apply in_top1_strict; [done|lia|done]. }
  destruct (decide (Z.of_nat m = t)) as [Heq|Hne].
  - rewrite bool_decide_eq_true_2 in * by done.
    rewrite !filter_cons_True; [cbn; by rewrite IH|done..].
  - rewrite bool_decide_eq_false_2 in * by done.
    rewrite !filter_cons_False; [done|cbn; by rewrite Hin|done].
Qed.

(** X7: [eval_model] counts its correct predictions by argmax and throws
    away the top-1 value that [accuracy(output, target, topk=(1, 5))]
    returns.  On a batch of n >= 1 rows (at most 2^24) of C >= 5 scores
    whose best class is unique in every row, both count the same samples:
    the number of rows whose argmax is the label is the count from which
    [accuracy] computes its first value, and it is at most the count of the
    second, which is at most n. *)
Theorem eval_prec1_agrees (output : list (list Q)) (target : list Z)
    (C : nat) :
  topk_law →
  output ≠ [] →
  length target = length output →
  Z.of_nat (length output) ≤ 2 ^ 24 →
  Forall (λ row, length row = C) output →
  (5 ≤ C)%nat →
  Forall (λ row, ∃ m, strict_max row m) output →
  ∃ (pred : list nat) (c1 c5 : nat),
    argmax_rows output = Ok pred
    ∧ c1 = length (filter (λ b, b = true)
                     (zip_with (λ p t, bool_decide (Z.of_nat p = t))
                               pred target))
    ∧ accuracy output target [1; 5]
      = Ok [Float.scaled (Z.of_nat (length output)) (Z.of_nat c1);
            Float.scaled (Z.of_nat (length output)) (Z.of_nat c5)]
    ∧ (c1 ≤ c5 ≤ length output)%nat.
Proof.
  intros Hlaw Hout Hlen Hbig Hrows HC Hmax.
  destruct (strict_max_choice output Hmax) as [ms Hms].
  exists ms, (hits 5 1 output target), (hits 5 5 output target).
  split; [by apply argmax_rows_strict|].
  split; [symmetry; apply (argmax_count_hits 5 C); (done || lia)|].
  split.
  - rewrite (accuracy_correct output target [1; 5] C 5);
      [done|done..| |]; [done|repeat constructor; lia].
  - split; [apply hits_mono; lia|apply hits_le_batch].
Qed.

End EvalFacts.

Section EvalWitness.
Import Accuracy Batch.

Lemma eval_prec1_agrees_witness :
  ∃ (pred : list nat) (c1 c5 : nat),
    argmax_rows [[1; 9; 2; 3; 4; 5]; [8; 1; 2; 3; 4; 5]]%Q = Ok pred
    ∧ accuracy [[1; 9; 2; 3; 4; 5]; [8; 1; 2; 3; 4; 5]]%Q [1; 2] [1; 5]
      = Ok [Float.scaled 2 (Z.of_nat c1); Float.scaled 2 (Z.of_nat c5)]
    ∧ (c1 ≤ c5)%nat.
Proof.
  destruct (eval_prec1_agrees
              [[1; 9; 2; 3; 4; 5]; [8; 1; 2; 3; 4; 5]]%Q [1; 2] 6
              lowest_first_law)
    as (pred & c1 & c5 & E1 & _ & E2 & Hc & _).
  - discriminate.
  - reflexivity.
  - discriminate.
  - repeat constructor.
  - lia.
  - constructor; [|constructor; [|constructor]].
    + exists 1%nat, 9%Q. split; [reflexivity|].
      intros [|[|[|[|[|[|j]]]]]] q' Hj; try done; intros [= <-]; reflexivity.
    + exists 0%nat, 8%Q. split; [reflexivity|].
      intros [|[|[|[|[|[|j]]]]]] q' Hj; try done; intros [= <-]; reflexivity.
  - exists pred, c1, c5. split; [exact E1|]. split; [exact E2|exact Hc].
Defined.

End EvalWitness.

Section PerfectOutput.
Import Batch.

Lemma onehot_row_strict (C : nat) (t : Z) (row : list Q) :
  scatter_row (replicate C (-1)%Q) t 1%Q = Ok row →
  strict_max row (Z.to_nat t) ∧ 0 ≤ t.
Proof.
  unfold scatter_row. rewrite length_replicate.
  destruct ((0 <=? t) && (t <? Z.of_nat C)) eqn:E; [|done].
  apply andb_true_iff in E as [E1%Z.leb_le E2%Z.ltb_lt]. intros [= <-].
  split; [|done]. exists 1%Q. split.
  - apply list_lookup_insert_eq. rewrite length_replicate. lia.
  - intros j q' Hj. rewrite list_lookup_insert_ne by done.
    intros [-> _]%lookup_replicate. reflexivity.
Qed.

Lemma onehot_strict (C : nat) (target : list Z) : ∀ rows,
  target_onehot C target = Ok rows →
  Forall2 strict_max rows (Z.to_nat <$> target)
  ∧ length rows = length target
  ∧ Forall (λ t, 0 ≤ t) target.
Proof.
  induction target as [|t target IH]; cbn [target_onehot]; intros rows.
  - intros [= <-]. by repeat split.
  - destruct (scatter_row (replicate C (-1)%Q) t 1%Q) as [row|] eqn:Er;
      [|done].
    destruct (target_onehot C target) as [rows'|]; [|done].
    intros [= <-]. destruct (IH rows' eq_refl) as (HF & Hl & Hh).
    destruct (onehot_row_strict _ _ _ Er) as [Hm Ht].
    split; [by constructor|].
    split; [cbn; by rewrite Hl|by constructor].
Qed.

Lemma all_correct (target : list Z) :
  Forall (λ t, 0 ≤ t) target →
  length (filter (λ b, b = true)
            (zip_with (λ p t, bool_decide (Z.of_nat p = t))
                      (Z.to_nat <$> target) target))
  = length target.
Proof.
  induction 1 as [|t target Ht _ IH]; [done|].
  rewrite fmap_cons. cbn [zip_with].
  rewrite filter_cons_True by (apply bool_decide_eq_true; lia).
  cbn [length]. by rewrite IH.
Qed.

(** X8: an output that is exactly the hinge-loss target of its labels is
    scored 100 by [eval_model]'s top-1 precision, for every non-empty batch
    of labels that are class indices. *)
Theorem onehot_is_perfect (num_classes : nat) (target : list Z) :
  target ≠ [] →
  Forall (λ t, 0 ≤ t < Z.of_nat num_classes) target →
  ∃ rows v,
    target_onehot num_classes target = Ok rows
    ∧ prec1 rows target = Ok (Num v)
    ∧ (v == 100)%Q.
Proof.
  intros Hne Hvalid.
  destruct (proj2 (proj1 (target_onehot_spec num_classes target)) Hvalid)
    as [rows E].
  destruct (onehot_strict _ _ _ E) as (HF & Hl & Hpos).
  assert (Hn : (0 < length target)%nat) by (destruct target; [done|cbn; lia]).
  eexists rows, _. split; [done|]. split.
  - unfold prec1. rewrite (argmax_rows_strict _ _ HF).
    rewrite length_fmap, bool_decide_eq_true_2 by done.
    rewrite (all_correct _ Hpos), Hl.
    replace (Z.of_nat (length target) =? 0) with false
      by (symmetry; apply Z.eqb_neq; lia).
    reflexivity.
  - field. intros H. destruct (length target); [lia|discriminate H].
Qed.

Lemma onehot_is_perfect_witness :
  ∃ rows v,
    target_onehot 3 [2; 0] = Ok rows
    ∧ prec1 rows [2; 0] = Ok (Num v)
    ∧ (v == 100)%Q.
Proof.
  apply (onehot_is_perfect 3 [2; 0]).
  - discriminate.
  - repeat constructor; lia.
Defined.

Lemma target_onehot_spec_witness :
  ∃ rows,
    target_onehot 3 [2; 0] = Ok rows
    ∧ length rows = 2%nat.
Proof.
  exists [[(-1)%Q; (-1)%Q; 1%Q]; [1%Q; (-1)%Q; (-1)%Q]].
  split; [reflexivity|].
  exact (proj1 (proj2 (target_onehot_spec 3 [2; 0]) _ eq_refl)).
Defined.

End PerfectOutput.

(* ===================================================================== *)
(** * More about act.py                                                   *)
(* ===================================================================== *)

Section ActMore.
Import Onnx ActSpec Scope.

(** X9: for a qnt_type other than "BIPOLAR" and no bias, the HardTanh
    placeholder exports exactly the graph of the ReLU placeholder (whatever
    bias the latter is given); for "BIPOLAR" the two differ in their first
    node: only the HardTanh one carries out_scale and out_bias. *)
Theorem symbolic_hardtanh_vs_relu input q thres bias scale g :
  (q ≠ "BIPOLAR" →
   HT.symbolic input q thres None scale g
   = RL.symbolic input q thres bias scale g)
  ∧ (q = "BIPOLAR" →
     emitted (HT.symbolic input q thres bias scale) g !! 0%nat
     = Some (multi_threshold_bipolar input thres q)
     ∧ emitted (RL.symbolic input q thres bias scale) g !! 0%nat
       = Some (multi_threshold input thres q)
     ∧ multi_threshold_bipolar input thres q ≠ multi_threshold input thres q).
Proof.
  split.
  - intros Hq. rewrite (HT_symbolic_other _ _ _ _ _ _ Hq), RL_symbolic_run.
    by destruct scale.
  - intros ->. split; [|split].
    + by rewrite (emitted_app _ _ _ _ (HT_symbolic_bipolar _ _ bias scale g)).
    + by rewrite RL_emitted.
    + discriminate.
Qed.

Lemma symbolic_hardtanh_vs_relu_witness :
  HT.symbolic (Ext "x") "INT4" (Ext "t") None (Some (Ext "s")) []
  = RL.symbolic (Ext "x") "INT4" (Ext "t") (Some (Ext "b")) (Some (Ext "s")) [].
Proof.
  apply (proj1 (symbolic_hardtanh_vs_relu (Ext "x") "INT4" (Ext "t")
                  (Some (Ext "b")) (Some (Ext "s")) [])).
  discriminate.
Defined.

Lemma HT_emitted_cases input q thres bias scale g :
  emitted (HT.symbolic input q thres bias scale) g
  = if decide (q = "BIPOLAR") then [multi_threshold_bipolar input thres q]
    else multi_threshold input thres q :: add_then_mul (length g) bias scale.
Proof.
  destruct (decide (q = "BIPOLAR")) as [->|Hq].
  - apply (emitted_app _ _ _ _ (HT_symbolic_bipolar _ _ bias scale g)).
  - apply (emitted_app _ _ _ _ (HT_symbolic_other _ _ _ bias scale g Hq)).
Qed.

Lemma HT_symbolic_cases input q thres bias scale g :
  HT.symbolic input q thres bias scale g
  = (Out (length g
          + if decide (q = "BIPOLAR") then 0
            else length (add_then_mul (length g) bias scale)),
     g ++ emitted (HT.symbolic input q thres bias scale) g).
Proof.
  rewrite HT_emitted_cases. destruct (decide (q = "BIPOLAR")) as [->|Hq].
  - rewrite HT_symbolic_bipolar. by rewrite Nat.add_0_r.
  - apply (HT_symbolic_other _ _ _ bias scale g Hq).
Qed.

Ltac scoped_cases :=
  let pos := fresh "pos" in
  let nd := fresh "nd" in
  let val := fresh "val" in
  let Hp := fresh "Hp" in
  let Hv := fresh "Hv" in
  intros pos nd val Hp Hv;
  repeat (destruct pos as [|pos];
          [injection Hp as <-; cbn in Hv|cbn in Hp]);
  try done;
  repeat (apply elem_of_cons in Hv as [->|Hv]);
  try (by apply elem_of_nil in Hv);
  try (left; set_solver);
  right; eexists; (split; [reflexivity|lia]).

(** X10: both [symbolic] functions only append to the graph (the nodes
    already there stay where they are), append at least one and at most
    three (HardTanh) or two (ReLU) nodes, return the output of the last one,
    and wire every new node only to the arguments of the call or to a node
    appended before it; the ReLU nodes never use bias. *)
Theorem symbolic_appends_well_scoped input q thres bias scale g :
  (∃ new last,
     HT.symbolic input q thres bias scale g
     = (Out (length g + last), g ++ new)
     ∧ (1 ≤ length new ≤ 3)%nat
     ∧ S last = length new
     ∧ well_scoped ([input; thres] ++ given bias ++ given scale)
                   (length g) new)
  ∧ (∃ new last,
       RL.symbolic input q thres bias scale g
       = (Out (length g + last), g ++ new)
       ∧ (1 ≤ length new ≤ 2)%nat
       ∧ S last = length new
       ∧ well_scoped ([input; thres] ++ given scale) (length g) new).
Proof.
  split.
  - eexists _, _. split; [apply HT_symbolic_cases|].
    rewrite HT_emitted_cases.
    destruct (decide (q = "BIPOLAR")), bias, scale; cbn;
      (split; [lia|]); (split; [done|]); by scoped_cases.
  - eexists _, _. split; [apply RL_symbolic_run|].
    destruct scale; cbn; (split; [lia|]); (split; [done|]); scoped_cases.
Qed.

End ActMore.

Section ForwardMore.
Import Tensor.

Lemma clamp_min_elt_nonneg (x : Q) : (0 <= clamp_min_elt 0 x)%Q.
Proof.
  unfold clamp_min_elt. destruct (Qle_bool 0 x) eqn:E.
  - by apply Qle_bool_iff.
  - apply Qle_refl.
Qed.

Lemma clamp_min_elt_idem (x : Q) :
  clamp_min_elt 0 (clamp_min_elt 0 x) = clamp_min_elt 0 x.
Proof.
  unfold clamp_min_elt. destruct (Qle_bool 0 x) eqn:E; [by rewrite E|done].
Qed.

(** X11: the training-time result of both placeholders has the length of
    the input and no negative element, applying the function twice changes
    nothing more, and the HardTanh and ReLU placeholders compute the same
    tensor even when given different quantization arguments. *)
Theorem forward_nonneg_idempotent {Ctx : Type} (ctx : Ctx) (input : tensor)
    (q q' : string) (th th' : tensor) (b b' s s' : option tensor) :
  length (HT.forward ctx input q th b s) = length input
  ∧ Forall (λ x, (0 <= x)%Q) (HT.forward ctx input q th b s)
  ∧ HT.forward ctx (HT.forward ctx input q th b s) q' th' b' s'
    = HT.forward ctx input q th b s
  ∧ HT.forward ctx input q th b s = RL.forward ctx input q' th' b' s'.
Proof.
  unfold HT.forward, RL.forward, clamp, tensor.
  split; [by rewrite length_fmap|]. split; [|split; [|done]].
  - apply Forall_fmap, Forall_forall. intros x _. apply clamp_min_elt_nonneg.
  - rewrite <- list_fmap_compose. apply list_fmap_ext.
    intros _ x _. apply clamp_min_elt_idem.
Qed.

End ForwardMore.

(* ===================================================================== *)
(** * More about the training loop                                        *)
(* ===================================================================== *)

Section EpochInversion.
Import Trainer Run.
Variable env : Env.

Lemma emits_only_bind_Ok {A B} P (m : M A) (k : A → M B) :
  emits_only P m →
  (∀ a ev, m = (Ok a, ev) → emits_only P (k a)) →
  emits_only P (m ≫= k).
Proof.
  unfold emits_only. destruct m as [[a|e] ev1]; unfold mbind, M_bind; cbn.
  - intros H1 H2. specialize (H2 a ev1 eq_refl).
    destruct (k a) as [r ev2]; cbn in *. by apply Forall_app.
  - done.
Qed.

Lemma mkdirs_app (l1 l2 : list event) :
  mkdirs (l1 ++ l2) = mkdirs l1 ++ mkdirs l2.
Proof.
  induction l1 as [|e l1 IH]; [done|]. destruct e; cbn; by rewrite ?IH.
Qed.

Lemma saved_app (l1 l2 : list event) :
  saved (l1 ++ l2) = saved l1 ++ saved l2.
Proof.
  induction l1 as [|e l1 IH]; [done|]. destruct e; cbn; by rewrite ?IH.
Qed.

Lemma no_write_quiet (evs : list event) :
  Forall (λ e, is_write e = false) evs →
  mkdirs evs = [] ∧ saves evs = [] ∧ saved evs = [].
Proof.
  induction 1 as [|e evs He _ (H1 & H2 & H3)]; [done|].
  destruct e; try done.
Qed.

(** A turn of the batches that returns: what it needed and what it did. *)
Lemma train_epoch_Ok self epoch self' ev :
  train_epoch env self epoch = (Ok self', ev) →
  ∃ o,
    optimizer_ self = Some o
    ∧ Args.log_freq (args self) ≠ 0
    ∧ same_frame self self'
    ∧ trained ev = [epoch]
    ∧ Forall (λ e, is_write e = false) ev
    ∧ model self' = (train_batches env (model self) (ostate o) epoch).1
    ∧ match scheduler_ self with
      | Some sc =>
          scheduler_ self'
          = Some (mkScheduler (sched_milestones sc) (PInt epoch))
          ∧ optimizer_ self'
            = Some (mkOptimizer (okind o)
                      (step_lr env sc epoch
                         (mkOptimizer (okind o) (olr o)
                            (train_batches env (model self) (ostate o)
                               epoch).2))
                      (train_batches env (model self) (ostate o) epoch).2)
      | None =>
          scheduler_ self' = None
          ∧ optimizer_ self'
            = Some (mkOptimizer (okind o)
                      (if epoch `mod` 40 =? 0 then (olr o * (1 # 2))%Q
                       else olr o)
                      (train_batches env (model self) (ostate o) epoch).2)
      end.
Proof.
  unfold train_epoch.
  destruct (Batch.train_loop _ _ _ _ _ _) as [[]|e] eqn:Eloop.
  2:{ destruct (optimizer_ self); [|done]. cbn.
      by destruct (Args.log_freq (args self) =? 0). }
  destruct (optimizer_ self) as [o|] eqn:Ho; [|done]. cbn.
  destruct (Args.log_freq (args self) =? 0) eqn:Hlog; [done|].
  apply Z.eqb_neq in Hlog. cbn.
  destruct (train_batches env (model self) (ostate o) epoch) as [m st] eqn:Etb.
  cbn. destruct (scheduler_ self) as [sc|] eqn:Hsc; cbn.
  - intros [= <- <-]. exists o. rewrite Etb. cbn.
    repeat split; try done; repeat constructor.
  - destruct (epoch `mod` 40 =? 0); cbn; intros [= <- <-]; exists o;
      rewrite Etb; cbn; repeat split; try done; repeat constructor.
Qed.

(** ... and the batches it went through. *)
Lemma train_epoch_Ok_batches self epoch self' ev :
  train_epoch env self epoch = (Ok self', ev) →
  5 ≤ num_classes self
  ∧ Forall (Batch.fits (is_hinge (criterion_ self)))
      (Batch.logged_sizes (Args.log_freq (args self))
         (length (train_sizes env)) 0 (train_sizes env)).
Proof.
  unfold train_epoch.
  destruct (Batch.train_loop _ _ _ _ _ _) as [[]|e] eqn:Eloop.
  2:{ destruct (optimizer_ self); [|done]. cbn.
      by destruct (Args.log_freq (args self) =? 0). }
  intros _. apply train_loop_Ok_iff in Eloop.
  split; [|by eapply Forall_and_r].
  unfold train_sizes in Eloop. cbn [Batch.logged_sizes] in Eloop.
  rewrite logged_first in Eloop. by apply Forall_cons in Eloop as [[? _] _].
Qed.

Lemma checkpoint_best_cases self epoch name :
  checkpoint_best self epoch name
  = match checkpoints_dir_path self with
    | None => (Raise (AttributeError "checkpoints_dir_path"), [])
    | Some dir =>
        match optimizer_ self with
        | None =>
            (Raise (AttributeError "optimizer"),
             [Log "info" "Saving checkpoint model to {}"])
        | Some o => (Ok tt, checkpoint_events self o epoch dir name)
        end
    end.
Proof.
  unfold checkpoint_best.
  destruct (checkpoints_dir_path self) as [dir|]; [|done].
  by destruct (optimizer_ self).
Qed.

Local Opaque checkpoint_best.

(** An evaluation and checkpoint that returns. *)
Lemma eval_and_checkpoint_Ok self epoch self' ev :
  eval_and_checkpoint env self epoch = (Ok self', ev) →
  ∃ b,
    as_number (best_val_acc self) = Some b
    ∧ args self' = args self
    ∧ checkpoints_dir_path self' = checkpoints_dir_path self
    ∧ optimizer_ self' = optimizer_ self
    ∧ scheduler_ self' = scheduler_ self
    ∧ model self' = model self
    ∧ starting_epoch self' = starting_epoch self
    ∧ trained ev = []
    ∧ best_val_acc self'
      = (if Args.dry_run (args self) then best_val_acc self
         else new_best (eval_top1 env (model self)) (best_val_acc self))
    ∧ (Args.dry_run (args self) = true → ev = [EvalModel epoch])
    ∧ (Args.dry_run (args self) = false →
       ∃ dir o,
         checkpoints_dir_path self = Some dir
         ∧ optimizer_ self = Some o
         ∧ ev = EvalModel epoch
                :: checkpoint_events self' o epoch dir
                     (if Qle_bool b (eval_top1 env (model self))
                      then "best.tar" else "checkpoint.tar")).
Proof.
  unfold eval_and_checkpoint, eval_model.
  destruct (Batch.eval_loop _ _ _) as [[]|e] eqn:Eloop; [|done]. cbn.
  destruct (as_number (best_val_acc self)) as [b|] eqn:Hb.
  2:{ destruct (best_val_acc self); try done. }
  rewrite (ge_best_number _ _ _ Hb). unfold new_best. rewrite Hb. cbn.
  destruct (Args.dry_run (args self)) eqn:Hdry; cbn.
  { rewrite andb_false_r. intros [= <- <-]. exists b.
    repeat split; try done. }
  rewrite andb_true_r.
  destruct (Qle_bool b (eval_top1 env (model self))) eqn:Hle;
    rewrite checkpoint_best_cases; cbn;
    (destruct (checkpoints_dir_path self) as [dir|] eqn:Hd; [|done]);
    (destruct (optimizer_ self) as [o|] eqn:Ho; [|done]); cbn;
    intros [= <- <-]; exists b; rewrite Hle; repeat split; try done;
    intros _; by exists dir, o.
Qed.

(** ... the batches it went through, and what else it left alone. *)
Lemma eval_and_checkpoint_Ok_batches self epoch self' ev :
  eval_and_checkpoint env self epoch = (Ok self', ev) →
  Forall (λ n, 5 ≤ num_classes self
               ∧ Batch.fits (is_hinge (criterion_ self)) n)
    (test_sizes env)
  ∧ num_classes self' = num_classes self
  ∧ criterion_ self' = criterion_ self.
Proof.
  unfold eval_and_checkpoint, eval_model.
  destruct (Batch.eval_loop _ _ _) as [[]|e] eqn:Eloop; [|done].
  apply eval_loop_Ok_iff in Eloop. cbn.
  destruct (ge_best _ _) as [ge|]; [|done]. cbn.
  destruct (ge && negb (Args.dry_run (args self))).
  { rewrite checkpoint_best_cases. cbn.
    destruct (checkpoints_dir_path self); [|done].
    destruct (optimizer_ self); [|done]. by intros [= <- _]. }
  destruct (negb (Args.dry_run (args self))); [|by intros [= <- _]].
  rewrite checkpoint_best_cases.
  destruct (checkpoints_dir_path self); [|done].
  destruct (optimizer_ self); [|done]. by intros [= <- _].
Qed.

Local Transparent checkpoint_best.

End EpochInversion.

Section RunInversion.
Import Trainer Run.
Variable env : Env.

Lemma epoch_body_Ok self epoch self2 ev :
  epoch_body env self epoch = (Ok self2, ev) →
  ∃ self1 ev1 ev2,
    train_epoch env self epoch = (Ok self1, ev1)
    ∧ eval_and_checkpoint env self1 epoch = (Ok self2, ev2)
    ∧ ev = ev1 ++ ev2.
Proof. unfold epoch_body. apply bind_inv_Ok. Qed.

Lemma for_epochs_cons_Ok epoch rest self self' ev :
  for_epochs env (epoch :: rest) self = (Ok self', ev) →
  ∃ self2 ev1 ev2,
    epoch_body env self epoch = (Ok self2, ev1)
    ∧ for_epochs env rest self2 = (Ok self', ev2)
    ∧ ev = ev1 ++ ev2.
Proof. cbn. apply bind_inv_Ok. Qed.

Lemma train_model_unfold self :
  train_model env self
  = match starting_epoch self with
    | PInt start =>
        match for_epochs env (py_range start (Args.epochs (args self))) self
        with
        | (Ok self', evs) =>
            if Args.dry_run (args self') then
              (Ok (self', None), prelude self ++ evs)
            else
              match checkpoints_dir_path self' with
              | Some dir =>
                  (Ok (self', Some (OsPath.join dir "best.tar")),
                   prelude self ++ evs)
              | None =>
                  (Raise (AttributeError "checkpoints_dir_path"),
                   prelude self ++ evs)
              end
        | (Raise e, evs) => (Raise e, prelude self ++ evs)
        end
    | _ =>
        (Raise (TypeError "cannot be interpreted as an integer"),
         prelude self)
    end.
Proof.
  unfold train_model, prelude.
  assert (Hpre : (if Args.detect_nan (args self)
                  then emit SetDetectAnomaly else mret tt)
                 = (Ok tt, if Args.detect_nan (args self)
                           then [SetDetectAnomaly] else [])).
  { by destruct (Args.detect_nan (args self)). }
  rewrite (bind_Ok _ _ _ _ Hpre). cbv beta.
  destruct (starting_epoch self) as [start| | | |];
    try (cbn; by rewrite app_nil_r).
  rewrite ret_bind.
  destruct (for_epochs env (py_range start (Args.epochs (args self))) self)
    as [[self'|e] evs]; [|done].
  rewrite (bind_Ok (Ok self', evs) _ self' evs eq_refl). cbv beta.
  destruct (Args.dry_run (args self')); cbn; [by rewrite app_nil_r|].
  destruct (checkpoints_dir_path self'); cbn; by rewrite app_nil_r.
Qed.

End RunInversion.

Section DryRun.
Import Trainer Run.
Variable env : Env.

Lemma train_epoch_quiet self epoch :
  emits_only (λ e, is_write e = false) (train_epoch env self epoch).
Proof. unfold train_epoch. emits. Qed.

Lemma eval_and_checkpoint_quiet self epoch :
  Args.dry_run (args self) = true →
  emits_only (λ e, is_write e = false) (eval_and_checkpoint env self epoch).
Proof.
  intros Hdry. unfold eval_and_checkpoint, eval_model. rewrite Hdry.
  destruct (Batch.eval_loop _ _ _) as [[]|e]; cbn; [|by repeat constructor].
  destruct (ge_best _ _) as [g|]; cbn; [|by repeat constructor].
  rewrite andb_false_r. by repeat constructor.
Qed.

Lemma for_epochs_dry epochs : ∀ self,
  Args.dry_run (args self) = true →
  emits_only (λ e, is_write e = false) (for_epochs env epochs self)
  ∧ ∀ self' ev, for_epochs env epochs self = (Ok self', ev) →
      args self' = args self ∧ best_val_acc self' = best_val_acc self.
Proof.
  induction epochs as [|epoch rest IH]; intros self Hdry.
  - split; [constructor|]. by intros ?? [= <- <-].
  - assert (Hstep : ∀ self2 ev, epoch_body env self epoch = (Ok self2, ev) →
               args self2 = args self
               ∧ best_val_acc self2 = best_val_acc self).
    { intros self2 ev (self1 & ev1 & ev2 & E1 & E2 & _)%epoch_body_Ok.
      apply train_epoch_Ok in E1 as (_ & _ & _ & (Ea & _ & Eb & _) & _).
      apply eval_and_checkpoint_Ok in E2
        as (_ & _ & Ea2 & _ & _ & _ & _ & _ & _ & Eb2 & _).
      rewrite Ea, Hdry in Eb2. split; congruence. }
    split.
    + cbn. apply emits_only_bind_Ok.
      * unfold epoch_body. apply emits_only_bind_Ok;
          [apply train_epoch_quiet|].
        intros self1 ev1 E1. apply eval_and_checkpoint_quiet.
        apply train_epoch_Ok in E1 as (_ & _ & _ & (Ea & _) & _). congruence.
      * intros self2 ev E. destruct (Hstep _ _ E) as [Ea _].
        apply IH. congruence.
    + intros self' ev (self2 & ev1 & ev2 & E & Erest & _)%for_epochs_cons_Ok.
      destruct (Hstep _ _ E) as [Ea Eb].
      destruct (proj2 (IH self2 ltac:(congruence)) _ _ Erest). split; congruence.
Qed.

(** X12: with args.dry_run set, [train_model] never writes anything,
    whatever happens (no directory, no checkpoint, no ONNX export); when it
    returns, it returns None and best_val_acc is what it was before the run:
    a dry run does not even keep track of the best accuracy. *)
Theorem train_model_dry_run self :
  Args.dry_run (args self) = true →
  emits_only (λ e, is_write e = false) (train_model env self)
  ∧ ∀ self' ret evs,
      train_model env self = (Ok (self', ret), evs) →
      ret = None
      ∧ best_val_acc self' = best_val_acc self
      ∧ saves evs = [].
Proof.
  intros Hdry.
  assert (Hq : emits_only (λ e, is_write e = false) (train_model env self)).
  { rewrite train_model_unfold. unfold emits_only, prelude.
    destruct (starting_epoch self) as [start| | | |];
      try (destruct (Args.detect_nan (args self)); by repeat constructor).
    destruct (for_epochs_dry (py_range start (Args.epochs (args self)))
                self Hdry) as [Hev _].
    unfold emits_only in Hev.
    destruct (for_epochs env _ self) as [[self'|e] evs]; cbn in *.
    - destruct (Args.dry_run (args self')); [|destruct (checkpoints_dir_path _)];
        cbn; apply Forall_app; split; try done;
        destruct (Args.detect_nan (args self)); by repeat constructor.
    - apply Forall_app; split; try done;
        destruct (Args.detect_nan (args self)); by repeat constructor. }
  split; [done|]. intros self' ret evs H.
  assert (Hs : saves evs = []).
  { unfold emits_only in Hq. rewrite H in Hq.
    by apply no_write_quiet in Hq as (_ & ? & _). }
  rewrite train_model_unfold in H.
  destruct (starting_epoch self) as [start| | | |]; try done.
  destruct (for_epochs_dry (py_range start (Args.epochs (args self)))
              self Hdry) as [_ Hfr].
  destruct (for_epochs env _ self) as [[self2|e] evs2]; [|done].
  destruct (Hfr _ _ eq_refl) as [Ea Eb]. rewrite Ea, Hdry in H.
  by injection H as <- <- _.
Qed.

End DryRun.

Section CheckpointContent.
Import Trainer Run.
Variable env : Env.

Lemma new_best_ge (top1avg : Q) (best : pyval) (b : Q) :
  as_number best = Some b →
  best_le (PFloat top1avg) (new_best top1avg best)
  ∧ best_le best (new_best top1avg best).
Proof.
  intros Hb. unfold new_best, best_le. rewrite Hb.
  destruct (Qle_bool b top1avg) eqn:E; cbn; rewrite ?Hb.
  - apply Qle_bool_iff in E. split; [apply Qle_refl|done].
  - split; [|apply Qle_refl]. apply Qlt_le_weak, Qnot_le_lt.
    intros H%Qle_bool_iff. congruence.
Qed.

(** X13: when an epoch's evaluation and checkpoint return with
    args.dry_run false, exactly one dictionary has been saved; it holds the
    model as evaluated under 'state_dict', epoch + 1 under 'epoch', and under
    'best_val_acc' the best accuracy after this epoch, which is the larger
    of the previous best and this epoch's top-1 average: the checkpoint file
    never records less than the accuracy of the model it stores. *)
Theorem checkpoint_records_best self epoch self' ev :
  eval_and_checkpoint env self epoch = (Ok self', ev) →
  Args.dry_run (args self) = false →
  ∃ obj,
    saved ev = [obj]
    ∧ obj !! "state_dict" = Some (PState (model self))
    ∧ obj !! "epoch" = Some (PInt (epoch + 1))
    ∧ obj !! "best_val_acc" = Some (best_val_acc self')
    ∧ best_val_acc self' = new_best (eval_top1 env (model self))
                                    (best_val_acc self)
    ∧ best_le (PFloat (eval_top1 env (model self))) (best_val_acc self')
    ∧ best_le (best_val_acc self) (best_val_acc self').
Proof.
  intros H Hdry.
  apply eval_and_checkpoint_Ok in H
    as (b & Hb & _ & _ & _ & _ & Em & _ & _ & Ebest & _ & Hev).
  destruct (Hev Hdry) as (dir & o & _ & _ & ->).
  rewrite Hdry in Ebest.
  exists (checkpoint_dict self' o epoch).
  split; [done|]. split; [by rewrite <- Em|].
  do 3 (split; [done|]).
  rewrite Ebest. by apply (new_best_ge _ _ b).
Qed.

(** X14: [checkpoint_best] is all or nothing.  It returns exactly when the
    object has both its checkpoint directory and its optimizer, after one
    [torch.save] followed by one ONNX export; otherwise it raises
    AttributeError having written nothing. *)
Theorem checkpoint_best_all_or_nothing self (epoch : Z) (name : string) :
  ((∃ evs, checkpoint_best self epoch name = (Ok tt, evs))
   ↔ is_Some (checkpoints_dir_path self) ∧ is_Some (optimizer_ self))
  ∧ ∀ r evs, checkpoint_best self epoch name = (r, evs) →
      match r with
      | Ok _ =>
          ∃ obj path model onnx shape,
            filter (λ e, is_write e = true) evs
            = [TorchSave obj path; ExportOnnx model onnx shape]
      | Raise e =>
          (e = AttributeError "checkpoints_dir_path"
           ∨ e = AttributeError "optimizer")
          ∧ Forall (λ e, is_write e = false) evs
      end.
Proof.
  rewrite checkpoint_best_cases.
  destruct (checkpoints_dir_path self) as [dir|].
  2:{ split.
      - split; [by intros [? ?]|]. by intros [[? ?] _].
      - intros r evs [= <- <-]. split; [by left|constructor]. }
  destruct (optimizer_ self) as [o|].
  2:{ split.
      - split; [by intros [? ?]|]. by intros [_ [? ?]].
      - intros r evs [= <- <-]. split; [by right|by repeat constructor]. }
  split.
  - split; [by split; eexists|by eexists].
  - intros r evs [= <- <-]. by eexists _, _, _, _, _.
Qed.

End CheckpointContent.

Section LearningRate.
Import Trainer Run.
Variable env : Env.

Lemma halvings_cons (epoch : Z) (rest : list Z) :
  halvings (epoch :: rest)
  = (if epoch `mod` 40 =? 0 then S (halvings rest) else halvings rest).
Proof.
  unfold halvings. destruct (epoch `mod` 40 =? 0) eqn:E.
  - apply Z.eqb_eq in E. by rewrite filter_cons_True.
  - apply Z.eqb_neq in E. by rewrite filter_cons_False.
Qed.

Lemma halved_step (n : nat) (lr : Q) :
  halved n (lr * (1 # 2))%Q = halved (S n) lr.
Proof. unfold halved. by rewrite Nat.iter_succ_r. Qed.

Lemma for_epochs_lr epochs : ∀ self self' ev o,
  for_epochs env epochs self = (Ok self', ev) →
  optimizer_ self = Some o →
  ∃ o',
    optimizer_ self' = Some o'
    ∧ okind o' = okind o
    ∧ match scheduler_ self with
      | None =>
          scheduler_ self' = None
          ∧ olr o' = halved (halvings epochs) (olr o)
      | Some sc =>
          ∃ sc', scheduler_ self' = Some sc'
                 ∧ sched_milestones sc' = sched_milestones sc
                 ∧ last_epoch sc'
                   = from_option PInt (last_epoch sc) (last epochs)
      end.
Proof.
  induction epochs as [|epoch rest IH]; intros self self' ev o H Ho.
  - injection H as <- <-. exists o. split; [done|]. split; [done|].
    destruct (scheduler_ self) as [sc|]; [|done].
    by exists sc.
  - apply for_epochs_cons_Ok in H as (self2 & ev1 & ev2 & E & Erest & _).
    apply epoch_body_Ok in E as (self1 & ev3 & ev4 & E1 & E2 & _).
    apply train_epoch_Ok in E1 as (o1 & Ho1 & _ & _ & _ & _ & _ & Hsched).
    assert (o1 = o) as -> by congruence.
    apply eval_and_checkpoint_Ok in E2
      as (_ & _ & _ & _ & Eo & Es & _).
    destruct (scheduler_ self) as [sc|] eqn:Hsc.
    + destruct Hsched as [Hs1 Ho1'].
      rewrite Ho1' in Eo. rewrite Hs1 in Es.
      destruct (IH _ _ _ _ Erest Eo) as (o' & Ho' & Hk & Hrest).
      rewrite Es in Hrest. destruct Hrest as (sc' & Hsc' & Hm & Hl).
      exists o'. split; [done|]. split; [done|].
      exists sc'. split; [done|]. split; [done|].
      rewrite Hl, last_cons. cbn. by destruct (last rest).
    + destruct Hsched as [Hs1 Ho1'].
      rewrite Ho1' in Eo. rewrite Hs1 in Es.
      destruct (IH _ _ _ _ Erest Eo) as (o' & Ho' & Hk & Hrest).
      rewrite Es in Hrest. destruct Hrest as (Hnone & Hlr).
      exists o'. split; [done|]. split; [done|]. split; [done|].
      rewrite Hlr, halvings_cons. cbn.
      destruct (epoch `mod` 40 =? 0); [apply halved_step|done].
Qed.

(** X15: with no scheduler ('FIXED'), a run of [train_model] that returns
    leaves the optimizer with its initial learning rate halved once for
    every trained epoch divisible by 40, and still has no scheduler. *)
Theorem train_model_learning_rate self self' ret evs o start :
  train_model env self = (Ok (self', ret), evs) →
  optimizer_ self = Some o →
  starting_epoch self = PInt start →
  scheduler_ self = None →
  ∃ o',
    optimizer_ self' = Some o'
    ∧ okind o' = okind o
    ∧ scheduler_ self' = None
    ∧ olr o'
      = halved (halvings (py_range start (Args.epochs (args self))))
               (olr o).
Proof.
  intros H Ho Hs Hnone. rewrite train_model_unfold, Hs in H.
  destruct (for_epochs env _ self) as [[self2|e] evs2] eqn:E; [|done].
  assert (self2 = self') as ->.
  { destruct (Args.dry_run (args self2)); [by injection H|].
    destruct (checkpoints_dir_path self2); [by injection H|done]. }
  destruct (for_epochs_lr _ _ _ _ _ E Ho) as (o' & Ho' & Hk & Hrest).
  rewrite Hnone in Hrest. destruct Hrest as [? ?].
  by exists o'.
Qed.

End LearningRate.

Section DryRunWitness.
Import Trainer Run.

Lemma train_model_dry_run_witness :
  ∃ self' evs,
    train_model Demo.env Variants.dry_trainer = (Ok (self', None), evs)
    ∧ best_val_acc self' = PInt 0
    ∧ saves evs = [].
Proof.
  assert (∃ self' ret evs,
            train_model Demo.env Variants.dry_trainer
            = (Ok (self', ret), evs)) as (self' & ret & evs & E).
  { eexists _, _, _. vm_compute. reflexivity. }
  destruct (proj2 (train_model_dry_run Demo.env Variants.dry_trainer eq_refl)
              self' ret evs E) as (-> & Hb & Hs).
  exists self', evs. split; [exact E|]. split; [exact Hb|exact Hs].
Defined.

End DryRunWitness.

Section TrainModelReturns.
Import Trainer Run.
Variable env : Env.

Lemma py_range_cons (start stop : Z) :
  start < stop → py_range start stop = start :: py_range (start + 1) stop.
Proof.
  intros H. unfold py_range. rewrite seqZ_cons by lia.
  f_equal. f_equal; lia.
Qed.

Lemma first_epoch_needs self epoch rest self' ev :
  for_epochs env (epoch :: rest) self = (Ok self', ev) → trainable env self.
Proof.
  intros H.
  apply for_epochs_cons_Ok in H as (self2 & ev1 & ev2 & E & _ & _).
  apply epoch_body_Ok in E as (self1 & ev3 & ev4 & E1 & E2 & _).
  pose proof (train_epoch_Ok_batches env _ _ _ _ E1) as [Hc Htrain].
  pose proof (eval_and_checkpoint_Ok_batches env _ _ _ _ E2) as (Htest & _).
  apply train_epoch_Ok in E1
    as (o & Ho & Hlog & (Ea & Ec & Eb & _ & _ & _ & En & Ecr) & _).
  apply eval_and_checkpoint_Ok in E2
    as (b & Hb & _ & _ & _ & _ & _ & _ & _ & _ & _ & Hev).
  split; [by eexists|]. split; [rewrite <- Eb; by eexists|].
  split; [done|]. split.
  - intros Hdry. rewrite <- Ea in Hdry.
    destruct (Hev Hdry) as (dir & ? & Hd & _). rewrite <- Ec. by eexists.
  - split; [done|]. split; [done|].
    rewrite Ecr in Htest. by eapply Forall_and_r.
Qed.

(** X16: when at least one epoch is left to train (starting_epoch is an
    int below args.epochs), [train_model] returns exactly on the objects
    that have an optimizer, a numeric best_val_acc, a log frequency that is
    not zero, unless args.dry_run a checkpoint directory, and batches that
    fit: at least five classes (the loops ask for topk=(1, 5)), no empty
    batch among the training batches whose precision is logged and the
    test batches, and with SqrHingeLoss none of them of one sample (the
    target then loses its batch dimension and [accuracy] raises
    IndexError). On every other object it raises. *)
Theorem train_model_returns_iff self start :
  starting_epoch self = PInt start →
  start < Args.epochs (args self) →
  (∃ self' ret evs, train_model env self = (Ok (self', ret), evs))
  ↔ trainable env self.
Proof.
  intros Hs Hlt. split.
  - intros (self' & ret & evs & H).
    rewrite train_model_unfold, Hs, (py_range_cons _ _ Hlt) in H.
    destruct (for_epochs env _ self) as [[self2|e] evs2] eqn:E; [|done].
    by eapply first_epoch_needs.
  - intros Ht.
    destruct (for_epochs_run env
                (py_range start (Args.epochs (args self))) self Ht)
      as (self' & evs & E & Ht' & Ea & Ec & _).
    eexists self', _, _.
    apply (train_model_run env self start self' evs Hs E Ea).
    intros Hdry. rewrite Ec. by apply Ht.
Qed.

Lemma resume_optimizer_None a package se bva opt se' bva' ev :
  resume_optimizer env a package None se bva = (Ok (opt, se', bva'), ev) →
  opt = None.
Proof.
  unfold resume_optimizer.
  destruct (truthy (Args.resume a) && negb (Args.evaluate a));
    [|by intros [= <- _ _ _]].
  destruct package as [p|]; [|done]. cbn.
  destruct (p !! "optim_dict"); [done|]. by intros [= <- _ _ _].
Qed.

Lemma make_scheduler_None a sc ev :
  make_scheduler env a None = (Ok sc, ev) → Args.scheduler a = "FIXED".
Proof.
  unfold make_scheduler. case_decide.
  { by destruct (parse_int_list env (Args.milestones a)). }
  by case_decide.
Qed.

Lemma train_model_no_optimizer self start :
  optimizer_ self = None →
  starting_epoch self = PInt start →
  start < Args.epochs (args self) →
  train_model env self = (Raise (AttributeError "optimizer"), prelude self).
Proof.
  intros Ho Hs Hlt.
  rewrite train_model_unfold, Hs, (py_range_cons _ _ Hlt).
  assert (epoch_body env self start = (Raise (AttributeError "optimizer"), []))
    as E.
  { unfold epoch_body, train_epoch. by rewrite Ho. }
  cbn [for_epochs]. rewrite (bind_Raise _ _ _ _ E). by rewrite app_nil_r.
Qed.

(** X17: an args.optim other than 'ADAM' and 'SGD' is not rejected by
    [__init__]: when the constructor returns, args.scheduler is 'FIXED' and
    the object has no optimizer; [train_model] on it then raises
    AttributeError in the first batch of its first epoch, before an epoch
    is completed or a file written. *)
Theorem unknown_optimizer_fails_in_training a self evs :
  __init__ env a = (Ok self, evs) →
  Args.optim a ∉ ["ADAM"; "SGD"] →
  optimizer_ self = None
  ∧ Args.scheduler a = "FIXED"
  ∧ ∀ start,
      starting_epoch self = PInt start → start < Args.epochs a →
      train_model env self
      = (Raise (AttributeError "optimizer"),
         if Args.detect_nan a then [SetDetectAnomaly] else []).
Proof.
  intros H Hopt.
  destruct (init_stages _ _ _ _ H)
    as (opt0 & builder & model0 & gpus & pkg & sc0 & ev1 & ev2 & ev3 & ev4
        & ev5 & ev6 & ev7 & ev8 & ev9 & ev10 & _ & _ & _ & _ & _ & _ & _ & E8
        & E9 & _ & Ea & _ & Hsch).
  assert (make_optimizer a = None) as Hnone.
  { unfold make_optimizer. repeat case_decide; try done.
    - exfalso. apply Hopt. apply elem_of_cons. by left.
    - exfalso. apply Hopt. apply elem_of_cons. right.
      apply elem_of_cons. by left. }
  rewrite Hnone in E8. apply resume_optimizer_None in E8.
  rewrite E8 in E9, Hsch. apply make_scheduler_None in E9.
  rewrite scheduled_None in Hsch.
  split; [done|]. split; [done|].
  intros start Hs Hlt. rewrite <- Ea in *.
  exact (train_model_no_optimizer self start Hsch Hs Hlt).
Qed.

(** X25: with a SqrHingeLoss, a batch of one sample stops [train_model]
    when at least one epoch is left to train: [target.squeeze()] leaves the
    labels of such a batch without a dimension and [accuracy] raises
    IndexError at [target.size(0)]. When the first training batch has one
    sample (--batch_size 1), an object with an optimizer and a log
    frequency that is not zero raises it in the first batch, before an
    epoch is trained or a file written; when a test batch has one sample
    (10000 test images with --batch_size 11), [train_model] does not
    return. *)
Theorem one_sample_batch_raises self start :
  starting_epoch self = PInt start →
  start < Args.epochs (args self) →
  criterion_ self = SqrHingeLoss →
  (train_first env = 1%nat →
   is_Some (optimizer_ self) →
   Args.log_freq (args self) ≠ 0 →
   train_model env self
   = (Raise (IndexError
               "Dimension specified but tensor has no such dimension"),
      prelude self))
  ∧ (1%nat ∈ test_sizes env →
     ¬ ∃ self' ret evs, train_model env self = (Ok (self', ret), evs)).
Proof.
  intros Hs Hlt Hcr. split.
  - intros Hfirst [o Ho] Hlog.
    rewrite train_model_unfold, Hs, (py_range_cons _ _ Hlt).
    assert (epoch_body env self start
            = (Raise (IndexError
                 "Dimension specified but tensor has no such dimension"), []))
      as E.
    { unfold epoch_body, train_epoch, train_sizes.
      rewrite Ho, Hcr, Hfirst. cbn [Batch.train_loop].
      rewrite logged_first, measured_batch_cases.
      apply Z.eqb_neq in Hlog. by rewrite Hlog. }
    cbn [for_epochs]. rewrite (bind_Raise _ _ _ _ E). by rewrite app_nil_r.
  - intros Hin (self' & ret & evs & H).
    rewrite train_model_unfold, Hs, (py_range_cons _ _ Hlt) in H.
    destruct (for_epochs env _ self) as [[self2|e] evs2] eqn:E; [|done].
    apply first_epoch_needs in E as (_ & _ & _ & _ & _ & _ & Htest).
    rewrite Forall_forall in Htest. destruct (Htest _ Hin) as [_ Hone].
    rewrite Hcr in Hone. by apply Hone.
Qed.

End TrainModelReturns.

Section InitDirectories.
Import Trainer Run.
Variable env : Env.

Lemma init_paths_Ok a odp cdp ev :
  init_paths env a = (Ok (odp, cdp), ev) →
  cdp = (if Args.dry_run a then None
         else Some (OsPath.join odp "checkpoints"))
  ∧ mkdirs ev
    = (if Args.dry_run a || truthy (Args.resume a) then []
       else [odp; OsPath.join odp "checkpoints"]).
Proof.
  unfold init_paths.
  destruct (Args.dry_run a); cbn -[OsPath.join OsPath.split].
  { destruct (logger_ok env _ _); cbn -[OsPath.join OsPath.split];
      by intros [= <- <- <-]. }
  destruct (truthy (Args.resume a)); cbn -[OsPath.join OsPath.split].
  { destruct (logger_ok env _ _); cbn -[OsPath.join OsPath.split];
      by intros [= <- <- <-]. }
  unfold mbind, M_bind, emit, raise, mret, M_ret.
  repeat match goal with
         | |- context [if ?b then _ else _] => destruct b
         end; cbn -[OsPath.join OsPath.split]; by intros [= <- <- <-].
Qed.

Lemma init_paths_dry a :
  Args.dry_run a = true →
  emits_only (λ e, is_mkdir e = false) (init_paths env a).
Proof.
  intros Hdry. unfold init_paths. rewrite Hdry.
  cbn -[OsPath.join OsPath.split].
  destruct (logger_ok env _ _); by repeat constructor.
Qed.

Lemma no_mkdir_mkdirs (evs : list event) :
  Forall (λ e, is_mkdir e = false) evs → mkdirs evs = [].
Proof. induction 1 as [|e evs He _ IH]; [done|]. by destruct e. Qed.

Lemma init_mkdirs a self evs ev1 :
  __init__ env a = (Ok self, evs) →
  init_paths env a
  = (Ok (output_dir_path self, checkpoints_dir_path self), ev1) →
  mkdirs evs = mkdirs ev1.
Proof.
  intros H E1. unfold __init__ in H.
  rewrite (bind_Ok _ _ _ _ E1) in H.
  injection H as _ <-. rewrite mkdirs_app.
  match goal with
  | |- _ ++ mkdirs ?l = _ => assert (mkdirs l = []) as ->
  end.
  { apply no_mkdir_mkdirs.
    exact (rest_no_mkdir env a (output_dir_path self)
             (checkpoints_dir_path self)). }
  by rewrite app_nil_r.
Qed.

(** X18: the directories of [__init__].  In a dry run the constructor
    makes no [os.mkdir] call, whatever its outcome.  When it returns,
    checkpoints_dir_path is set exactly when args.dry_run is false, to
    'checkpoints' under output_dir_path; the directories created are
    output_dir_path and then checkpoints_dir_path for a fresh run that is
    not dry, and none otherwise; for a fresh run output_dir_path is
    '<dataset>_<network>_<timestamp>' under args.experiments. *)
Theorem init_directories a :
  (Args.dry_run a = true →
   emits_only (λ e, is_mkdir e = false) (__init__ env a))
  ∧ ∀ self evs,
      __init__ env a = (Ok self, evs) →
      checkpoints_dir_path self
      = (if Args.dry_run a then None
         else Some (OsPath.join (output_dir_path self) "checkpoints"))
      ∧ mkdirs evs
        = (if Args.dry_run a || truthy (Args.resume a) then []
           else [output_dir_path self;
                 OsPath.join (output_dir_path self) "checkpoints"])
      ∧ (truthy (Args.resume a) = false →
         output_dir_path self
         = OsPath.join (Args.experiments a)
             (Args.dataset a +:+ "_" +:+ Args.network a +:+ "_"
              +:+ now env)).
Proof.
  split.
  - intros Hdry. unfold __init__. apply emits_only_bind.
    + by apply init_paths_dry.
    + intros [odp cdp]. apply rest_no_mkdir.
  - intros self evs H.
    destruct (init_stages _ _ _ _ H)
      as (opt0 & builder & model0 & gpus & pkg & sc0 & ev1 & ev2 & ev3 & ev4
          & ev5 & ev6 & ev7 & ev8 & ev9 & ev10 & E1 & _).
    destruct (init_paths_Ok _ _ _ _ E1) as [Hc Hm].
    split; [done|]. split.
    + by rewrite (init_mkdirs _ _ _ _ H E1).
    + intros Hr. by apply (init_paths_fresh env a Hr _ _ _ E1).
Qed.

Lemma for_epochs_frame epochs : ∀ self self' ev,
  for_epochs env epochs self = (Ok self', ev) →
  args self' = args self
  ∧ checkpoints_dir_path self' = checkpoints_dir_path self.
Proof.
  induction epochs as [|epoch rest IH]; intros self self' ev H.
  - by injection H as <- _.
  - apply for_epochs_cons_Ok in H as (self2 & ev1 & ev2 & E & Erest & _).
    apply epoch_body_Ok in E as (self1 & ev3 & ev4 & E1 & E2 & _).
    apply train_epoch_Ok in E1 as (_ & _ & _ & (Ea & Ec & _) & _).
    apply eval_and_checkpoint_Ok in E2 as (_ & _ & Ea2 & Ec2 & _).
    destruct (IH _ _ _ Erest) as [Ea3 Ec3]. split; congruence.
Qed.

Lemma train_model_returned_path self self' path evs :
  train_model env self = (Ok (self', Some path), evs) →
  ∃ dir, checkpoints_dir_path self = Some dir
         ∧ path = OsPath.join dir "best.tar".
Proof.
  intros H. rewrite train_model_unfold in H.
  destruct (starting_epoch self) as [start| | | |]; try done.
  destruct (for_epochs env _ self) as [[self2|e] evs2] eqn:E; [|done].
  destruct (for_epochs_frame _ _ _ _ E) as [_ Ec].
  destruct (Args.dry_run (args self2)); [done|].
  destruct (checkpoints_dir_path self2) as [dir|]; [|done].
  injection H as _ <- _. by exists dir.
Qed.

(** X19: the path [train_model] returns can be passed back as
    args.resume.  If the first object was built by a fresh [__init__] (its
    checkpoint directory is 'checkpoints' under an output_dir_path that is
    not empty and does not end in '/'), the resuming [__init__] finds the
    same output_dir_path and the same checkpoint directory from the path
    alone and creates no directory. *)
Theorem resume_from_returned_path self self' path evs a2 self2 evs2 :
  train_model env self = (Ok (self', Some path), evs) →
  checkpoints_dir_path self
  = Some (OsPath.join (output_dir_path self) "checkpoints") →
  output_dir_path self ≠ "" →
  OsPath.endswith_sep (list_ascii_of_string (output_dir_path self)) = false →
  Args.resume a2 = Some path →
  __init__ env a2 = (Ok self2, evs2) →
  path = output_dir_path self +:+ "/checkpoints/best.tar"
  ∧ output_dir_path self2 = output_dir_path self
  ∧ (Args.dry_run a2 = false →
     checkpoints_dir_path self2 = checkpoints_dir_path self)
  ∧ mkdirs evs2 = [].
Proof.
  intros H Hc Hne He Hr H2.
  apply train_model_returned_path in H as (dir & Hd & ->).
  rewrite Hc in Hd. injection Hd as <-.
  rewrite (join_plain (output_dir_path self) "checkpoints" Hne He eq_refl)
    in *.
  assert (Hpath : OsPath.join (output_dir_path self +:+ "/" +:+ "checkpoints")
                    "best.tar"
                  = output_dir_path self +:+ "/" +:+ "checkpoints" +:+ "/"
                    +:+ "best.tar").
  { rewrite join_plain; [by rewrite !append_assoc| |
      |reflexivity].
    - by destruct (output_dir_path self).
    - rewrite list_ascii_of_string_app.
      change (list_ascii_of_string ("/" +:+ "checkpoints"))
        with ([OsPath.sep] ++ list_ascii_of_string "checkpoints").
      rewrite app_assoc, endswith_sep_app; [reflexivity|discriminate]. }
  rewrite Hpath in *.
  assert (Hne2 : output_dir_path self +:+ "/" +:+ "checkpoints" +:+ "/"
                 +:+ "best.tar" ≠ "").
  { by destruct (output_dir_path self). }
  destruct (init_stages _ _ _ _ H2)
    as (opt0 & builder & model0 & gpus & pkg & sc0 & ev1 & ev2 & ev3 & ev4
        & ev5 & ev6 & ev7 & ev8 & ev9 & ev10 & E1 & _).
  pose proof (proj2 (init_paths_resume env a2 _ Hr Hne2) _ _ _ E1) as Ho.
  rewrite split_split_grandparent in Ho by done.
  destruct (init_paths_Ok _ _ _ _ E1) as [Hc2 Hm].
  rewrite (init_mkdirs _ _ _ _ H2 E1), Hm, Hr, (truthy_Some _ Hne2),
    orb_true_r.
  split; [reflexivity|].
  split; [done|]. split; [|done].
  intros Hdry. rewrite Hc2, Hdry, Ho, Hc.
  by rewrite (join_plain (output_dir_path self) "checkpoints" Hne He eq_refl).
Qed.

End InitDirectories.

Section RoundTrip.
Import Trainer Run.
Variable env : Env.

Lemma checkpoint_best_saves self epoch name evs obj path :
  checkpoint_best self epoch name = (Ok tt, evs) →
  TorchSave obj path ∈ evs →
  ∃ o dir, optimizer_ self = Some o
           ∧ checkpoints_dir_path self = Some dir
           ∧ obj = checkpoint_dict self o epoch
           ∧ path = OsPath.join dir name.
Proof.
  rewrite checkpoint_best_cases.
  destruct (checkpoints_dir_path self) as [dir|]; [|done].
  destruct (optimizer_ self) as [o|]; [|done].
  intros [= <-] Hin. exists o, dir. do 2 (split; [done|]).
  unfold checkpoint_events in Hin.
  repeat (apply elem_of_cons in Hin as [Hin|Hin]; [try discriminate Hin|]).
  - by injection Hin as -> ->.
  - by apply elem_of_nil in Hin.
Qed.

Lemma resume_scheduler_inv a package sc0 sc ev (z : Z) :
  truthy (Args.resume a) && negb (Args.evaluate a) = true →
  package !! "epoch" = Some (PInt z) →
  resume_scheduler a (Some package) sc0 = (Ok sc, ev) →
  ∀ s, sc = Some s → last_epoch s = PInt (z - 1).
Proof.
  intros Hc Hz. unfold resume_scheduler.
  destruct sc0 as [s0|]; [|by intros [= <- _] s].
  rewrite Hc. cbn. rewrite Hz. by intros [= <- _] s [= <-].
Qed.

(** X20: save and resume.  A dictionary written by [checkpoint_best] for
    epoch [epoch], read back by [torch.load] from the path given as
    args.resume (args.evaluate false), makes [__init__] build an object
    whose starting_epoch is [epoch + 1], whose best_val_acc is the saved
    one, whose model has loaded the saved model state, whose optimizer has
    loaded the saved optimizer state and whose scheduler, if any, has
    last_epoch [epoch]: training continues with the epoch after the saved
    one. *)
Theorem checkpoint_resume_round_trip self epoch name evs obj path a self2 evs2 :
  checkpoint_best self epoch name = (Ok tt, evs) →
  TorchSave obj path ∈ evs →
  torch_load env path = Some obj →
  path ≠ "" →
  Args.resume a = Some path →
  Args.evaluate a = false →
  __init__ env a = (Ok self2, evs2) →
  starting_epoch self2 = PInt (epoch + 1)
  ∧ best_val_acc self2 = best_val_acc self
  ∧ (∃ m0, model_load_state_dict env m0 (PState (model self)) (Args.strict a)
           = Ok (model self2))
  ∧ (∃ o o0 st,
       optimizer_ self = Some o
       ∧ make_optimizer a = Some o0
       ∧ optimizer_load_state_dict env (ostate o0) (PState (ostate o)) = Ok st
       ∧ ostate <$> optimizer_ self2 = Some st)
  ∧ (∀ sc, scheduler_ self2 = Some sc → last_epoch sc = PInt epoch).
Proof.
  intros Hcb Hin Hload Hne Hr He H.
  destruct (checkpoint_best_saves _ _ _ _ _ _ Hcb Hin)
    as (o & dir & Ho & _ & -> & _).
  destruct (init_stages _ _ _ _ H)
    as (opt0 & builder & model0 & gpus & pkg & sc0 & ev1 & ev2 & ev3 & ev4
        & ev5 & ev6 & ev7 & ev8 & ev9 & ev10 & _ & _ & _ & _ & _ & E6 & _ & E8
        & _ & E10 & _ & _ & Hsch).
  destruct (resume_model_inv _ _ _ _ _ _ _ Hr Hne E6)
    as (package & sd & -> & Hload' & Hsd & Hm & _).
  rewrite Hload in Hload'. injection Hload' as <-.
  destruct (resume_optimizer_inv _ _ _ _ _ _ _ _ Hr Hne He E8)
    as (Hse & Hb & Hopt).
  assert (Hk1 : checkpoint_dict self o epoch !! "epoch"
                = Some (PInt (epoch + 1))) by done.
  assert (Hk2 : checkpoint_dict self o epoch !! "best_val_acc"
                = Some (best_val_acc self)) by done.
  assert (Hk3 : checkpoint_dict self o epoch !! "optim_dict"
                = Some (PState (ostate o))) by done.
  assert (Hk4 : checkpoint_dict self o epoch !! "state_dict"
                = Some (PState (model self))) by done.
  rewrite Hk1 in Hse. rewrite Hk2 in Hb. rewrite Hk4 in Hsd.
  injection Hsd as <-.
  unfold optimizer_restored in Hopt. rewrite Hk3 in Hopt.
  destruct Hopt as (o0 & st & Hmk & Hst & Hopt & _).
  split; [done|]. split; [done|]. split; [by exists model0|].
  split. { exists o, o0, st. rewrite Hsch, Hopt. by destruct sc0. }
  intros sc Hsc.
  rewrite (resume_scheduler_inv a _ sc0 _ ev10 (epoch + 1)
             ltac:(by rewrite Hr, (truthy_Some _ Hne), He) Hk1 E10 sc Hsc).
  f_equal. lia.
Qed.

End RoundTrip.

Section InitAccepts.
Import Trainer Run.
Variable env : Env.

Lemma make_scheduler_Ok a opt sc ev :
  make_scheduler env a opt = (Ok sc, ev) →
  match sc with
  | None => Args.scheduler a = "FIXED"
  | Some s =>
      Args.scheduler a = "STEP"
      ∧ parse_int_list env (Args.milestones a) = Some (sched_milestones s)
      ∧ is_Some opt
  end.
Proof.
  unfold make_scheduler. case_decide as Hs.
  - destruct (parse_int_list env (Args.milestones a)) as [ms|]; [|done].
    destruct opt as [o|]; [|done]. cbn. by intros [= <- _].
  - case_decide; [|done]. by intros [= <- _].
Qed.

Lemma resume_scheduler_Ok a package sc0 sc ev :
  resume_scheduler a package sc0 = (Ok sc, ev) →
  match sc0, sc with
  | None, None => True
  | Some s0, Some s => sched_milestones s = sched_milestones s0
  | _, _ => False
  end.
Proof.
  unfold resume_scheduler. destruct sc0 as [s0|]; [|by intros [= <- _]].
  destruct (truthy (Args.resume a) && negb (Args.evaluate a));
    [|by intros [= <- _]].
  destruct package as [p|]; [|done]. cbn.
  destruct (p !! "epoch") as [[]|]; try done; by intros [= <- _].
Qed.

(** X21: what [__init__] accepts as args.scheduler.  An object is built
    only for 'FIXED', and then has no scheduler, or for 'STEP', and then
    has one whose milestones are the integers of args.milestones, which
    requires an optimizer (args.optim 'ADAM' or 'SGD'); for any other
    name, and for 'STEP' with an unknown optimizer or with milestones that
    are not integers, the constructor raises. *)
Theorem init_scheduler a self evs :
  __init__ env a = (Ok self, evs) →
  match scheduler_ self with
  | None => Args.scheduler a = "FIXED"
  | Some sc =>
      Args.scheduler a = "STEP"
      ∧ parse_int_list env (Args.milestones a) = Some (sched_milestones sc)
      ∧ Args.optim a ∈ ["ADAM"; "SGD"]
      ∧ is_Some (optimizer_ self)
  end.
Proof.
  intros H.
  destruct (init_stages _ _ _ _ H)
    as (opt0 & builder & model0 & gpus & pkg & sc0 & ev1 & ev2 & ev3 & ev4
        & ev5 & ev6 & ev7 & ev8 & ev9 & ev10 & _ & _ & _ & _ & _ & _ & _ & E8
        & E9 & E10 & _ & _ & Hsch).
  apply make_scheduler_Ok in E9. apply resume_scheduler_Ok in E10.
  destruct sc0 as [s0|], (scheduler_ self) as [sc|]; try done.
  destruct E9 as (Hs & Hp & Ho). rewrite E10.
  do 2 (split; [done|]).
  split; [|rewrite Hsch; by apply scheduled_is_Some].
  unfold make_optimizer in E8. repeat case_decide.
  - apply elem_of_cons. by left.
  - apply elem_of_cons. right. apply elem_of_cons. by left.
  - apply resume_optimizer_None in E8. rewrite E8 in Ho. by destruct Ho.
Qed.

(** X22: a trainer is only ever built around the model that
    [model_with_cfg] loads.  When [__init__] returns, the configuration of
    that model names args.dataset and the dataset's number of classes, and
    without args.resume the object's model is the loaded one.  The branch
    that should create a model when the configuration disagrees never
    yields an object: it reads a name that the module does not define. *)
Theorem init_model_from_cfg a self evs :
  __init__ env a = (Ok self, evs) →
  ∃ m0,
    model_with_cfg env (Args.network a) (Args.pretrained a)
    = CfgLoaded m0 (Args.dataset a) (num_classes self)
    ∧ Log "info" "Loaded {} from original examples" ∈ evs
    ∧ (truthy (Args.resume a) = false → model self = m0).
Proof.
  intros H.
  destruct (init_stages _ _ _ _ H)
    as (opt0 & builder & model0 & gpus & pkg & sc0 & ev1 & ev2 & ev3 & ev4
        & ev5 & ev6 & ev7 & ev8 & ev9 & ev10 & _ & _ & E3 & _ & _ & E6 & _ & _
        & _ & _ & _ & -> & _).
  apply load_model_Ok in E3 as [Hcfg ->].
  exists model0. split; [done|]. split.
  - apply elem_of_app. right. apply elem_of_app. right.
    apply elem_of_app. left. apply elem_of_cons. right.
    apply elem_of_cons. by left.
  - intros Hr. by destruct (resume_model_fresh _ _ _ _ _ _ Hr E6) as (-> & _).
Qed.

Lemma stage_quiet {A} (m : M A) (x : A) (ev : list event) :
  emits_only (λ e, is_placement e = false) m →
  m = (Ok x, ev) → filter (λ e, is_placement e = true) ev = [].
Proof.
  unfold emits_only. intros Hq ->. cbn in Hq.
  induction Hq as [|e ev He _ IH]; [done|].
  rewrite filter_cons_False; [done|]. by rewrite He.
Qed.

(** X23: the device and the placement of the model in [__init__].  Without
    args.gpus the device is the CPU and the model is neither moved nor
    wrapped.  With args.gpus the device is the first listed GPU; a single
    GPU has the model moved to it once, several GPUs have the model wrapped
    once in DataParallel over all of them and not moved. *)
Theorem init_device a self evs :
  __init__ env a = (Ok self, evs) →
  match Args.gpus a with
  | None =>
      device_ self = Cpu ∧ filter (λ e, is_placement e = true) evs = []
  | Some s =>
      ∃ g gs,
        parse_int_list env s = Some (g :: gs)
        ∧ device_ self = Cuda g
        ∧ filter (λ e, is_placement e = true) evs
          = [match gs with
             | [] => ModelTo (Cuda g)
             | _ => DataParallel (g :: gs)
             end]
  end.
Proof.
  intros H.
  destruct (init_stages _ _ _ _ H)
    as (opt0 & builder & model0 & gpus & pkg & sc0 & ev1 & ev2 & ev3 & ev4
        & ev5 & ev6 & ev7 & ev8 & ev9 & ev10 & E1 & E2 & E3 & E4 & E5 & E6 & E7
        & E8 & E9 & E10 & _ & -> & _).
  rewrite !filter_app.
  assert (Hq : ∀ {A} (m : M A) x ev,
             m = (Ok x, ev) →
             emits_only (λ e, is_placement e = false) m →
             filter (λ e, is_placement e = true) ev = []).
  { intros A m x ev Hm Hq. by apply (stage_quiet m x). }
  rewrite (Hq _ _ _ _ E1) by (unfold init_paths; cbv zeta; emits).
  rewrite (Hq _ _ _ _ E2) by (unfold select_dataset; emits).
  rewrite (Hq _ _ _ _ E3) by (unfold load_model; cbv zeta; emits).
  rewrite (Hq _ _ _ _ E4) by (unfold build_data; emits).
  rewrite (Hq _ _ _ _ E5) by (unfold setup_device; emits).
  rewrite (Hq _ _ _ _ E6) by (unfold resume_model; cbv zeta; emits).
  rewrite (Hq _ _ _ _ E8) by (unfold resume_optimizer; cbv zeta; emits).
  rewrite (Hq _ _ _ _ E9) by (unfold make_scheduler; emits).
  rewrite (Hq _ _ _ _ E10) by (unfold resume_scheduler; emits).
  clear Hq.
  rewrite !app_nil_r. cbn [app].
  unfold setup_device in E5. unfold place_model in E7.
  destruct (Args.gpus a) as [s|].
  - destruct (parse_int_list env s) as [[|g gs]|]; try done.
    injection E5 as Hd Hg _. rewrite <- Hd, <- Hg in *.
    exists g, gs. do 2 (split; [done|]).
    destruct gs as [|g2 gs]; injection E7 as <-; reflexivity.
  - injection E5 as Hd Hg _. rewrite <- Hd, <- Hg in *.
    by injection E7 as <-.
Qed.

End InitAccepts.

Section TopFive.
Import Trainer Run Accuracy.
Context {sel : TopK}.
Variable env : Env.


End TopFive.

Section TieBreaking.
Import Accuracy.

(** X26: what [accuracy] returns depends on how [topk] orders classes of
    equal score, which the scores do not determine. On the output
    [[1, 1, 0, 0]] with label 0 and topk=(1,), a [topk] that returns the
    lower index first gives 100 and one that returns the higher index
    first gives 0; both return, for every row, classes by decreasing
    score. *)
Theorem accuracy_depends_on_ties :
  @topk_law lowest_first
  ∧ @topk_law highest_first
  ∧ @accuracy lowest_first [[1; 1; 0; 0]]%Q [0] [1] = Ok [Float.scaled 1 1]
  ∧ @accuracy highest_first [[1; 1; 0; 0]]%Q [0] [1] = Ok [Float.zero]
  ∧ (Float.to_Q (Float.scaled 1 1) == 100)%Q
  ∧ Float.to_Q Float.zero = 0%Q.
Proof.
  split; [exact lowest_first_law|]. split; [exact highest_first_law|].
  split; [reflexivity|]. split; [reflexivity|]. split; reflexivity.
Qed.

End TieBreaking.

(* ===================================================================== *)
(** * The properties above on the concrete run                             *)
(* ===================================================================== *)

Section MoreWitnesses.
Import Trainer Run Accuracy.

Lemma checkpoint_records_best_witness :
  ∃ self' ev obj,
    eval_and_checkpoint Demo.env Demo.trainer 1 = (Ok self', ev)
    ∧ saved ev = [obj]
    ∧ obj !! "epoch" = Some (PInt 2)
    ∧ obj !! "best_val_acc" = Some (best_val_acc self').
Proof.
  assert (∃ self' ev,
            eval_and_checkpoint Demo.env Demo.trainer 1 = (Ok self', ev))
    as (self' & ev & E).
  { eexists _, _. vm_compute. reflexivity. }
  destruct (checkpoint_records_best Demo.env Demo.trainer 1 self' ev E
              eq_refl) as (obj & Hs & _ & He & Hb & _).
  exists self', ev, obj.
  split; [exact E|]. split; [exact Hs|]. split; [exact He|exact Hb].
Defined.

Lemma train_model_learning_rate_witness :
  ∃ self' ret evs o',
    train_model Demo.env Variants.late_trainer = (Ok (self', ret), evs)
    ∧ optimizer_ self' = Some o'
    ∧ olr o' = halved 1 (2 # 100)%Q.
Proof.
  assert (∃ self' ret evs,
            train_model Demo.env Variants.late_trainer
            = (Ok (self', ret), evs)) as (self' & ret & evs & E).
  { eexists _, _, _. vm_compute. reflexivity. }
  destruct (train_model_learning_rate Demo.env Variants.late_trainer self'
              ret evs (mkOptimizer "ADAM" (2 # 100)%Q 0) 39 E
              eq_refl eq_refl eq_refl) as (o' & Ho & _ & _ & Hlr).
  exists self', ret, evs, o'.
  split; [exact E|]. split; [exact Ho|exact Hlr].
Defined.

Lemma train_model_returns_iff_witness :
  ∃ self' ret evs, train_model Demo.env Demo.trainer = (Ok (self', ret), evs).
Proof.
  exact (proj2 (train_model_returns_iff Demo.env Demo.trainer 1 eq_refl
                  eq_refl) demo_trainable).
Defined.

Lemma rmsprop_unknown : "RMSPROP" ∉ ["ADAM"; "SGD"].
Proof.
  intros H. repeat (apply elem_of_cons in H as [H|H]; [discriminate H|]).
  by apply elem_of_nil in H.
Defined.

Lemma unknown_optimizer_fails_in_training_witness :
  ∃ self evs,
    __init__ Demo.env (Variants.with_optim "RMSPROP" Demo.args)
    = (Ok self, evs)
    ∧ optimizer_ self = None
    ∧ train_model Demo.env self = (Raise (AttributeError "optimizer"), []).
Proof.
  assert (∃ self evs,
            __init__ Demo.env (Variants.with_optim "RMSPROP" Demo.args)
            = (Ok self, evs)
            ∧ starting_epoch self = PInt 1) as (self & evs & E & Hs).
  { eexists _, _. split; vm_compute; reflexivity. }
  destruct (unknown_optimizer_fails_in_training Demo.env _ self evs E
              rmsprop_unknown) as (Ho & _ & Hrun).
  exists self, evs. split; [exact E|]. split; [exact Ho|].
  exact (Hrun 1 Hs eq_refl).
Defined.

Lemma init_directories_witness :
  ∃ self evs,
    __init__ Demo.env Demo.args = (Ok self, evs)
    ∧ mkdirs evs
      = ["experiments/MNIST_LFC_1W1A_20200101_120000";
         "experiments/MNIST_LFC_1W1A_20200101_120000/checkpoints"]
    ∧ Forall (λ e, is_mkdir e = false)
        (__init__ Demo.env (Variants.with_dry_run true Demo.args)).2.
Proof.
  assert (∃ self evs, __init__ Demo.env Demo.args = (Ok self, evs))
    as (self & evs & E).
  { eexists _, _. vm_compute. reflexivity. }
  destruct (proj2 (init_directories Demo.env Demo.args) self evs E)
    as (_ & Hm & Ho).
  exists self, evs. split; [exact E|]. split.
  - rewrite Hm, (Ho eq_refl). reflexivity.
  - exact (proj1 (init_directories Demo.env
                    (Variants.with_dry_run true Demo.args)) eq_refl).
Defined.

Lemma resume_from_returned_path_witness :
  ∃ self2 evs2,
    __init__ Demo.env (Demo.with_resume Demo.resume_path Demo.args)
    = (Ok self2, evs2)
    ∧ output_dir_path self2 = "experiments/run"
    ∧ checkpoints_dir_path self2 = Some "experiments/run/checkpoints"
    ∧ mkdirs evs2 = [].
Proof.
  assert (∃ self' evs,
            train_model Demo.env Variants.saved_trainer
            = (Ok (self', Some Demo.resume_path), evs)) as (self' & evs & E).
  { eexists _, _. vm_compute. reflexivity. }
  assert (∃ self2 evs2,
            __init__ Demo.env (Demo.with_resume Demo.resume_path Demo.args)
            = (Ok self2, evs2)) as (self2 & evs2 & E2).
  { eexists _, _. vm_compute. reflexivity. }
  destruct (resume_from_returned_path Demo.env Variants.saved_trainer self'
              Demo.resume_path evs
              (Demo.with_resume Demo.resume_path Demo.args) self2 evs2
              E eq_refl ltac:(discriminate) eq_refl eq_refl E2)
    as (_ & Ho & Hc & Hm).
  exists self2, evs2. split; [exact E2|]. split; [exact Ho|].
  split; [exact (Hc eq_refl)|exact Hm].
Defined.

Lemma checkpoint_resume_round_trip_witness :
  ∃ self2 evs2,
    __init__ Demo.env (Demo.with_resume Demo.resume_path Demo.args)
    = (Ok self2, evs2)
    ∧ starting_epoch self2 = PInt 3
    ∧ best_val_acc self2 = PFloat (90 # 1).
Proof.
  assert (∃ evs,
            checkpoint_best Variants.saved_trainer 2 "best.tar" = (Ok tt, evs)
            ∧ TorchSave Demo.package Demo.resume_path ∈ evs)
    as (evs & E & Hin).
  { eexists. split; [reflexivity|].
    apply elem_of_cons. right. apply elem_of_cons. left. reflexivity. }
  assert (∃ self2 evs2,
            __init__ Demo.env (Demo.with_resume Demo.resume_path Demo.args)
            = (Ok self2, evs2)) as (self2 & evs2 & E2).
  { eexists _, _. vm_compute. reflexivity. }
  destruct (checkpoint_resume_round_trip Demo.env Variants.saved_trainer 2
              "best.tar" evs Demo.package Demo.resume_path
              (Demo.with_resume Demo.resume_path Demo.args) self2 evs2
              E Hin eq_refl ltac:(discriminate) eq_refl eq_refl E2)
    as (Hs & Hb & _).
  exists self2, evs2. split; [exact E2|]. split; [exact Hs|exact Hb].
Defined.

Lemma init_scheduler_witness :
  ∃ self evs sc,
    __init__ Demo.env (Variants.with_scheduler "STEP" Demo.args)
    = (Ok self, evs)
    ∧ scheduler_ self = Some sc
    ∧ parse_int_list Demo.env "100,150,200,250" = Some (sched_milestones sc).
Proof.
  assert (∃ self evs sc,
            __init__ Demo.env (Variants.with_scheduler "STEP" Demo.args)
            = (Ok self, evs)
            ∧ scheduler_ self = Some sc) as (self & evs & sc & E & Hsc).
  { eexists _, _, _. split; vm_compute; reflexivity. }
  pose proof (init_scheduler Demo.env _ self evs E) as H.
  rewrite Hsc in H. destruct H as (_ & Hp & _).
  exists self, evs, sc. split; [exact E|]. split; [exact Hsc|exact Hp].
Defined.

Lemma init_model_from_cfg_witness :
  ∃ self evs,
    __init__ Demo.env Demo.args = (Ok self, evs)
    ∧ model_with_cfg Demo.env "LFC_1W1A" true
      = CfgLoaded (model self) "MNIST" (num_classes self).
Proof.
  assert (∃ self evs, __init__ Demo.env Demo.args = (Ok self, evs))
    as (self & evs & E).
  { eexists _, _. vm_compute. reflexivity. }
  destruct (init_model_from_cfg Demo.env Demo.args self evs E)
    as (m0 & Hcfg & _ & Hm).
  exists self, evs. split; [exact E|].
  rewrite (Hm eq_refl). exact Hcfg.
Defined.

Lemma init_device_witness :
  ∃ self evs,
    __init__ Demo.env (Variants.with_gpus (Some "100,150,200,250") Demo.args)
    = (Ok self, evs)
    ∧ device_ self = Cuda 100
    ∧ filter (λ e, is_placement e = true) evs
      = [DataParallel [100; 150; 200; 250]].
Proof.
  assert (∃ self evs,
            __init__ Demo.env
              (Variants.with_gpus (Some "100,150,200,250") Demo.args)
            = (Ok self, evs)) as (self & evs & E).
  { eexists _, _. vm_compute. reflexivity. }
  destruct (init_device Demo.env _ self evs E)
    as (g & gs & Hp & Hd & Hf).
  injection Hp as <- <-.
  exists self, evs. split; [exact E|]. split; [exact Hd|exact Hf].
Defined.

Lemma one_sample_batch_raises_witness :
  train_model Variants.env_batch_size_1 Demo.trainer
  = (Raise (IndexError
              "Dimension specified but tensor has no such dimension"), [])
  ∧ ¬ ∃ self' ret evs,
        train_model Variants.env_batch_size_11 Demo.trainer
        = (Ok (self', ret), evs).
Proof.
  split.
  - apply (proj1 (one_sample_batch_raises Variants.env_batch_size_1
                    Demo.trainer 1 eq_refl eq_refl eq_refl)).
    + reflexivity.
    + by eexists.
    + discriminate.
  - apply (proj2 (one_sample_batch_raises Variants.env_batch_size_11
                    Demo.trainer 1 eq_refl eq_refl eq_refl)).
    apply elem_of_app. right. apply elem_of_cons. by left.
Defined.


End MoreWitnesses.

Section CheckpointWitness.
Import Trainer Run.

Lemma checkpoint_best_all_or_nothing_witness :
  (∃ evs, checkpoint_best Demo.trainer 1 "best.tar" = (Ok tt, evs))
  ∧ ∃ evs,
      checkpoint_best Variants.dry_trainer 1 "best.tar"
      = (Raise (AttributeError "checkpoints_dir_path"), evs)
      ∧ Forall (λ e, is_write e = false) evs.
Proof.
  split.
  - apply (proj2 (proj1 (checkpoint_best_all_or_nothing Demo.trainer 1
                           "best.tar"))).
    split; eexists; reflexivity.
  - eexists. split; [reflexivity|].
    exact (proj2 (proj2 (checkpoint_best_all_or_nothing Variants.dry_trainer
                           1 "best.tar") _ _ eq_refl)).
Defined.

End CheckpointWitness.
